(** * go-digitemp: a 1-Wire bus master over a UART, verified against its spec

    A shallow embedding of the Go package [digitemp] (CRC8, ROM codes, the
    bit/byte channel of both serial back-ends, the Search-ROM loop and the
    temperature-sensor protocol), followed by the theorems that settle the
    claims C1..C10 of the specification.

    Conventions.
    - A Go [byte] is a [Z] in [0, 256); wrap-around is written out where the
      source can overflow.
    - A Go function returning [(T, error)] returns a [result T]; a run-time
      panic (nil dereference, index out of range) is the outcome
      [Abort Panic].
    - A [for] loop without a bound in the source runs on fuel; running out
      is the outcome [Abort OutOfFuel], and the theorems show the fuel that
      suffices.
    - Code that talks to the serial port is a state transformer over an
      abstract world [W]; the serial library is an interface (a type class)
      on [W]. *)

From Stdlib Require Import ZArith Lia String Ascii DecimalString.
From stdpp Require Import base tactics option numbers strings list.

Local Open Scope Z_scope.

(** ** Errors and results *)

(** The error values of the package.  [ErrMsg] is [errors.New] or a
    [fmt.Errorf] without verbs, [ErrFmt] a [fmt.Errorf] with numeric verbs
    (the text keeps the verbs, the arguments follow), [ErrIO] an error of the serial library,
    [ErrNum] a [*strconv.NumError]. *)
Inductive error : Type :=
  | ErrMsg (msg : string)
  | ErrFmt (msg : string) (args : list Z)
  | ErrIO (msg : string)
  | ErrNum (func num : string)
  | ErrRomNotFound (code : list Z).

(** What stops a call without a Go return value: a run-time panic, or the
    embedding's bound on an unbounded [for] loop running out. *)
Inductive abort : Type := Panic | OutOfFuel.

Inductive result (A : Type) : Type :=
  | Ok (a : A)
  | Err (e : error)
  | Abort (c : abort).

Arguments Ok {A} a.
Arguments Err {A} e.
Arguments Abort {A} c.

(** What a call on a serial library returns: a value or an error. *)
Inductive io (A : Type) : Type :=
  | Done (a : A)
  | Failed (e : error).

Arguments Done {A} a.
Arguments Failed {A} e.

Definition of_io {A} (r : io A) : result A :=
  match r with
  | Done a => Ok a
  | Failed e => Err e
  end.

(** State-and-error monad: the state is the adapter together with the world
    behind the serial port. *)
Definition M (S A : Type) : Type := S -> result A * S.

Definition ret {S A} (a : A) : M S A := fun s => (Ok a, s).
Definition fail {S A} (e : error) : M S A := fun s => (Err e, s).
Definition panic {S A} : M S A := fun s => (Abort Panic, s).

Definition bind {S A B} (m : M S A) (k : A -> M S B) : M S B :=
  fun s =>
    match m s with
    | (Ok a, s') => k a s'
    | (Err e, s') => (Err e, s')
    | (Abort c, s') => (Abort c, s')
    end.

Notation "'do' x <- m ; k" := (bind m (fun x => k))
  (at level 10, x name, m at level 100, k at level 200).
Notation "'do_' m ; k" := (bind m (fun _ => k))
  (at level 10, m at level 100, k at level 200).

(** ** Bytes *)

Definition byte_of (z : Z) : Z := z mod 256.

Definition is_byte (z : Z) : Prop := 0 <= z < 256.

Definition is_byteb (z : Z) : bool := (0 <=? z) && (z <? 256).

(** ** crc.go: Dallas/Maxim CRC8 *)

(** One turn of the inner loop: [mix := (crc ^ b) & 1; crc >>= 1;
    if mix > 0 { crc ^= 0x8c }; b >>= 1]. *)
Definition crc8_bit (st : Z * Z) : Z * Z :=
  let '(crc, b) := st in
  let mix := Z.land (Z.lxor crc b) 1 in
  let crc := Z.shiftr crc 1 in
  let crc := if 0 <? mix then Z.lxor crc 140 else crc in
  (crc, Z.shiftr b 1).

Definition crc8_byte (crc b : Z) : Z := fst (Nat.iter 8 crc8_bit (crc, b)).

Definition crc8 (data : list Z) : Z := fold_left crc8_byte data 0.

(** ** rom.go *)

Record ROM : Type := { Code : list Z }.

#[export] Instance ROM_eq_dec : EqDecision ROM.
Proof. solve_decision. Defined.

(** [new(ROM)]: the zero value of [[8]byte]. *)
Definition new_ROM : ROM := {| Code := replicate 8 0 |}.

(** [copy(r.Code[0:8], code)] copies [min 8 (len code)] bytes. *)
Definition NewROMFromBytes (code : list Z) : ROM :=
  {| Code := take 8 code ++ drop (length code) (replicate 8 0) |}.

Definition IsValid (r : ROM) : bool :=
  crc8 (take 7 (Code r)) =? default 0 (Code r !! 7%nat).

(** The second loop of [newRomFromBits]; [n] is the index of the head of
    [bits].  [r.Code[n/8] |= byte(0x01) << (n % 8)]. *)
Fixpoint romFromBitsLoop (n : nat) (bits : list Z) (code : list Z) : list Z :=
  match bits with
  | [] => code
  | bit :: rest =>
      if (64 <=? n)%nat then code
      else
        romFromBitsLoop (S n) rest
          (if 0 <? bit
           then alter (fun c => Z.lor c (byte_of (Z.shiftl 1 (Z.of_nat (n mod 8)))))
                      (n / 8)%nat code
           else code)
  end.

Definition newRomFromBits (bits : list Z) : ROM :=
  {| Code := romFromBitsLoop 0 bits (replicate 8 0) |}.

(** The inner loop of [toBits]: [m] turns of [bits = append(bits, b%2); b >>= 1]. *)
Fixpoint byteBits (m : nat) (b : Z) : list Z :=
  match m with
  | O => []
  | S m' => (b mod 2) :: byteBits m' (Z.shiftr b 1)
  end.

Definition toBits (r : ROM) : list Z := flat_map (byteBits 8) (Code r).

(** One digit of [%X]. *)
Definition hexChar (d : Z) : ascii :=
  ascii_of_nat (Z.to_nat (if d <? 10 then 48 + d else 55 + d)).

(** [fmt.Sprintf("%02X", b)] for a byte. *)
Definition hex2 (b : Z) : string :=
  String (hexChar (b / 16)) (String (hexChar (b mod 16)) EmptyString).

(** The method [String] of [ROM]: eight empty strings ([make([]string, 8)]),
    then the eight formatted bytes, joined. *)
Definition ROM_String (r : ROM) : string :=
  String.concat "" (replicate 8 ""%string ++ map hex2 (Code r)).

(** *** strconv.ParseInt(s, 16, 16) *)

(** Go's [lower(c) = c | ('x' - 'X')]. *)
Definition lower (c : Z) : Z := Z.lor c 32.

(** One digit of [strconv.ParseUint] in base 16: decimal digits, then letters
    (either case) whose value must be below the base. *)
Definition hexDigit (c : ascii) : option Z :=
  let n := Z.of_nat (nat_of_ascii c) in
  if (48 <=? n) && (n <=? 57) then Some (n - 48)
  else if (97 <=? lower n) && (lower n <=? 122) then
    let d := lower n - 97 + 10 in
    if 16 <=? d then None else Some d
  else None.

Fixpoint parseUint16 (acc : Z) (s : string) : option Z :=
  match s with
  | EmptyString => Some acc
  | String c rest =>
      match hexDigit c with
      | Some d => parseUint16 (acc * 16 + d) rest
      | None => None
      end
  end.

(** [strconv.ParseInt(s, 16, 16)]: an optional sign, then at least one hex
    digit; the value must fit 16 signed bits. *)
Definition ParseInt16 (s : string) : result Z :=
  match s with
  | EmptyString => Err (ErrNum "ParseInt" s)
  | String c rest =>
      let '(neg, digits) :=
        if Ascii.eqb c "+" then (false, rest)
        else if Ascii.eqb c "-" then (true, rest)
        else (false, s) in
      match digits with
      | EmptyString => Err (ErrNum "ParseInt" s)
      | _ =>
          match parseUint16 0 digits with
          | None => Err (ErrNum "ParseInt" s)
          | Some un =>
              if negb neg && (32768 <=? un) then Err (ErrNum "ParseInt" s)
              else if neg && (32768 <? un) then Err (ErrNum "ParseInt" s)
              else Ok (if neg then - un else un)
          end
      end
  end.

(** The loop of [NewROMFromString], counting [i] from [8 - n] up to 7. *)
Fixpoint romFromStringLoop (n : nat) (i : nat) (code : string) (acc : list Z)
  : result (list Z) :=
  match n with
  | O => Ok acc
  | S n' =>
      match ParseInt16 (substring (i * 2) 2 code) with
      | Ok b => romFromStringLoop n' (S i) code (<[i := byte_of b]> acc)
      | Err e => Err e
      | Abort c => Abort c
      end
  end.

Definition NewROMFromString (code : string) : result ROM :=
  if negb (String.length code =? 16)%nat then Err (ErrMsg "wrong rom code length")
  else
    match romFromStringLoop 8 0 code (replicate 8 0) with
    | Ok c => Ok {| Code := c |}
    | Err e => Err e
    | Abort c => Abort c
    end.

(** ** The serial libraries, as interfaces on the world *)

(** A port handle ([*serial.Port] of tarm/serial). *)
Definition handle : Type := nat.

(** [github.com/tarm/serial], the back-end of bus.go.  [Read h len] returns
    the bytes the driver stored at the head of a [len]-byte buffer; their
    number is the [n] of Go's [Read]. *)
Class TarmSerial (W : Type) : Type := {
  tarm_OpenPort : string -> Z -> W -> io handle * W;
  tarm_Write : handle -> list Z -> W -> io Z * W;
  tarm_Read : handle -> nat -> W -> io (list Z) * W;
  tarm_Flush : handle -> W -> io unit * W;
  tarm_Close : handle -> W -> io unit * W
}.

(** The clock of the world: [clock] is the reading of [time.Now] in
    nanoseconds, [sleep] is [time.Sleep]. *)
Class Clock (W : Type) : Type := {
  clock : W -> Z;
  sleep : Z -> W -> W
}.

(** [serial.Mode] of go.bug.st/serial. *)
Record Mode : Type := {
  BaudRate : Z;
  DataBits : Z;
  Parity : Z;
  StopBits : Z
}.

Definition NoParity : Z := 0.
Definition OneStopBit : Z := 0.

(** [go.bug.st/serial], the back-end of bus-driver.go: one open port whose
    mode is changed in place. *)
Class BugstSerial (W : Type) : Type := {
  bugst_SetMode : Mode -> W -> io unit * W;
  bugst_Write : list Z -> W -> io Z * W;
  bugst_Read : nat -> W -> io (list Z) * W;
  bugst_ResetInputBuffer : W -> io unit * W;
  bugst_ResetOutputBuffer : W -> io unit * W;
  bugst_Close : W -> io unit * W
}.

(** The contents of a zeroed [len]-byte buffer after the driver stored [data]
    at its head. *)
Definition fill_buffer (len : nat) (data : list Z) : list Z :=
  take len data ++ replicate (len - length data) 0.

(** [buffer[n]] of a Go array or slice known to hold index [n]. *)
Definition at_ (l : list Z) (n : nat) : Z := default 0 (l !! n).

(** The loop [for n, bit := range buffer { if bit == 0xff { data += 0x01 << n } }]
    of [ReadByte]/[readByte]; [n] is the index of the head of [buffer]. *)
Fixpoint packBits (n : nat) (buffer : list Z) (data : Z) : Z :=
  match buffer with
  | [] => data
  | bit :: rest =>
      packBits (S n) rest
        (if bit =? 255 then byte_of (data + byte_of (Z.shiftl 1 (Z.of_nat n)))
         else data)
  end.

(** The loop [for n := 0; n < 8; n++ { if (data>>n)%2 != 0 { bits[n] = 0xff } }]
    of [WriteByte]/[writeByte], from index [n] for [k] turns. *)
Fixpoint unpackBits (k : nat) (n : nat) (data : Z) (bits : list Z) : list Z :=
  match k with
  | O => bits
  | S k' =>
      unpackBits k' (S n) data
        (if negb (Z.shiftr data (Z.of_nat n) mod 2 =? 0) then <[n := 255]> bits
         else bits)
  end.

(** The loop [for n, bit := range bits { if buffer[n] != bit { return error } }]:
    the first index at which the echo differs from what was sent. *)
Fixpoint firstNoise (n : nat) (bits buffer : list Z) : option (nat * Z * Z) :=
  match bits with
  | [] => None
  | bit :: rest =>
      if negb (at_ buffer n =? bit) then Some (n, at_ buffer n, bit)
      else firstNoise (S n) rest buffer
  end.

(** ** The Search-ROM loop

    [searchROM] is written twice in the package, with the same text up to the
    names of the four bus primitives it calls: in onewire-device.go on
    [d.bus.Reset], [WriteByte], [ReadBit], [WriteBit] of bus.go, and in
    bus-driver.go on [a.reset], [writeByte], [readBit], [writeBit].  The loop
    is embedded once, over the four primitives, and instantiated per file. *)

Section SearchLoop.
Context {St : Type}.
Variable reset : M St unit.
Variable writeByte : Z -> M St unit.
Variable readBit : M St Z.
Variable writeBit : Z -> M St unit.

(** [for _, bit := range current]: skip bitN and its complement, write the
    known bit. *)
Fixpoint sendKnownBits (current : list Z) : M St unit :=
  match current with
  | [] => ret tt
  | bit :: rest =>
      do_ readBit;
      do_ readBit;
      do_ writeBit bit;
      sendKnownBits rest
  end.

(** [for len(current) < 64 { ... }].  Every turn either appends one bit to
    [current], leaves the loop ([break]) or returns, so [64 - len(current)]
    turns bound it; [n] counts them down, and the loop condition is tested
    as in the source. *)
Fixpoint readRestBits (WithAlarm : bool) (n : nat)
    (current : list Z) (partials : list (list Z))
  : M St (list Z * list (list Z)) :=
  match n with
  | O => ret (current, partials)
  | S n' =>
      if negb (length current <? 64)%nat then ret (current, partials)
      else
        do b1 <- readBit;
        do b2 <- readBit;
        if negb (b1 =? b2) then
          let current := current ++ [b1] in
          do_ writeBit b1;
          readRestBits WithAlarm n' current partials
        else if (b1 =? b2) && (b1 =? 0) then
          let r := current ++ [1] in
          let partials := partials ++ [r] in
          let current := current ++ [0] in
          do_ writeBit 0;
          readRestBits WithAlarm n' current partials
        else if WithAlarm then ret (current, partials)
        else fail (ErrMsg "search command got wrong bits (two sequential 0b1)")
  end.

(** The outer [for { ... }] of [searchROM].  It has no bound in the source;
    [fuel] counts its rounds. *)
Fixpoint searchRounds (fuel : nat) (WithAlarm : bool) (command : Z)
    (complete : list ROM) (partials : list (list Z)) (current : list Z)
  : M St (list ROM) :=
  fun s =>
    match fuel with
    | O => (Abort OutOfFuel, s)
    | S fuel' =>
        let round :=
          do_ reset;
          do_ writeByte command;
          do_ sendKnownBits current;
          readRestBits WithAlarm (64 - length current) current partials in
        match round s with
        | (Ok (current, partials), s') =>
            let complete := complete ++ [newRomFromBits current] in
            match partials with
            | [] => (Ok complete, s')
            | next :: partials' =>
                searchRounds fuel' WithAlarm command complete partials' next s'
            end
        | (Err e, s') => (Err e, s')
        | (Abort c, s') => (Abort c, s')
        end
    end.

Definition searchROM_on (fuel : nat) (WithAlarm : bool) : M St (list ROM) :=
  let command := if WithAlarm then 236 else 240 in
  searchRounds fuel WithAlarm command [] [] [].

(** [isConnected]'s loop over [rom.toBits()]; the errors of the two reads
    are dropped ([b1, _ := ...]), and a failed read yields bit 0. *)
Definition readBit_ignored : M St Z :=
  fun s =>
    match readBit s with
    | (Ok b, s') => (Ok b, s')
    | (Err _, s') => (Ok 0, s')
    | (Abort c, s') => (Abort c, s')
    end.

Fixpoint isConnectedLoop (bits : list Z) : M St bool :=
  match bits with
  | [] => ret true
  | bit :: rest =>
      do b1 <- readBit_ignored;
      do b2 <- readBit_ignored;
      if (b1 =? b2) && (b1 =? 1) then ret false
      else
        do_ writeBit bit;
        isConnectedLoop rest
  end.

Definition isConnected_on (rom : ROM) : M St bool :=
  do_ reset;
  do_ writeByte 240;
  isConnectedLoop (toBits rom).

End SearchLoop.

(** ** bus.go: the adapter over tarm/serial *)

Module Tarm.

(** [UARTAdapter] of bus.go.  The mutex [mx] is not modelled: the embedding is
    sequential and [Lock]/[Unlock] are no-ops in it. *)
Record UARTAdapter : Type := {
  device : string;
  uart : option handle
}.

Record Bus (W : Type) : Type := { adapter : UARTAdapter; world : W }.
Arguments adapter {W} _.
Arguments world {W} _.

Section Adapter.
Context {W : Type} `{TarmSerial W}.

Abbreviation St := (Bus W).

(** A call on the library with the world threaded through. *)
Definition lib {A} (f : W -> io A * W) : M St A :=
  fun s =>
    let '(r, w) := f (world s) in
    (of_io r, {| adapter := adapter s; world := w |}).

(** A method call on [a.uart]; a nil port panics inside the library. *)
Definition on_uart {A} (f : handle -> W -> io A * W) : M St A :=
  fun s =>
    match uart (adapter s) with
    | Some h => lib (f h) s
    | None => (Abort Panic, s)
    end.

Definition set_uart (h : handle) : M St unit :=
  fun s =>
    (Ok tt, {| adapter := {| device := device (adapter s); uart := Some h |};
               world := world s |}).

Definition get_device : M St string := fun s => (Ok (device (adapter s)), s).

Definition Close : M St unit :=
  fun s =>
    match uart (adapter s) with
    | Some h => lib (tarm_Close h) s
    | None => (Ok tt, s)
    end.

Definition Reset : M St unit :=
  do name <- get_device;
  do_ Close;
  do p <- lib (tarm_OpenPort name 9600);
  do_ lib (tarm_Write p [240]);
  do data <- lib (tarm_Read p 1);
  let n := length data in
  let buffer := fill_buffer 1 data in
  if negb (n =? 1)%nat then
    fail (ErrFmt "reset: bits expected: 1, got: %d" [Z.of_nat n])
  else if at_ buffer 0 =? 255 then
    fail (ErrMsg "no 1-wire device present")
  else if (at_ buffer 0 <? 16) || (224 <? at_ buffer 0) then
    fail (ErrFmt "presence error 0x%x" [at_ buffer 0])
  else
    do p' <- lib (tarm_OpenPort name 115200);
    set_uart p'.

Definition Clear : M St unit := on_uart tarm_Flush.

(** [_ = a.uart.Flush()]: the error is dropped, the world moves on. *)
Definition flush_ignored : M St unit :=
  fun s =>
    match on_uart tarm_Flush s with
    | (Abort c, s') => (Abort c, s')
    | (_, s') => (Ok tt, s')
    end.

Definition ReadBit : M St Z :=
  do_ flush_ignored;
  do_ on_uart (fun h => tarm_Write h [255]);
  do data <- on_uart (fun h => tarm_Read h 1);
  let n := length data in
  let buffer := fill_buffer 1 data in
  if negb (n =? 1)%nat then
    fail (ErrFmt "bits expected: 1, got: %d" [Z.of_nat n])
  else if at_ buffer 0 =? 255 then ret 1
  else ret 0.

Definition ReadByte : M St Z :=
  do_ flush_ignored;
  do_ on_uart (fun h => tarm_Write h (replicate 8 255));
  do data <- on_uart (fun h => tarm_Read h 8);
  let n := length data in
  let buffer := fill_buffer 8 data in
  if negb (n =? 8)%nat then
    fail (ErrFmt "bits expected: 8, got: %d" [Z.of_nat n])
  else ret (packBits 0 buffer 0).

Definition WriteBit (data : Z) : M St unit :=
  do_ flush_ignored;
  let data := if data mod 2 =? 0 then 0 else 255 in
  do_ on_uart (fun h => tarm_Write h [data]);
  do rd <- on_uart (fun h => tarm_Read h 1);
  let n := length rd in
  let buffer := fill_buffer 1 rd in
  if negb (n =? 1)%nat then fail (ErrMsg "WriteBit: cannot read back")
  else if negb (data =? at_ buffer 0) then fail (ErrMsg "WriteBit: noize detected")
  else ret tt.

Definition WriteByte (data : Z) : M St unit :=
  do_ flush_ignored;
  let bits := unpackBits 8 0 data (replicate 8 0) in
  do_ on_uart (fun h => tarm_Write h bits);
  do rd <- on_uart (fun h => tarm_Read h 8);
  let n := length rd in
  let buffer := fill_buffer 8 rd in
  if negb (n =? 8)%nat then fail (ErrMsg "WriteByte: cannot read back")
  else
    match firstNoise 0 bits buffer with
    | Some _ => fail (ErrMsg "WriteByte: noize detected")
    | None => ret tt
    end.

(** The loop of [ReadBytes]: [k] turns from index [i].  The result is the
    buffer, the count and the error of Go's [(int, error)]; on an error the
    slot [buffer[i]] has received the zero byte [ReadByte] returns with it. *)
Fixpoint ReadBytesLoop (k : nat) (i : nat) (buffer : list Z)
  : M St (list Z * Z * option error) :=
  match k with
  | O => ret (buffer, Z.of_nat i + 1, None)
  | S k' =>
      fun s =>
        match ReadByte s with
        | (Ok b, s') => ReadBytesLoop k' (S i) (<[i := b]> buffer) s'
        | (Err e, s') => (Ok (<[i := 0]> buffer, Z.of_nat i, Some e), s')
        | (Abort c, s') => (Abort c, s')
        end
  end.

(** [ReadBytes]: after the loop [i += 1] and [return i, nil]. *)
Definition ReadBytes (buffer : list Z) : M St (list Z * Z * option error) :=
  ReadBytesLoop (length buffer) 0 buffer.

Fixpoint WriteBytesLoop (i : nat) (rest : list Z) (len : Z)
  : M St (Z * option error) :=
  match rest with
  | [] => ret (len, None)
  | b :: rest' =>
      fun s =>
        match WriteByte b s with
        | (Ok _, s') => WriteBytesLoop (S i) rest' len s'
        | (Err e, s') => (Ok (Z.of_nat i, Some e), s')
        | (Abort c, s') => (Abort c, s')
        end
  end.

Definition WriteBytes (buffer : list Z) : M St (Z * option error) :=
  WriteBytesLoop 0 buffer (Z.of_nat (length buffer)).

End Adapter.

(** *** onewire-device.go *)

Section Device.
Context {W : Type} `{TarmSerial W}.

Abbreviation St := (Bus W).

(** READ ROM [33h]. *)
Definition readROM : M St ROM :=
  do_ Reset;
  do_ WriteByte 51;
  let rom := new_ROM in
  do r <- ReadBytes (Code rom);
  let '(code, _, err) := r in
  match err with
  | Some e => fail e
  | None =>
      let rom := {| Code := code |} in
      if negb (IsValid rom) then fail (ErrMsg "crc error")
      else ret rom
  end.

(** MATCH ROM [55h]; [rom] is a pointer, dereferenced after the command
    byte went out. *)
Definition matchROM (rom : option ROM) : M St unit :=
  do_ Reset;
  do_ WriteByte 85;
  match rom with
  | None => panic
  | Some r =>
      do w <- WriteBytes (Code r);
      match snd w with
      | Some e => fail e
      | None => ret tt
      end
  end.

Definition skipROM : M St unit :=
  do_ Reset;
  WriteByte 204.

(** SEARCH ROM [F0h] / ALARM SEARCH [ECh] of onewire-device.go. *)
Definition searchROM (fuel : nat) (WithAlarm : bool) : M St (list ROM) :=
  searchROM_on Reset WriteByte ReadBit WriteBit fuel WithAlarm.

Definition isConnected (rom : ROM) : M St bool :=
  isConnected_on Reset WriteByte ReadBit WriteBit rom.

Definition GetSingleROM : M St ROM := readROM.
Definition GetConnectedROMs (fuel : nat) : M St (list ROM) := searchROM fuel false.
Definition GetROMsWithAlarm (fuel : nat) : M St (list ROM) := searchROM fuel true.
Definition IsConnected (rom : ROM) : M St bool := isConnected rom.

End Device.

(** *** onewire-temperature-sensor.go *)

Definition BSResolution9bits : Z := 0.
Definition BS18S20ResolutionExtended : Z := 1.
Definition BS18B20Resolution9bits : Z := 0.
Definition BS18B20Resolution10bits : Z := 1.
Definition BS18B20Resolution11bits : Z := 2.
Definition BS18B20Resolution12bits : Z := 3.

(** [time.Millisecond], in nanoseconds. *)
Definition Millisecond : Z := 1000000.

(** The sensor without its bus pointer (the bus is the state of the monad).
    Durations are [time.Duration] values: nanoseconds. *)
Record TemperatureSensor : Type := {
  rom : option ROM;
  familyCode : Z;
  singleMode : bool;
  parasiticMode : bool;
  resolution : Z;
  description : string;
  precision : string;
  tConv : Z;
  tRW : Z
}.

Definition with_resolution (s : TemperatureSensor) (r : Z) : TemperatureSensor :=
  {| rom := rom s; familyCode := familyCode s; singleMode := singleMode s;
     parasiticMode := parasiticMode s; resolution := r;
     description := description s; precision := precision s;
     tConv := tConv s; tRW := tRW s |}.

Definition with_precision (s : TemperatureSensor) (p : string) : TemperatureSensor :=
  {| rom := rom s; familyCode := familyCode s; singleMode := singleMode s;
     parasiticMode := parasiticMode s; resolution := resolution s;
     description := description s; precision := p;
     tConv := tConv s; tRW := tRW s |}.

Definition with_tConv (s : TemperatureSensor) (t : Z) : TemperatureSensor :=
  {| rom := rom s; familyCode := familyCode s; singleMode := singleMode s;
     parasiticMode := parasiticMode s; resolution := resolution s;
     description := description s; precision := precision s;
     tConv := t; tRW := tRW s |}.

(** [fmt.Sprintf("%d bits", n)] for a byte [n]. *)
Definition sprintf_bits (n : Z) : string :=
  (NilZero.string_of_uint (N.to_uint (Z.to_N n)) ++ " bits")%string.

(** [time.Millisecond * (750 / (8 >> s.resolution))]: the untyped constants
    take the type [time.Duration], the division is the integer one, and a
    zero divisor panics. *)
Definition convTime (resolution : Z) : result Z :=
  let d := Z.shiftr 8 resolution in
  if d =? 0 then Abort Panic else Ok (Millisecond * (750 ÷ d)).

(** [binary.Read(bytes.NewReader(scratchpad), binary.LittleEndian, &t)] with
    [t int16]; the error of a short read is dropped and [t] stays 0. *)
Definition int16_le (scratchpad : list Z) : Z :=
  match scratchpad with
  | b0 :: b1 :: _ =>
      let u := b0 + 256 * b1 in
      if u <? 32768 then u else u - 65536
  | _ => 0
  end.

(** [int8(b)] of a byte. *)
Definition int8_of (b : Z) : Z := if b <? 128 then b else b - 256.

(** [scratchpad[n]], which panics out of range. *)
Definition index (scratchpad : list Z) (n : nat) : result Z :=
  match scratchpad !! n with
  | Some b => Ok b
  | None => Abort Panic
  end.

Definition calcTemperature (s : TemperatureSensor) (scratchpad : list Z) : result Z :=
  let t := int16_le scratchpad in
  if familyCode s =? 16 then
    let temp := t * 5000 in
    if BSResolution9bits <? resolution s then
      match index scratchpad 6, index scratchpad 7 with
      | Ok countRemain, Ok countPerC =>
          if countPerC =? 0 then Abort Panic
          else Ok (temp - 2500 + (10000 * (countPerC - countRemain)) ÷ countPerC)
      | _, _ => Abort Panic
      end
    else Ok temp
  else if (familyCode s =? 34) || (familyCode s =? 40) then
    Ok ((t * 10000) ÷ 16)
  else Ok 0.

Section Sensor.
Context {W : Type} `{TarmSerial W} `{Clock W}.

Abbreviation St := (Bus W).

(** Send reset pulse, wait for presence and then select the device. *)
Definition reset (s : TemperatureSensor) : M St unit :=
  if singleMode s then skipROM else matchROM (rom s).

(** The polling loop of [wait]. *)
Fixpoint waitLoop (fuel : nat) (startedAt duration : Z) : M St unit :=
  fun st =>
    match fuel with
    | O => (Abort OutOfFuel, st)
    | S fuel' =>
        match ReadBit st with
        | (Ok b, st') =>
            if negb (b =? 0) then (Ok tt, st')
            else if duration <? clock (world st') - startedAt then (Ok tt, st')
            else waitLoop fuel' startedAt duration st'
        | (Err e, st') => (Err e, st')
        | (Abort c, st') => (Abort c, st')
        end
    end.

Definition wait (fuel : nat) (s : TemperatureSensor) (duration : Z) : M St unit :=
  if parasiticMode s then
    fun st => (Ok tt, {| adapter := adapter st; world := sleep duration (world st) |})
  else
    fun st => waitLoop fuel (clock (world st)) duration st.

(** CONVERT T [44h]. *)
Definition convertT (fuel : nat) (s : TemperatureSensor) : M St unit :=
  do_ reset s;
  do_ WriteByte 68;
  wait fuel s (tConv s).

(** READ POWER SUPPLY [B4h]. *)
Definition inParasiticMode (s : TemperatureSensor) : M St bool :=
  do_ reset s;
  do_ WriteByte 180;
  do pm <- ReadBit;
  ret (pm =? 0).

(** READ SCRATCHPAD [BEh]. *)
Definition readScratchpad (s : TemperatureSensor) : M St (list Z) :=
  do_ reset s;
  do_ WriteByte 190;
  do r <- ReadBytes (replicate 9 0);
  let '(data, _, err) := r in
  match err with
  | Some e => fail e
  | None =>
      let scratchpad := take 8 data in
      let crc := at_ data 8 in
      if negb (crc8 scratchpad =? crc) then fail (ErrMsg "scratchpad crc error")
      else ret scratchpad
  end.

(** WRITE SCRATCHPAD [4Eh]. *)
Definition writeScratchpad (s : TemperatureSensor) (data : list Z) : M St unit :=
  do_ reset s;
  do_ WriteByte 78;
  do w <- WriteBytes data;
  match snd w with
  | Some e => fail e
  | None => ret tt
  end.

(** COPY SCRATCHPAD [48h]. *)
Definition copyScratchpad (fuel : nat) (s : TemperatureSensor) : M St unit :=
  do_ reset s;
  do_ WriteByte 72;
  wait fuel s (tRW s).

(** RECALL EE [B8h]. *)
Definition recallScratchpad (fuel : nat) (s : TemperatureSensor) : M St unit :=
  if parasiticMode s then ret tt
  else
    do_ reset s;
    do_ WriteByte 184;
    wait fuel s (tConv s).

Definition SaveEEPROM (fuel : nat) (s : TemperatureSensor) : M St unit :=
  copyScratchpad fuel s.

Definition LoadEEPROM (fuel : nat) (s : TemperatureSensor) : M St unit :=
  recallScratchpad fuel s.

(** Returns temperature * 100 degrees. *)
Definition GetTemperature (fuel : nat) (s : TemperatureSensor) : M St Z :=
  do_ convertT fuel s;
  do sp <- readScratchpad s;
  fun st =>
    match calcTemperature s sp with
    | Ok t => (Ok (t ÷ 100), st)
    | Err e => (Err e, st)
    | Abort c => (Abort c, st)
    end.

Definition GetAlarms (s : TemperatureSensor) : M St (Z * Z) :=
  do sp <- readScratchpad s;
  ret (int8_of (at_ sp 2), int8_of (at_ sp 3)).

Definition SetAlarms (s : TemperatureSensor) (high low : Z) : M St unit :=
  do scratchpad <- readScratchpad s;
  let data := [byte_of high; byte_of low] in
  let data :=
    if (familyCode s =? 34) || (familyCode s =? 40)
    then data ++ [at_ scratchpad 4] else data in
  writeScratchpad s data.

Definition GetResolution (s : TemperatureSensor) : Z := resolution s.

(** [SetResolution] updates the receiver in place: the state is the sensor
    together with the bus, and the sensor of the final state is the
    receiver after the call, also when the call returns an error. *)
Definition SetResolution (resolution : Z) : M (TemperatureSensor * St) unit :=
  fun '(s, st) =>
    if familyCode s =? 16 then
      if resolution =? BSResolution9bits then
        (Ok tt, (with_precision (with_resolution s BSResolution9bits) "9 bits", st))
      else
        (Ok tt, (with_precision (with_resolution s BS18S20ResolutionExtended)
                   "extended", st))
    else if (familyCode s =? 34) || (familyCode s =? 40) then
      match readScratchpad s st with
      | (Ok scratchpad, st1) =>
          let s1 := with_resolution s (Z.land resolution 3) in
          let data := [at_ scratchpad 2; at_ scratchpad 3] in
          let data :=
            data ++ [Z.lor (byte_of (Z.shiftl (Tarm.resolution s1) 5)) 31] in
          match writeScratchpad s1 data st1 with
          | (Ok _, st2) =>
              match convTime (Tarm.resolution s1) with
              | Ok t =>
                  let s2 := with_tConv s1 t in
                  let s3 :=
                    with_precision s2
                      (sprintf_bits (byte_of (9 + Tarm.resolution s2))) in
                  (Ok tt, (s3, st2))
              | Err e => (Err e, (s1, st2))
              | Abort c => (Abort c, (s1, st2))
              end
          | (Err e, st2) => (Err e, (s1, st2))
          | (Abort c, st2) => (Abort c, (s1, st2))
          end
      | (Err e, st1) => (Err e, (s, st1))
      | (Abort c, st1) => (Abort c, (s, st1))
      end
    else (Ok tt, (s, st)).

(** The description switch of [NewTemperatureSensor]. *)
Definition describe (familyCode : Z) : string :=
  if familyCode =? 0 then "Unidentified device"
  else if familyCode =? 16 then "DS18S20 - High-precision Digital Thermometer"
  else if familyCode =? 34 then "DS1822 - Econo Digital Thermometer"
  else if familyCode =? 40 then
    "DS18B20 - Programmable Resolution Digital Thermometer"
  else "".

Definition mkSensor (rom : option ROM) (single parasitic : bool)
    (family : Z) : TemperatureSensor :=
  {| rom := rom; familyCode := family; singleMode := single;
     parasiticMode := parasitic; resolution := BSResolution9bits;
     description := ""; precision := "";
     tConv := 750 * Millisecond; tRW := 10 * Millisecond |}.

(** The part of [NewTemperatureSensor] after the ROM is settled. *)
Definition finishSensor (s : TemperatureSensor) : M St TemperatureSensor :=
  do pm <- inParasiticMode s;
  let s := mkSensor (rom s) (singleMode s) pm 0 in
  match rom s with
  | None => panic
  | Some r =>
      let family := at_ (Code r) 0 in
      let s := mkSensor (rom s) (singleMode s) pm family in
      let s :=
        {| rom := rom s; familyCode := familyCode s; singleMode := singleMode s;
           parasiticMode := parasiticMode s; resolution := resolution s;
           description := describe family; precision := precision s;
           tConv := tConv s; tRW := tRW s |} in
      if family =? 16 then
        if resolution s =? BSResolution9bits then ret (with_precision s "9 bits")
        else ret (with_precision s "extended")
      else if (family =? 34) || (family =? 40) then
        do sp <- readScratchpad s;
        let s := with_resolution s (Z.land (Z.shiftr (at_ sp 4) 5) 3) in
        fun st =>
          match convTime (resolution s) with
          | Ok t =>
              let s := with_tConv s t in
              (Ok (with_precision s (sprintf_bits (byte_of (9 + resolution s)))),
               st)
          | Err e => (Err e, st)
          | Abort c => (Abort c, st)
          end
      else ret (with_precision s "unknown")
  end.

Definition NewTemperatureSensor (rom : option ROM) (required : bool)
  : M St TemperatureSensor :=
  match rom with
  | None =>
      let s := mkSensor None true false 0 in
      fun st =>
        match readROM st with
        | (Ok r, st') => finishSensor (mkSensor (Some r) true false 0) st'
        | (Err _, st') =>
            if required then (Err (ErrMsg "cannot read sensor's ROM code"), st')
            else finishSensor s st'
        | (Abort c, st') => (Abort c, st')
        end
  | Some r =>
      let s := mkSensor (Some r) false false 0 in
      do online <- isConnected r;
      if required && negb online then fail (ErrRomNotFound (Code r))
      else finishSensor s
  end.

End Sensor.

End Tarm.

(** ** bus-driver.go: the adapter over go.bug.st/serial *)

Module Bugst.

(** [UARTAdapter] of bus-driver.go; [uart] tells whether the port interface
    value is non-nil.  The mutex is not modelled. *)
Record UARTAdapter : Type := {
  device : string;
  uart : bool;
  mode : Mode
}.

Record Bus (W : Type) : Type := { adapter : UARTAdapter; world : W }.
Arguments adapter {W} _.
Arguments world {W} _.

(** The adapter after [a.mode.BaudRate = baud]. *)
Definition with_baud (a : UARTAdapter) (baud : Z) : UARTAdapter :=
  {| device := device a; uart := uart a;
     mode := {| BaudRate := baud; DataBits := DataBits (mode a);
                Parity := Parity (mode a); StopBits := StopBits (mode a) |} |}.

Section Adapter.
Context {W : Type} `{BugstSerial W}.

Abbreviation St := (Bus W).

(** A method call on [a.uart]; a nil interface value panics. *)
Definition on_uart {A} (f : W -> io A * W) : M St A :=
  fun s =>
    if uart (adapter s) then
      let '(r, w) := f (world s) in
      (of_io r, {| adapter := adapter s; world := w |})
    else (Abort Panic, s).

(** [a.mode.BaudRate = baud]. *)
Definition set_baud (baud : Z) : M St unit :=
  fun s => (Ok tt, {| adapter := with_baud (adapter s) baud; world := world s |}).

(** [a.uart.SetMode(&a.mode)]. *)
Definition SetMode : M St unit :=
  fun s => on_uart (bugst_SetMode (mode (adapter s))) s.

(** Discards data in input/output buffers. *)
Definition clear : M St unit :=
  do_ on_uart bugst_ResetOutputBuffer;
  on_uart bugst_ResetInputBuffer.

(** [_ = a.clear()]. *)
Definition clear_ignored : M St unit :=
  fun s =>
    match clear s with
    | (Abort c, s') => (Abort c, s')
    | (_, s') => (Ok tt, s')
    end.

(** The closure [pulse] of [reset]. *)
Definition pulse : M St unit :=
  do n <- on_uart (bugst_Write [240]);
  if negb (n =? 1) then fail (ErrMsg "failed to write reset pulse")
  else
    do data <- on_uart (bugst_Read 1);
    let n := length data in
    let buffer := fill_buffer 1 data in
    if negb (n =? 1)%nat then fail (ErrMsg "failed to read back reset pulse")
    else if negb (Z.land (at_ buffer 0) 15 =? 0) then
      fail (ErrFmt "reset pulse error 0x%x" [at_ buffer 0])
    else if Z.shiftr (at_ buffer 0) 4 =? 15 then
      fail (ErrMsg "no 1-wire device present")
    else ret tt.

(** Send Reset impulse and check device's presence. *)
Definition reset : M St unit :=
  do_ set_baud 9600;
  do_ SetMode;
  do_ clear;
  fun s =>
    match pulse s with
    | (Abort c, s1) => (Abort c, s1)
    | (pulseErr, s1) =>
        match (do_ set_baud 115200; SetMode) s1 with
        | (Ok _, s2) => (pulseErr, s2)
        | (Err e, s2) => (Err e, s2)
        | (Abort c, s2) => (Abort c, s2)
        end
    end.

Definition close : M St unit :=
  fun s => if uart (adapter s) then on_uart bugst_Close s else (Ok tt, s).

Definition readByte : M St Z :=
  do_ clear_ignored;
  do_ on_uart (bugst_Write (replicate 8 255));
  do data <- on_uart (bugst_Read 8);
  let n := length data in
  let buffer := fill_buffer 8 data in
  if negb (n =? 8)%nat then
    fail (ErrFmt "bits expected: 8, got: %d" [Z.of_nat n])
  else ret (packBits 0 buffer 0).

(** The loop of [readBytes], [k] turns from index [i]; after it,
    [return i, nil]. *)
Fixpoint readBytesLoop (k : nat) (i : nat) (buffer : list Z)
  : M St (list Z * Z * option error) :=
  match k with
  | O => ret (buffer, Z.of_nat i, None)
  | S k' =>
      fun s =>
        match readByte s with
        | (Ok b, s') => readBytesLoop k' (S i) (<[i := b]> buffer) s'
        | (Err e, s') => (Ok (<[i := 0]> buffer, Z.of_nat i, Some e), s')
        | (Abort c, s') => (Abort c, s')
        end
  end.

Definition readBytes (buffer : list Z) : M St (list Z * Z * option error) :=
  readBytesLoop (length buffer) 0 buffer.

Definition readBit : M St Z :=
  do_ clear_ignored;
  do_ on_uart (bugst_Write [255]);
  do data <- on_uart (bugst_Read 1);
  let n := length data in
  let buffer := fill_buffer 1 data in
  if negb (n =? 1)%nat then
    fail (ErrFmt "bits expected: 1, got: %d" [Z.of_nat n])
  else if at_ buffer 0 =? 255 then ret 1
  else ret 0.

Definition writeByte (data : Z) : M St unit :=
  do_ clear_ignored;
  let bits := unpackBits 8 0 data (replicate 8 0) in
  do_ on_uart (bugst_Write bits);
  do rd <- on_uart (bugst_Read 8);
  let n := length rd in
  let buffer := fill_buffer 8 rd in
  if negb (n =? 8)%nat then fail (ErrMsg "WriteByte: cannot read back")
  else
    match firstNoise 0 bits buffer with
    | Some (_, got, expected) =>
        fail (ErrFmt "WriteByte: noize detected(got: 0x%02x, expected: 0x%02x)"
                [got; expected])
    | None => ret tt
    end.

Fixpoint writeBytesLoop (i : nat) (rest : list Z) (len : Z)
  : M St (Z * option error) :=
  match rest with
  | [] => ret (len, None)
  | b :: rest' =>
      fun s =>
        match writeByte b s with
        | (Ok _, s') => writeBytesLoop (S i) rest' len s'
        | (Err e, s') => (Ok (Z.of_nat i, Some e), s')
        | (Abort c, s') => (Abort c, s')
        end
  end.

Definition writeBytes (buffer : list Z) : M St (Z * option error) :=
  writeBytesLoop 0 buffer (Z.of_nat (length buffer)).

Definition writeBit (data : Z) : M St unit :=
  do_ clear_ignored;
  let data := if data mod 2 =? 0 then 0 else 255 in
  do_ on_uart (bugst_Write [data]);
  do rd <- on_uart (bugst_Read 1);
  let n := length rd in
  let buffer := fill_buffer 1 rd in
  if negb (n =? 1)%nat then fail (ErrMsg "WriteBit: cannot read back")
  else if negb (data =? at_ buffer 0) then fail (ErrMsg "WriteBit: noize detected")
  else ret tt.

(** READ ROM [33h]. *)
Definition readROM : M St ROM :=
  do_ reset;
  do_ writeByte 51;
  let rom := new_ROM in
  do r <- readBytes (Code rom);
  let '(code, _, err) := r in
  match err with
  | Some e => fail e
  | None =>
      let rom := {| Code := code |} in
      if negb (IsValid rom) then fail (ErrMsg "crc error")
      else ret rom
  end.

(** MATCH ROM [55h]. *)
Definition matchROM (rom : option ROM) : M St unit :=
  do_ reset;
  do_ writeByte 85;
  match rom with
  | None => panic
  | Some r =>
      do w <- writeBytes (Code r);
      match snd w with
      | Some e => fail e
      | None => ret tt
      end
  end.

Definition skipROM : M St unit :=
  do_ reset;
  writeByte 204.

(** SEARCH ROM [F0h] / ALARM SEARCH [ECh] of bus-driver.go. *)
Definition searchROM (fuel : nat) (WithAlarm : bool) : M St (list ROM) :=
  searchROM_on reset writeByte readBit writeBit fuel WithAlarm.

Definition isConnected (rom : ROM) : M St bool :=
  isConnected_on reset writeByte readBit writeBit rom.

Definition GetSingleROM : M St ROM := readROM.
Definition GetConnectedROMs (fuel : nat) : M St (list ROM) := searchROM fuel false.
Definition GetROMsWithAlarm (fuel : nat) : M St (list ROM) := searchROM fuel true.
Definition IsConnected (rom : ROM) : M St bool := isConnected rom.
Definition Close : M St unit := close.

End Adapter.

End Bugst.

(** [n] successful byte reads in a row, and the bytes they deliver. *)
Inductive byte_reads {St : Type} (readByte : M St Z) : St -> list Z -> St -> Prop :=
  | byte_reads_nil s : byte_reads readByte s [] s
  | byte_reads_cons s b s1 bs s' :
      readByte s = (Ok b, s1) -> byte_reads readByte s1 bs s' ->
      byte_reads readByte s (b :: bs) s'.

(** What [reset] of bus-driver.go makes of the echo of the reset pulse. *)
Definition presence (b : Z) : result unit :=
  if negb (Z.land b 15 =? 0) then Err (ErrFmt "reset pulse error 0x%x" [b])
  else if Z.shiftr b 4 =? 15 then Err (ErrMsg "no 1-wire device present")
  else Ok tt.

(** The polling of [wait] in externally-powered mode, as the specification
    words it: bit reads in a row, until one yields a logical 1 or the time
    since [startedAt] exceeds [duration], whichever comes first (both end in
    success), or until a bit read fails. *)
Inductive polls {W : Type} `{TarmSerial W} `{Clock W} (startedAt duration : Z)
  : Tarm.Bus W -> result unit -> Tarm.Bus W -> Prop :=
  | polls_one st b st' :
      Tarm.ReadBit st = (Ok b, st') -> b <> 0 ->
      polls startedAt duration st (Ok tt) st'
  | polls_late st st' :
      Tarm.ReadBit st = (Ok 0, st') ->
      duration < clock (Tarm.world st') - startedAt ->
      polls startedAt duration st (Ok tt) st'
  | polls_failed st e st' :
      Tarm.ReadBit st = (Err e, st') ->
      polls startedAt duration st (Err e) st'
  | polls_again st st1 r st' :
      Tarm.ReadBit st = (Ok 0, st1) ->
      clock (Tarm.world st1) - startedAt <= duration ->
      polls startedAt duration st1 r st' ->
      polls startedAt duration st r st'.

(** ** Vocabulary of the further properties *)



(** The digits [%X] prints. *)
Definition is_upper_hex (c : ascii) : bool :=
  existsb (Ascii.eqb c)
    ["0"; "1"; "2"; "3"; "4"; "5"; "6"; "7"; "8"; "9"; "A"; "B"; "C"; "D"; "E"; "F"]%char.

Fixpoint all_upper_hex (s : string) : bool :=
  match s with
  | EmptyString => true
  | String c rest => is_upper_hex c && all_upper_hex rest
  end.

(** The state of bus.go's adapter over another world. *)
Definition tarm_on {W : Type} (st : Tarm.Bus W) (w : W) : Tarm.Bus W :=
  {| Tarm.adapter := Tarm.adapter st; Tarm.world := w |}.

Definition bugst_on {W : Type} (st : Bugst.Bus W) (w : W) : Bugst.Bus W :=
  {| Bugst.adapter := Bugst.adapter st; Bugst.world := w |}.

(** [n] successful byte writes in a row. *)
Inductive byte_writes {St : Type} (writeByte : Z -> M St unit) : St -> list Z -> St -> Prop :=
  | byte_writes_nil s : byte_writes writeByte s [] s
  | byte_writes_cons s b s1 bs s' :
      writeByte b s = (Ok tt, s1) -> byte_writes writeByte s1 bs s' ->
      byte_writes writeByte s (b :: bs) s'.

(** ** A simulated 1-Wire line behind the UART

    The test double the properties of the specification speak about: a set
    of devices on one wire, seen from the UART as echoed bytes.  A byte
    written at the data rate is one time slot; a byte [0xF0] written at the
    reset rate is a reset pulse.  The line is wired-AND: the echo of a slot
    is the byte written, pulled down when a device drives the line low. *)

Module Sim.

Record Device : Type := {
  dev_rom : ROM;
  dev_alarm : bool
}.

(** The bit a device sends at position [pos] of its ROM code. *)
Definition bitAt (d : Device) (pos : nat) : Z := at_ (toBits (dev_rom d)) pos.

(** Where the devices stand in the protocol.  All devices hear the same
    slots, so the line has one phase: idle until a reset pulse, then the
    eight slots of the ROM command, then (for the two search commands) the
    three slots per bit position (bit, complement, direction) among the
    devices that are still selected. *)
Inductive phase : Type :=
  | Idle
  | Command (slots : list Z)
  | Search (active : list Device) (pos : nat) (step : nat).

(** The echo of a pulled-down read slot and of an answered reset pulse. *)
Record Config : Type := {
  low_echo : Z;
  presence_echo : Z
}.

(** A pulled-down slot does not read as all-ones, and the presence echo has
    a clear low nibble and lies in the range both adapters accept. *)
Definition wf_config (c : Config) : bool :=
  (0 <=? low_echo c) && (low_echo c <? 255)
  && (16 <=? presence_echo c) && (presence_echo c <=? 224)
  && (Z.land (presence_echo c) 15 =? 0).

Record Line : Type := {
  config : Config;
  devices : list Device;
  state : phase;
  rx : list Z;
  now : Z
}.

(** The phase after the eighth command slot. *)
Definition decode (ds : list Device) (slots : list Z) : phase :=
  let cmd := packBits 0 slots 0 in
  if cmd =? 240 then Search ds 0 0
  else if cmd =? 236 then Search (filter (fun d => dev_alarm d = true) ds) 0 0
  else Idle.

(** One time slot at the data rate: the echo and the next phase. *)
Definition slot (c : Config) (ds : list Device) (ph : phase) (m : Z) : Z * phase :=
  match ph with
  | Idle => (m, Idle)
  | Command slots =>
      let slots := slots ++ [m] in
      (m, if (length slots =? 8)%nat then decode ds slots else Command slots)
  | Search active pos 0 =>
      ((if existsb (fun d => bitAt d pos =? 0) active
        then Z.land m (low_echo c) else m),
       Search active pos 1)
  | Search active pos 1 =>
      ((if existsb (fun d => bitAt d pos =? 1) active
        then Z.land m (low_echo c) else m),
       Search active pos 2)
  | Search active pos _ =>
      let b := if m =? 255 then 1 else 0 in
      let active := filter (fun d => bitAt d pos = b) active in
      (m, if (S pos =? 64)%nat then Idle else Search active (S pos) 0)
  end.

(** A byte on the wire at a given baud rate. *)
Definition wire (baud : Z) (l : Line) (m : Z) : Line :=
  if baud =? 9600 then
    if m =? 240 then
      {| config := config l; devices := devices l; state := Command [];
         rx := rx l ++ [match devices l with
                        | [] => 240
                        | _ => presence_echo (config l)
                        end];
         now := now l + 1041666 |}
    else
      {| config := config l; devices := devices l; state := state l;
         rx := rx l ++ [m]; now := now l + 1041666 |}
  else
    let '(echo, ph) := slot (config l) (devices l) (state l) m in
    {| config := config l; devices := devices l; state := ph;
       rx := rx l ++ [echo]; now := now l + 86805 |}.

Definition send (baud : Z) (l : Line) (bytes : list Z) : Line :=
  fold_left (wire baud) bytes l.

Definition receive (n : nat) (l : Line) : list Z * Line :=
  (take n (rx l),
   {| config := config l; devices := devices l; state := state l;
      rx := drop n (rx l); now := now l |}).

Definition flush (l : Line) : Line :=
  {| config := config l; devices := devices l; state := state l;
     rx := []; now := now l |}.

Definition idle_line (c : Config) (ds : list Device) : Line :=
  {| config := c; devices := ds; state := Idle; rx := []; now := 0 |}.

(** *** The line behind tarm/serial: a table of ports, each with its baud
    rate and whether it is open. *)

Record TarmWorld : Type := {
  tline : Line;
  ports : list (Z * bool)
}.

Definition port_baud (w : TarmWorld) (h : handle) : option Z :=
  match ports w !! h with
  | Some (baud, true) => Some baud
  | _ => None
  end.

Definition bad_port {A} : io A := Failed (ErrIO "bad file descriptor").

#[export] Instance tarm_sim : TarmSerial TarmWorld := {
  tarm_OpenPort _ baud w :=
    (Done (length (ports w)),
     {| tline := tline w; ports := ports w ++ [(baud, true)] |});
  tarm_Write h bytes w :=
    match port_baud w h with
    | Some baud =>
        (Done (Z.of_nat (length bytes)),
         {| tline := send baud (tline w) bytes; ports := ports w |})
    | None => (bad_port, w)
    end;
  tarm_Read h n w :=
    match port_baud w h with
    | Some _ =>
        let '(data, l) := receive n (tline w) in
        (Done data, {| tline := l; ports := ports w |})
    | None => (bad_port, w)
    end;
  tarm_Flush h w :=
    match port_baud w h with
    | Some _ => (Done tt, {| tline := flush (tline w); ports := ports w |})
    | None => (bad_port, w)
    end;
  tarm_Close h w :=
    match port_baud w h with
    | Some baud =>
        (Done tt, {| tline := tline w; ports := <[h := (baud, false)]> (ports w) |})
    | None => (bad_port, w)
    end
}.

#[export] Instance tarm_sim_clock : Clock TarmWorld := {
  clock w := now (tline w);
  sleep d w :=
    {| tline := {| config := config (tline w); devices := devices (tline w);
                   state := state (tline w); rx := rx (tline w);
                   now := now (tline w) + d |};
       ports := ports w |}
}.

(** The state [NewUartAdapter] leaves: one port, open at 115200 baud. *)
Definition tarm_boot (c : Config) (ds : list Device) : Tarm.Bus TarmWorld :=
  {| Tarm.adapter := {| Tarm.device := "/dev/ttyUSB0"; Tarm.uart := Some 0%nat |};
     Tarm.world := {| tline := idle_line c ds; ports := [(115200, true)] |} |}.

(** *** The line behind go.bug.st/serial: one port and its mode. *)

Record BugstWorld : Type := {
  bline : Line;
  bmode : Mode
}.

#[export] Instance bugst_sim : BugstSerial BugstWorld := {
  bugst_SetMode m w := (Done tt, {| bline := bline w; bmode := m |});
  bugst_Write bytes w :=
    (Done (Z.of_nat (length bytes)),
     {| bline := send (BaudRate (bmode w)) (bline w) bytes; bmode := bmode w |});
  bugst_Read n w :=
    let '(data, l) := receive n (bline w) in
    (Done data, {| bline := l; bmode := bmode w |});
  bugst_ResetInputBuffer w := (Done tt, {| bline := flush (bline w); bmode := bmode w |});
  bugst_ResetOutputBuffer w := (Done tt, w);
  bugst_Close w := (Done tt, w)
}.

Definition mode8N1 (baud : Z) : Mode :=
  {| BaudRate := baud; DataBits := 8; Parity := NoParity; StopBits := OneStopBit |}.

Definition bugst_boot (c : Config) (ds : list Device) : Bugst.Bus BugstWorld :=
  {| Bugst.adapter := {| Bugst.device := "/dev/ttyUSB0"; Bugst.uart := true;
                         Bugst.mode := mode8N1 115200 |};
     Bugst.world := {| bline := idle_line c ds; bmode := mode8N1 115200 |} |}.

(** *** A scripted port

    The other test double: a port whose reads return the entries of a script
    one after the other (an exhausted script reads nothing, as a timeout
    does), which records what is written and counts one tick of the clock
    per read. *)

Record Replay : Type := {
  script : list (list Z);
  sent : list Z;
  elapsed : Z
}.

Definition replay_write (bytes : list Z) (w : Replay) : io Z * Replay :=
  (Done (Z.of_nat (length bytes)),
   {| script := script w; sent := sent w ++ bytes; elapsed := elapsed w |}).

Definition replay_read (w : Replay) : io (list Z) * Replay :=
  (Done (match script w with [] => [] | d :: _ => d end),
   {| script := tail (script w); sent := sent w; elapsed := elapsed w + 1 |}).

#[export] Instance tarm_replay : TarmSerial Replay := {
  tarm_OpenPort _ _ w := (Done 0%nat, w);
  tarm_Write _ bytes w := replay_write bytes w;
  tarm_Read _ _ w := replay_read w;
  tarm_Flush _ w := (Done tt, w);
  tarm_Close _ w := (Done tt, w)
}.

#[export] Instance bugst_replay : BugstSerial Replay := {
  bugst_SetMode _ w := (Done tt, w);
  bugst_Write bytes w := replay_write bytes w;
  bugst_Read _ w := replay_read w;
  bugst_ResetInputBuffer w := (Done tt, w);
  bugst_ResetOutputBuffer w := (Done tt, w);
  bugst_Close w := (Done tt, w)
}.

#[export] Instance replay_clock : Clock Replay := {
  clock w := elapsed w;
  sleep d w := {| script := script w; sent := sent w; elapsed := elapsed w + d |}
}.

(** The eight echoes that carry the byte [b], written or read. *)
Definition echo (b : Z) : list Z := unpackBits 8 0 b (replicate 8 0).

Definition tarm_replay_boot (sc : list (list Z)) : Tarm.Bus Replay :=
  {| Tarm.adapter := {| Tarm.device := "/dev/ttyUSB0"; Tarm.uart := Some 0%nat |};
     Tarm.world := {| script := sc; sent := []; elapsed := 0 |} |}.

Definition bugst_replay_boot (sc : list (list Z)) : Bugst.Bus Replay :=
  {| Bugst.adapter := {| Bugst.device := "/dev/ttyUSB0"; Bugst.uart := true;
                         Bugst.mode := mode8N1 115200 |};
     Bugst.world := {| script := sc; sent := []; elapsed := 0 |} |}.

(** Two byte reads on the scripted port. *)
Definition two_bytes : list (list Z) := [echo 18; echo 52].

(** A DS18B20 as the package's test builds it: only the family code set. *)
Definition ds18b20 : Tarm.TemperatureSensor :=
  {| Tarm.rom := None; Tarm.familyCode := 40; Tarm.singleMode := false;
     Tarm.parasiticMode := false; Tarm.resolution := 0;
     Tarm.description := ""; Tarm.precision := "";
     Tarm.tConv := 0; Tarm.tRW := 0 |}.

(** A sensor of an unknown family (0x26, a DS2438). *)
Definition other_sensor : Tarm.TemperatureSensor :=
  {| Tarm.rom := None; Tarm.familyCode := 38; Tarm.singleMode := true;
     Tarm.parasiticMode := false; Tarm.resolution := 0;
     Tarm.description := ""; Tarm.precision := "unknown";
     Tarm.tConv := 750 * Tarm.Millisecond; Tarm.tRW := 10 * Tarm.Millisecond |}.

(** The script of a Read-ROM exchange that delivers the bytes [code]. *)
Definition readROM_script (code : list Z) : list (list Z) :=
  [[224]; echo 51] ++ map echo code.

(** The ROM of the package's tests ([TestNewROMFromString], [TestROM_toBits]). *)
Definition test_rom : ROM := {| Code := [40; 37; 234; 82; 5; 16; 243; 206] |}.

(** Three sensors, the second with a latched alarm. *)
Definition rom_a : ROM := {| Code := [16; 167; 92; 168; 2; 8; 0; 26] |}.
Definition rom_b : ROM := {| Code := [40; 37; 234; 82; 5; 16; 243; 180] |}.
Definition rom_c : ROM := {| Code := [40; 255; 100; 30; 15; 139; 69; 65] |}.

Definition cfg0 : Config := {| low_echo := 252; presence_echo := 224 |}.

Definition three : list Device :=
  [ {| dev_rom := rom_a; dev_alarm := false |};
    {| dev_rom := rom_b; dev_alarm := true |};
    {| dev_rom := rom_c; dev_alarm := false |} ].

(** A bus with one sensor whose alarm flag is clear. *)
Definition quiet : list Device := [ {| dev_rom := rom_a; dev_alarm := false |} ].

(** A bus with one device whose ROM (the one of the package's tests) does
    not carry its CRC8. *)
Definition odd : list Device := [ {| dev_rom := test_rom; dev_alarm := false |} ].

(** A single sensor on external power, addressed with Skip-ROM. *)
Definition single_sensor : Tarm.TemperatureSensor :=
  {| Tarm.rom := Some rom_b; Tarm.familyCode := 40; Tarm.singleMode := true;
     Tarm.parasiticMode := false; Tarm.resolution := 3;
     Tarm.description := "DS18B20 - Programmable Resolution Digital Thermometer";
     Tarm.precision := "12 bits";
     Tarm.tConv := 750 * Tarm.Millisecond; Tarm.tRW := 10 * Tarm.Millisecond |}.

(** A scratchpad (125 degrees, 12 bits) followed by its CRC8, and the same
    with a wrong ninth byte. *)
Definition scratch_ok : list Z := [208; 7; 75; 70; 127; 255; 0; 16; 185].
Definition scratch_bad : list Z := [208; 7; 75; 70; 127; 255; 0; 16; 0].

(** The scripts of the exchanges of a single sensor addressed with Skip-ROM:
    reading the scratchpad, writing it, and a conversion that is over at the
    first poll. *)
Definition read_script (data : list Z) : list (list Z) :=
  [[224]; echo 204; echo 190] ++ map echo data.
Definition write_script (data : list Z) : list (list Z) :=
  [[224]; echo 204; echo 78] ++ map echo data.
Definition convert_script : list (list Z) := [[224]; echo 204; echo 68; [255]].

(** The script of the construction of a single sensor: Read-ROM, the power
    probe (external power), the scratchpad. *)
Definition new_sensor_script (code data : list Z) : list (list Z) :=
  readROM_script code ++ [[224]; echo 204; echo 180; [255]] ++ read_script data.

(** The script of [SetResolution r] on the single sensor: the scratchpad is
    read, then the alarms and the new configuration byte are written. *)
Definition resolution_script (r : Z) : list (list Z) :=
  read_script scratch_ok ++ write_script [75; 70; Z.lor (Z.shiftl (Z.land r 3) 5) 31].

(** The result and the sensor after [SetResolution r] on the scripted port. *)
Definition after_SetResolution (r : Z) : result unit * Tarm.TemperatureSensor :=
  let '(res, (s', _)) :=
    Tarm.SetResolution r (single_sensor, tarm_replay_boot (resolution_script r)) in
  (res, s').

(** The devices still selected after the directions [p] were written from
    position [pos] on. *)
Fixpoint select (ds : list Device) (pos : nat) (p : list Z) : list Device :=
  match p with
  | [] => ds
  | b :: p' => select (filter (fun d => bitAt d pos = b) ds) (S pos) p'
  end.

(** The logical bit a read slot yields when the devices [active] send
    [send d] each: 0 as soon as one of them sends 0. *)
Definition wiredAnd (send : Device -> Z) (active : list Device) : Z :=
  if existsb (fun d => send d =? 0) active then 0 else 1.

(** A ROM code as the devices carry it: eight bytes. *)
Definition wf_rom (r : ROM) : bool :=
  (length (Code r) =? 8)%nat && forallb is_byteb (Code r).

(** The adapter of bus.go is ready for a transaction on the simulated line:
    its port is open at the data rate and nothing is left to read. *)
Definition tarm_ready (s : Tarm.Bus TarmWorld) : bool :=
  match Tarm.uart (Tarm.adapter s) with
  | Some h =>
      match ports (Tarm.world s) !! h with
      | Some (baud, true) => (baud =? 115200) && wf_config (config (tline (Tarm.world s)))
                             && match rx (tline (Tarm.world s)) with [] => true | _ => false end
      | _ => false
      end
  | None => false
  end.

(** The adapter of bus-driver.go is ready: it holds a port at the data rate. *)
Definition bugst_ready (s : Bugst.Bus BugstWorld) : bool :=
  Bugst.uart (Bugst.adapter s)
  && (BaudRate (bmode (Bugst.world s)) =? 115200)
  && wf_config (config (bline (Bugst.world s))).

(** The echoes of a run of slots at the data rate, and the phase they leave. *)
Fixpoint slots (c : Config) (ds : list Device) (ph : phase) (bytes : list Z)
  : list Z * phase :=
  match bytes with
  | [] => ([], ph)
  | m :: rest =>
      let '(e, ph1) := slot c ds ph m in
      let '(es, ph2) := slots c ds ph1 rest in
      (e :: es, ph2)
  end.

(** The logical bit the adapters read from an echo. *)
Definition bit_of_echo (e : Z) : Z := if e =? 255 then 1 else 0.

(** The devices that answer a search command. *)
Definition answering (alarm : bool) (ds : list Device) : list Device :=
  if alarm then filter (fun d => dev_alarm d = true) ds else ds.

(** The phase after the directions [p] of a search among [parts]. *)
Definition search_phase (parts : list Device) (p : list Z) : phase :=
  if (length p <? 64)%nat then Search (select parts 0 p) (length p) 0 else Idle.

(** The state of bus.go's adapter with the line in phase [ph] at time [t],
    nothing left to read. *)
Definition tarm_at (s : Tarm.Bus TarmWorld) (ph : phase) (t : Z) : Tarm.Bus TarmWorld :=
  {| Tarm.adapter := Tarm.adapter s;
     Tarm.world :=
       {| tline := {| config := config (tline (Tarm.world s));
                      devices := devices (tline (Tarm.world s));
                      state := ph; rx := []; now := t |};
          ports := ports (Tarm.world s) |} |}.

(** The adapter of bus.go on the line [(c, ds)] in phase [ph]. *)
Definition TOn (c : Config) (ds : list Device) (ph : phase)
    (s : Tarm.Bus TarmWorld) : Prop :=
  tarm_ready s = true /\ config (tline (Tarm.world s)) = c
  /\ devices (tline (Tarm.world s)) = ds /\ state (tline (Tarm.world s)) = ph.

Definition TReady (c : Config) (ds : list Device) (s : Tarm.Bus TarmWorld) : Prop :=
  exists ph, TOn c ds ph s.

Definition TAt (c : Config) (ds : list Device) (alarm : bool) (p : list Z)
    (s : Tarm.Bus TarmWorld) : Prop :=
  TOn c ds (search_phase (answering alarm ds) p) s.

(** The same for the adapter of bus-driver.go. *)
Definition bugst_at (s : Bugst.Bus BugstWorld) (ph : phase) (t : Z)
  : Bugst.Bus BugstWorld :=
  {| Bugst.adapter := Bugst.adapter s;
     Bugst.world :=
       {| bline := {| config := config (bline (Bugst.world s));
                      devices := devices (bline (Bugst.world s));
                      state := ph; rx := []; now := t |};
          bmode := bmode (Bugst.world s) |} |}.

Definition BOn (c : Config) (ds : list Device) (ph : phase)
    (s : Bugst.Bus BugstWorld) : Prop :=
  bugst_ready s = true /\ config (bline (Bugst.world s)) = c
  /\ devices (bline (Bugst.world s)) = ds /\ state (bline (Bugst.world s)) = ph.

Definition BReady (c : Config) (ds : list Device) (s : Bugst.Bus BugstWorld) : Prop :=
  exists ph, BOn c ds ph s.

Definition BAt (c : Config) (ds : list Device) (alarm : bool) (p : list Z)
    (s : Bugst.Bus BugstWorld) : Prop :=
  BOn c ds (search_phase (answering alarm ds) p) s.

(** The text of a ROM code, digit by digit. *)
Fixpoint hexText (code : list Z) : string :=
  match code with
  | [] => EmptyString
  | b :: rest => String (hexChar (b / 16)) (String (hexChar (b mod 16)) (hexText rest))
  end.

(** A path of search directions holds bits. *)
Definition bits01 (q : list Z) : Prop := Forall (fun b => b = 0 \/ b = 1) q.

(** A path under which devices of [parts] remain. *)
Definition live (parts : list Device) (p : list Z) : Prop :=
  bits01 p /\ (length p <= 64)%nat /\ select parts 0 p <> [].

(** The devices under the pending paths [ps]. *)
Definition under (parts : list Device) (ps : list (list Z)) : list Device :=
  concat (map (select parts 0) ps).

(** The accumulation of one byte's bits in [newRomFromBits], from bit [j]. *)
Fixpoint orBits (j : nat) (bits : list Z) (c : Z) : Z :=
  match bits with
  | [] => c
  | bit :: rest =>
      orBits (S j) rest
        (if 0 <? bit then Z.lor c (byte_of (Z.shiftl 1 (Z.of_nat j))) else c)
  end.

(** The ports of the simulated table that are open. *)
Definition open_ports (w : TarmWorld) : list (Z * bool) :=
  filter (fun p => snd p = true) (ports w).

(** The devices with a latched alarm. *)
Definition alarming (ds : list Device) : list Device :=
  filter (fun d => dev_alarm d = true) ds.

(** A device whose ROM code agrees with [rom] on the first 63 bits. *)
Definition near (rom : ROM) (d : Device) : Prop :=
  take 63 (toBits (dev_rom d)) = take 63 (toBits rom).

(** The ROM code of [rom_a] with its last bit flipped: no device of [quiet]
    carries it. *)
Definition rom_a' : ROM := {| Code := [16; 167; 92; 168; 2; 8; 0; 154] |}.

(** A DS18S20 (family 0x10) in extended resolution. *)
Definition ds18s20 : Tarm.TemperatureSensor :=
  {| Tarm.rom := None; Tarm.familyCode := 16; Tarm.singleMode := false;
     Tarm.parasiticMode := false; Tarm.resolution := 1;
     Tarm.description := ""; Tarm.precision := "extended";
     Tarm.tConv := 750 * Tarm.Millisecond; Tarm.tRW := 10 * Tarm.Millisecond |}.

End Sim.

(** * Part II: properties *)

Import Sim.

(** ** Test vectors of the package *)

(** The ROM of the README, [10A75CA80208001A], carries its CRC8. *)
Example crc8_readme_rom : crc8 [16; 167; 92; 168; 2; 8; 0] = 26.
Proof. vm_compute. reflexivity. Qed.

Example parse_test_rom : NewROMFromString "2825EA520510F3CE" = Ok Sim.test_rom.
Proof. vm_compute. reflexivity. Qed.

Example bits_test_rom : newRomFromBits (toBits Sim.test_rom) = Sim.test_rom.
Proof. vm_compute. reflexivity. Qed.

Example packBits_vector : packBits 0 [255; 0; 255; 255; 0; 0; 0; 0] 0 = 13.
Proof. vm_compute. reflexivity. Qed.

Example unpackBits_vector :
  unpackBits 8 0 240 (replicate 8 0) = [0; 0; 0; 0; 255; 255; 255; 255].
Proof. vm_compute. reflexivity. Qed.


(** ** ROM codes and their bit sequences *)

Lemma is_byteb_spec z : is_byteb z = true <-> 0 <= z < 256.
Proof. unfold is_byteb. rewrite andb_true_iff, Z.leb_le, Z.ltb_lt. tauto. Qed.

Lemma orBits_byteBits_all :
  forallb (fun b => orBits 0 (byteBits 8 b) 0 =? b) (seqZ 0 256) = true.
Proof. vm_compute. reflexivity. Qed.

Lemma orBits_byteBits b : 0 <= b < 256 -> orBits 0 (byteBits 8 b) 0 = b.
Proof.
  intros Hb. pose proof orBits_byteBits_all as Hall.
  rewrite forallb_forall in Hall.
  apply Z.eqb_eq, Hall, list_elem_of_In, elem_of_seqZ. lia.
Qed.

Lemma romFromBitsLoop_byte (bits : list Z) : forall (j k : nat) (rest code : list Z),
  (j + length bits <= 8)%nat -> (k < 8)%nat ->
  romFromBitsLoop (8 * k + j) (bits ++ rest) code
  = romFromBitsLoop (8 * k + j + length bits) rest (alter (orBits j bits) k code).
Proof.
  induction bits as [|bit bits IH]; intros j k rest code Hj Hk;
    cbn [romFromBitsLoop orBits length app].
  - rewrite Nat.add_0_r. f_equal. symmetry. apply list_alter_id. done.
  - cbn [length] in Hj.
    assert (Hlt : (64 <=? 8 * k + j)%nat = false) by (apply Nat.leb_gt; lia).
    rewrite Hlt.
    assert (Hdiv : ((8 * k + j) / 8 = k)%nat).
    { rewrite Nat.mul_comm, Nat.div_add_l by lia. rewrite Nat.div_small; lia. }
    assert (Hmod : ((8 * k + j) mod 8 = j)%nat).
    { rewrite Nat.add_comm, Nat.mul_comm, Nat.Div0.mod_add.
      apply Nat.mod_small. lia. }
    rewrite Hdiv, Hmod.
    replace (S (8 * k + j)) with (8 * k + S j)%nat by lia.
    rewrite IH by lia.
    replace (8 * k + S j + length bits)%nat with (8 * k + j + S (length bits))%nat by lia.
    f_equal.
    destruct (0 <? bit); [|done].
    by rewrite list_alter_alter_eq.
Qed.

Lemma romFromBitsLoop_bytes (bytes : list Z) : forall (done : list Z),
  (length done + length bytes = 8)%nat ->
  Forall (fun b => 0 <= b < 256) bytes ->
  romFromBitsLoop (8 * length done) (flat_map (byteBits 8) bytes)
    (done ++ replicate (length bytes) 0)
  = done ++ bytes.
Proof.
  induction bytes as [|b bytes IH]; intros done Hlen Hb;
    cbn [flat_map length replicate romFromBitsLoop].
  - done.
  - inversion Hb as [|? ? Hb1 Hb2]; subst. cbn [length] in Hlen.
    pose proof (romFromBitsLoop_byte (byteBits 8 b) 0 (length done)
                  (flat_map (byteBits 8) bytes)
                  (done ++ 0 :: replicate (length bytes) 0)) as Hstep.
    rewrite Nat.add_0_r in Hstep. rewrite Hstep by (cbn [byteBits length]; lia).
    clear Hstep.
    rewrite alter_app_r_alt by lia.
    rewrite Nat.sub_diag.
    replace (alter (orBits 0 (byteBits 8 b)) 0%nat (0 :: replicate (length bytes) 0))
      with (orBits 0 (byteBits 8 b) 0 :: replicate (length bytes) 0) by reflexivity.
    rewrite orBits_byteBits by done.
    replace (8 * length done + length (byteBits 8 b))%nat
      with (8 * length (done ++ [b]))%nat by (rewrite length_app; simpl; lia).
    replace (done ++ b :: replicate (length bytes) 0)
      with ((done ++ [b]) ++ replicate (length bytes) 0)
      by (rewrite <- app_assoc; done).
    rewrite IH; [by rewrite <- app_assoc | rewrite length_app; simpl; lia | done].
Qed.

Lemma wf_rom_spec r :
  wf_rom r = true <-> length (Code r) = 8%nat /\ Forall (fun b => 0 <= b < 256) (Code r).
Proof.
  unfold wf_rom. rewrite andb_true_iff, Nat.eqb_eq, forallb_forall, Forall_forall.
  setoid_rewrite <- list_elem_of_In. setoid_rewrite is_byteb_spec. done.
Qed.

Lemma rom_bits_roundtrip r : wf_rom r = true -> newRomFromBits (toBits r) = r.
Proof.
  intros [Hlen Hb]%wf_rom_spec. destruct r as [code]; simpl in *.
  unfold newRomFromBits, toBits; simpl Code. f_equal.
  pose proof (romFromBitsLoop_bytes code [] ) as Hr. simpl in Hr.
  rewrite Hlen in Hr. apply Hr; done.
Qed.

(** ** The search among the devices of a faithful bus *)

Lemma bind_ok {S A B} (m : M S A) (k : A -> M S B) s a s' :
  m s = (Ok a, s') -> bind m k s = k a s'.
Proof. unfold bind. by intros ->. Qed.

Lemma bind_err {S A B} (m : M S A) (k : A -> M S B) s e s' :
  m s = (Err e, s') -> bind m k s = (Err e, s').
Proof. unfold bind. by intros ->. Qed.

Lemma bind_abort {S A B} (m : M S A) (k : A -> M S B) s c s' :
  m s = (Abort c, s') -> bind m k s = (Abort c, s').
Proof. unfold bind. by intros ->. Qed.

Lemma byteBits_01 m b : bits01 (byteBits m b).
Proof.
  revert b. induction m as [|m IH]; intros b; simpl; constructor; [|apply IH].
  pose proof (Z.mod_pos_bound b 2). lia.
Qed.

Lemma toBits_01 r : bits01 (toBits r).
Proof.
  unfold toBits. induction (Code r) as [|b l IH]; cbn [flat_map]; [constructor|].
  apply Forall_app. split; [apply byteBits_01 | apply IH].
Qed.

Lemma bitAt_01 d pos : bitAt d pos = 0 \/ bitAt d pos = 1.
Proof.
  unfold bitAt, at_. destruct (toBits (dev_rom d) !! pos) as [b|] eqn:E; simpl; [|by left].
  pose proof (toBits_01 (dev_rom d)) as Hall.
  unfold bits01 in Hall. rewrite Forall_lookup in Hall. by apply (Hall pos).
Qed.

Lemma select_snoc ds : forall pos p b,
  select ds pos (p ++ [b])
  = filter (fun d => bitAt d (pos + length p) = b) (select ds pos p).
Proof.
  intros pos p. revert ds pos. induction p as [|a p IH]; intros ds pos b; simpl.
  - by rewrite Nat.add_0_r.
  - rewrite IH. by replace (S pos + length p)%nat with (pos + S (length p))%nat by lia.
Qed.

Lemma select_sublist ds : forall pos p, select ds pos p `sublist_of` ds.
Proof.
  intros pos p. revert ds pos. induction p as [|a p IH]; intros ds pos; simpl; [done|].
  etrans; [apply IH | apply sublist_filter].
Qed.

Lemma select_split ds p :
  select ds 0 p ≡ₚ select ds 0 (p ++ [0]) ++ select ds 0 (p ++ [1]).
Proof.
  rewrite !select_snoc. simpl.
  rewrite <- (filter_app_complement (fun d => bitAt d (length p) = 0) (select ds 0 p)) at 1.
  f_equiv. erewrite list_filter_iff; [done|]. intros d.
  destruct (bitAt_01 d (length p)); lia.
Qed.

Lemma wiredAnd_bit ds p :
  wiredAnd (fun d => bitAt d (length p)) (select ds 0 p)
  = if decide (select ds 0 (p ++ [0]) = []) then 1 else 0.
Proof.
  unfold wiredAnd. rewrite select_snoc. simpl.
  induction (select ds 0 p) as [|d l IH]; simpl; [done|].
  destruct (Z.eqb_spec (bitAt d (length p)) 0) as [E|E]; simpl.
  - rewrite filter_cons_True by done. by rewrite decide_False.
  - rewrite filter_cons_False by done. apply IH.
Qed.

Lemma wiredAnd_cobit ds p :
  wiredAnd (fun d => 1 - bitAt d (length p)) (select ds 0 p)
  = if decide (select ds 0 (p ++ [1]) = []) then 1 else 0.
Proof.
  unfold wiredAnd. rewrite select_snoc. simpl.
  induction (select ds 0 p) as [|d l IH]; simpl; [done|].
  destruct (Z.eqb_spec (1 - bitAt d (length p)) 0) as [E|E]; simpl.
  - rewrite filter_cons_True by lia. by rewrite decide_False.
  - rewrite filter_cons_False by lia. apply IH.
Qed.

(** A full path selects the devices that carry it as their code. *)
Lemma select_bits ds : forall pos p d,
  d ∈ select ds pos p ->
  forall i b, p !! i = Some b -> bitAt d (pos + i) = b.
Proof.
  intros pos p. revert ds pos. induction p as [|a p IH]; intros ds pos d Hd i b Hi; [done|].
  simpl in Hd. destruct i as [|i]; simpl in Hi.
  - injection Hi as ->. rewrite Nat.add_0_r.
    pose proof (select_sublist (filter (fun d => bitAt d pos = b) ds) (S pos) p) as Hs.
    eapply elem_of_sublist in Hd; [|exact Hs].
    by apply list_elem_of_filter in Hd as [? _].
  - replace (pos + S i)%nat with (S pos + i)%nat by lia. by eapply IH.
Qed.

Lemma toBits_length r : length (Code r) = 8%nat -> length (toBits r) = 64%nat.
Proof.
  unfold toBits. destruct r as [code]; simpl.
  do 9 (destruct code as [|? code]; try done).
Qed.

Lemma select_full ds p d :
  wf_rom (dev_rom d) = true -> length p = 64%nat -> d ∈ select ds 0 p ->
  newRomFromBits p = dev_rom d.
Proof.
  intros Hwf Hlen Hd.
  assert (p = toBits (dev_rom d)) as ->; [|by apply rom_bits_roundtrip].
  apply list_eq_same_length with 64%nat.
  { apply toBits_length. by apply wf_rom_spec in Hwf as [? _]. }
  { done. }
  intros i x y Hi Hx Hy.
  pose proof (select_bits ds 0 p d Hd i x Hx) as Hb.
  unfold bitAt, at_ in Hb. simpl in Hb. rewrite Hy in Hb. by simpl in Hb.
Qed.

Section FaithfulBus.
Context {St : Type}.
Variable reset : M St unit.
Variable writeByte : Z -> M St unit.
Variable readBit : M St Z.
Variable writeBit : Z -> M St unit.
(** The devices that answer the search command [command]. *)
Variable parts : list Device.
Variable command : Z.
(** [Ready s]: a transaction can start in [s].  [At p s]: the search command
    went out and the directions [p] were written since. *)
Variable Ready : St -> Prop.
Variable At : list Z -> St -> Prop.

Hypothesis start : forall s, Ready s ->
  exists s1 s2, reset s = (Ok tt, s1) /\ writeByte command s1 = (Ok tt, s2)
                /\ At [] s2.
Hypothesis step : forall p s, At p s -> (length p < 64)%nat ->
  exists s1 s2,
    readBit s = (Ok (wiredAnd (fun d => bitAt d (length p)) (select parts 0 p)), s1)
    /\ readBit s1
       = (Ok (wiredAnd (fun d => 1 - bitAt d (length p)) (select parts 0 p)), s2)
    /\ forall b, b = 0 \/ b = 1 ->
         exists s3, writeBit b s2 = (Ok tt, s3) /\ At (p ++ [b]) s3.
Hypothesis finish : forall p s, At p s -> Ready s.

Hypothesis parts_wf : Forall (fun d => wf_rom (dev_rom d) = true) parts.
Hypothesis parts_NoDup : NoDup (dev_rom <$> parts).

Lemma sendKnownBits_spec q : forall p s,
  At p s -> bits01 q -> (length p + length q <= 64)%nat ->
  exists s', sendKnownBits readBit writeBit q s = (Ok tt, s') /\ At (p ++ q) s'.
Proof.
  induction q as [|b q IH]; intros p s HAt Hq Hlen.
  - exists s. by rewrite app_nil_r.
  - inversion Hq as [|? ? Hb Hq']; subst. cbn [length] in Hlen.
    destruct (step p s HAt) as (s1 & s2 & Hr1 & Hr2 & Hw); [lia|].
    destruct (Hw b Hb) as (s3 & Hw3 & HAt3).
    destruct (IH (p ++ [b]) s3 HAt3 Hq') as (s' & Hs' & HAt').
    { rewrite length_app. simpl. lia. }
    exists s'. split; [|by rewrite <- app_assoc in HAt'].
    cbn [sendKnownBits].
    rewrite (bind_ok _ _ _ _ _ Hr1), (bind_ok _ _ _ _ _ Hr2), (bind_ok _ _ _ _ _ Hw3).
    exact Hs'.
Qed.

Lemma readRestBits_spec (alarm : bool) n : forall p ps s,
  At p s -> live parts p -> n = (64 - length p)%nat ->
  exists p' new s',
    readRestBits readBit writeBit alarm n p ps s = (Ok (p', ps ++ new), s')
    /\ At p' s' /\ length p' = 64%nat /\ live parts p' /\ Forall (live parts) new
    /\ select parts 0 p ≡ₚ select parts 0 p' ++ under parts new.
Proof.
  induction n as [|n IH]; intros p ps s HAt (H01 & Hlen & Hne) Hn.
  - exists p, [], s. rewrite !app_nil_r. cbn. split_and!; try done; lia.
  - cbn [readRestBits].
    assert (Hlt : (length p <? 64)%nat = true) by (apply Nat.ltb_lt; lia).
    rewrite Hlt. cbn [negb].
    destruct (step p s HAt) as (s1 & s2 & Hr1 & Hr2 & Hw); [lia|].
    rewrite (bind_ok _ _ _ _ _ Hr1), (bind_ok _ _ _ _ _ Hr2).
    rewrite wiredAnd_bit, wiredAnd_cobit.
    pose proof (select_split parts p) as Hsplit.
    destruct (decide (select parts 0 (p ++ [0]) = [])) as [E0|E0];
      destruct (decide (select parts 0 (p ++ [1]) = [])) as [E1|E1].
    + exfalso. rewrite E0, E1 in Hsplit. simpl in Hsplit.
      by apply Permutation_nil_r in Hsplit.
    + (* every device sends 1 *)
      cbn.
      destruct (Hw 1) as (s3 & Hw3 & HAt3); [by right|].
      rewrite (bind_ok _ _ _ _ _ Hw3).
      destruct (IH (p ++ [1]) ps s3 HAt3) as (p' & new & s' & Hr & ? & ? & ? & ? & Hperm).
      { split_and!; [apply Forall_app; split; [done|by repeat constructor]
                      | rewrite length_app; simpl; lia | done]. }
      { rewrite length_app. simpl. lia. }
      exists p', new, s'. split_and!; try done.
      rewrite Hsplit, E0. simpl. exact Hperm.
    + (* every device sends 0 *)
      cbn.
      destruct (Hw 0) as (s3 & Hw3 & HAt3); [by left|].
      rewrite (bind_ok _ _ _ _ _ Hw3).
      destruct (IH (p ++ [0]) ps s3 HAt3) as (p' & new & s' & Hr & ? & ? & ? & ? & Hperm).
      { split_and!; [apply Forall_app; split; [done|by repeat constructor]
                      | rewrite length_app; simpl; lia | done]. }
      { rewrite length_app. simpl. lia. }
      exists p', new, s'. split_and!; try done.
      rewrite Hsplit, E1, app_nil_r. exact Hperm.
    + (* both values are present: remember the 1-branch, follow the 0-branch *)
      cbn.
      destruct (Hw 0) as (s3 & Hw3 & HAt3); [by left|].
      rewrite (bind_ok _ _ _ _ _ Hw3).
      destruct (IH (p ++ [0]) (ps ++ [p ++ [1]]) s3 HAt3)
        as (p' & new & s' & Hr & ? & ? & ? & Hnew & Hperm).
      { split_and!; [apply Forall_app; split; [done|by repeat constructor]
                      | rewrite length_app; simpl; lia | done]. }
      { rewrite length_app. simpl. lia. }
      exists p', ((p ++ [1]) :: new), s'. split_and!; try done.
      * rewrite Hr. by rewrite <- app_assoc.
      * constructor; [|done].
        split_and!; [apply Forall_app; split; [done|by repeat constructor]
                      | rewrite length_app; simpl; lia | done].
      * rewrite Hsplit, Hperm. unfold under. cbn [map concat].
        rewrite <- !app_assoc. f_equiv. apply Permutation_app_comm.
Qed.

(** A full live path is the code of exactly one device. *)
Lemma live_full p :
  live parts p -> length p = 64%nat ->
  dev_rom <$> select parts 0 p = [newRomFromBits p].
Proof.
  intros (_ & _ & Hne) Hlen.
  pose proof (select_sublist parts 0 p) as Hsub.
  assert (Hall : Forall (fun d => dev_rom d = newRomFromBits p) (select parts 0 p)).
  { apply Forall_forall. intros d Hd. symmetry.
    apply (select_full parts p d); [|exact Hlen|exact Hd].
    pose proof parts_wf as Hwf. rewrite Forall_forall in Hwf. apply Hwf.
    by eapply elem_of_sublist. }
  assert (Hnd : NoDup (dev_rom <$> select parts 0 p)).
  { eapply sublist_NoDup; [exact parts_NoDup|by apply fmap_sublist]. }
  destruct (select parts 0 p) as [|d [|d' l]]; [done| |].
  - inversion Hall; subst. simpl. by f_equal.
  - exfalso. inversion Hall as [|? ? Hd Hall']; subst.
    inversion Hall' as [|? ? Hd' _]; subst.
    simpl in Hnd. rewrite Hd, Hd' in Hnd.
    apply NoDup_cons in Hnd as [Hnot _]. apply Hnot. by left.
Qed.

Lemma searchRounds_spec (alarm : bool) fuel : forall complete ps cur s,
  Ready s -> live parts cur -> Forall (live parts) ps ->
  (length (select parts 0 cur ++ under parts ps) <= fuel)%nat ->
  exists roms s',
    searchRounds reset writeByte readBit writeBit fuel alarm command
      complete ps cur s = (Ok (complete ++ roms), s')
    /\ Ready s'
    /\ roms ≡ₚ dev_rom <$> (select parts 0 cur ++ under parts ps).
Proof.
  induction fuel as [|fuel IH]; intros complete ps cur s Hs Hcur Hps Hfuel.
  - exfalso. destruct Hcur as (_ & _ & Hne).
    destruct (select parts 0 cur); [done|simpl in Hfuel; lia].
  - cbn [searchRounds].
    destruct (start s Hs) as (s1 & s2 & Hreset & Hcmd & HAt0).
    destruct (sendKnownBits_spec cur [] s2 HAt0) as (s3 & Hsend & HAt3);
      [apply Hcur | simpl; apply Hcur |]. simpl in HAt3.
    destruct (readRestBits_spec alarm (64 - length cur) cur ps s3 HAt3 Hcur eq_refl)
      as (p' & new & s4 & Hrest & HAt4 & Hlen' & Hlive' & Hnew & Hperm).
    rewrite (bind_ok _ _ _ _ _ Hreset), (bind_ok _ _ _ _ _ Hcmd),
      (bind_ok _ _ _ _ _ Hsend), Hrest.
    pose proof (live_full p' Hlive' Hlen') as Hone.
    assert (Hrom : dev_rom <$> (select parts 0 cur ++ under parts ps)
                   ≡ₚ newRomFromBits p' :: (dev_rom <$> under parts (ps ++ new))).
    { rewrite Hperm. rewrite !fmap_app, Hone. unfold under.
      rewrite map_app, concat_app, fmap_app. simpl. f_equiv.
      apply Permutation_app_comm. }
    destruct (ps ++ new) as [|next rest] eqn:Epn.
    + exists [newRomFromBits p'], s4. split; [done|]. split; [by eapply finish|].
      by rewrite Hrom.
    + assert (Hall : Forall (live parts) (next :: rest)).
      { rewrite <- Epn. apply Forall_app. done. }
      inversion Hall as [|? ? Hnext Hrest']; subst.
      destruct (IH (complete ++ [newRomFromBits p']) rest next s4)
        as (roms & s' & Hrounds & Hs' & Hroms); [by eapply finish|done|done| |].
      { apply Permutation_length in Hrom. rewrite length_fmap in Hrom.
        cbn [length] in Hrom. rewrite length_fmap in Hrom.
        unfold under in Hrom at 2. cbn [map concat] in Hrom.
        fold (under parts rest) in Hrom. lia. }
      exists (newRomFromBits p' :: roms), s'. split; [|split; [done|]].
      * rewrite Hrounds. by rewrite <- app_assoc.
      * rewrite Hrom. f_equiv. rewrite Hroms. done.
Qed.

(** The search on a faithful bus: as many rounds as there are devices, each
    device's ROM once. *)
Lemma searchROM_on_spec (alarm : bool) fuel s :
  command = (if alarm then 236 else 240) ->
  Ready s -> parts <> [] -> (length parts <= fuel)%nat ->
  exists roms s',
    searchROM_on reset writeByte readBit writeBit fuel alarm s = (Ok roms, s')
    /\ Ready s' /\ roms ≡ₚ dev_rom <$> parts.
Proof.
  intros Hcmd Hs Hne Hfuel. unfold searchROM_on. rewrite <- Hcmd.
  destruct (searchRounds_spec alarm fuel [] [] [] s) as (roms & s' & Hr & Hs' & Hp);
    [done | by split_and!; [constructor | simpl; lia | ] | constructor
     | simpl; rewrite app_nil_r; done |].
  exists roms, s'. simpl in *. rewrite app_nil_r in Hp. done.
Qed.

End FaithfulBus.

(** ** The adapters on the simulated line *)

Lemma send_data l bytes :
  send 115200 l bytes
  = {| config := config l; devices := devices l;
       state := snd (slots (config l) (devices l) (state l) bytes);
       rx := rx l ++ fst (slots (config l) (devices l) (state l) bytes);
       now := now l + 86805 * Z.of_nat (length bytes) |}.
Proof.
  revert l. induction bytes as [|m bytes IH]; intros l.
  - destruct l; cbn. rewrite app_nil_r. f_equal. lia.
  - cbn [send fold_left]. fold (send 115200 (wire 115200 l m) bytes). rewrite IH.
    unfold wire. change (115200 =? 9600) with false. cbv iota.
    cbn [slots]. destruct (slot (config l) (devices l) (state l) m) as [e ph1].
    cbn [config devices state rx now].
    destruct (slots (config l) (devices l) ph1 bytes) as [es ph2].
    cbn [fst snd length]. rewrite <- app_assoc. f_equal. lia.
Qed.

Lemma slots_length c ds ph bytes : length (fst (slots c ds ph bytes)) = length bytes.
Proof.
  revert ph. induction bytes as [|m bytes IH]; intros ph; [done|].
  cbn [slots]. destruct (slot c ds ph m) as [e ph1]. specialize (IH ph1).
  destruct (slots c ds ph1 bytes). cbn in *. lia.
Qed.

(** A write of [bytes] followed by a read of as many bytes, on a ready
    adapter: the echoes of the slots come back. *)
Lemma tarm_exchange (s : Tarm.Bus TarmWorld) bytes :
  tarm_ready s = true ->
  let l := tline (Tarm.world s) in
  let r := slots (config l) (devices l) (state l) bytes in
  (do_ Tarm.flush_ignored;
   do_ Tarm.on_uart (fun h => tarm_Write h bytes);
   Tarm.on_uart (fun h => tarm_Read h (length bytes))) s
  = (Ok (fst r), tarm_at s (snd r) (now l + 86805 * Z.of_nat (length bytes))).
Proof.
  intros Hready. destruct s as [[dev [h|]] [l ps]]; [|done].
  unfold tarm_ready in Hready. cbn in Hready.
  destruct (ps !! h) as [[baud [|]]|] eqn:Eh; try done.
  apply andb_true_iff in Hready as [[Hbaud%Z.eqb_eq Hcfg]%andb_true_iff Hrx].
  destruct (rx l) as [|] eqn:Erx; [|done]. subst baud.
  unfold bind, Tarm.flush_ignored, Tarm.on_uart, Tarm.lib. cbn.
  unfold port_baud. cbn. rewrite Eh. cbn. rewrite Eh. cbn.
  rewrite send_data. cbn. rewrite Eh. cbn.
  unfold tarm_at. cbn. f_equal.
  - f_equal. rewrite take_ge; [done|]. by rewrite slots_length.
  - f_equal. f_equal. f_equal. rewrite drop_ge; [done|]. by rewrite slots_length.
Qed.

Lemma bind_bind {S A B C} (m : M S A) (n : A -> M S B) (k : B -> M S C) s :
  bind m (fun a => bind (n a) k) s = bind (bind m n) k s.
Proof. unfold bind. destruct (m s) as [[a|e|c] s']; done. Qed.

Lemma bind3 {S A B C D} (f : M S A) (w : M S B) (r : M S C) (K : C -> M S D) s d s' :
  bind f (fun _ => bind w (fun _ => r)) s = (Ok d, s') ->
  bind f (fun _ => bind w (fun _ => bind r K)) s = K d s'.
Proof.
  unfold bind. destruct (f s) as [[a|e|c] s1]; [|done|done].
  destruct (w s1) as [[b|e|c] s2]; [|done|done].
  destruct (r s2) as [[x|e|c] s3]; [|done|done]. by intros [= -> ->].
Qed.

Lemma TOn_at c ds ph s ph' t : TOn c ds ph s -> TOn c ds ph' (tarm_at s ph' t).
Proof.
  intros (Hr & Hc & Hd & Hp). split_and!; try done.
  unfold tarm_ready in *. cbn.
  destruct (Tarm.uart (Tarm.adapter s)) as [h|]; [|done].
  destruct (ports (Tarm.world s) !! h) as [[baud [|]]|]; try done.
  apply andb_true_iff in Hr as [Hr _]. by rewrite Hr.
Qed.

Lemma tarm_ReadBit_on c ds ph s :
  TOn c ds ph s ->
  exists s', Tarm.ReadBit s = (Ok (bit_of_echo (fst (slot c ds ph 255))), s')
             /\ TOn c ds (snd (slot c ds ph 255)) s'.
Proof.
  intros HOn. pose proof HOn as (Hr & Hc & Hd & Hp).
  pose proof (tarm_exchange s [255] Hr) as Hx. cbn zeta in Hx.
  rewrite Hc, Hd, Hp in Hx. cbn [slots length] in Hx.
  destruct (slot c ds ph 255) as [e ph1]. cbn [fst snd] in *.
  eexists. split; [|by eapply TOn_at].
  unfold Tarm.ReadBit. erewrite bind3; [|exact Hx].
  cbn. unfold bit_of_echo. by destruct (e =? 255).
Qed.

Lemma tarm_WriteBit_on c ds act pos s b :
  TOn c ds (Search act pos 2) s -> b = 0 \/ b = 1 ->
  exists s', Tarm.WriteBit b s = (Ok tt, s')
             /\ TOn c ds (if (S pos =? 64)%nat then Idle
                          else Search (filter (fun d => bitAt d pos = b) act) (S pos) 0) s'.
Proof.
  intros HOn Hb. pose proof HOn as (Hr & Hc & Hd & Hp).
  pose proof (tarm_exchange s [if b mod 2 =? 0 then 0 else 255] Hr) as Hx.
  cbn zeta in Hx. rewrite Hc, Hd, Hp in Hx. cbn [slots length slot fst snd] in Hx.
  eexists. split.
  - unfold Tarm.WriteBit. erewrite bind3; [|exact Hx].
    cbn. by destruct Hb as [-> | ->].
  - destruct Hb as [-> | ->]; cbn; by eapply TOn_at.
Qed.

Lemma tarm_WriteByte_command c ds s cmd :
  TOn c ds (Command []) s -> cmd = 240 \/ cmd = 236 ->
  exists s', Tarm.WriteByte cmd s = (Ok tt, s')
             /\ TOn c ds (Search (if cmd =? 240 then ds
                                  else filter (fun d => dev_alarm d = true) ds) 0 0) s'.
Proof.
  intros HOn Hcmd. pose proof HOn as (Hr & Hc & Hd & Hp).
  pose proof (tarm_exchange s (unpackBits 8 0 cmd (replicate 8 0)) Hr) as Hx.
  cbn zeta in Hx. rewrite Hc, Hd, Hp in Hx.
  destruct Hcmd as [-> | ->].
  - eexists. split.
    + unfold Tarm.WriteByte. erewrite bind3; [|exact Hx]. reflexivity.
    + cbn. by eapply TOn_at.
  - eexists. split.
    + unfold Tarm.WriteByte. erewrite bind3; [|exact Hx]. reflexivity.
    + cbn. by eapply TOn_at.
Qed.

Lemma wf_config_spec c :
  wf_config c = true ->
  0 <= low_echo c < 255 /\ 16 <= presence_echo c <= 224
  /\ Z.land (presence_echo c) 15 = 0.
Proof.
  unfold wf_config. rewrite !andb_true_iff, !Z.leb_le, !Z.ltb_lt, Z.eqb_eq. lia.
Qed.

Lemma tarm_Reset_on c ds ph s :
  TOn c ds ph s ->
  exists s',
    Tarm.Reset s
    = (match ds with
       | [] => Err (ErrFmt "presence error 0x%x" [240])
       | _ => Ok tt
       end, s')
    /\ (ds <> [] -> TOn c ds (Command []) s').
Proof.
  intros (Hr & Hc & Hd & Hp).
  destruct s as [[dev [h|]] [[c0 ds0 ph0 rx0 now0] ps]]; [|done].
  unfold tarm_ready in Hr. cbn in Hr, Hc, Hd, Hp. subst c0 ds0 ph0.
  destruct (ps !! h) as [[baud [|]]|] eqn:Eh; try done.
  apply andb_true_iff in Hr as [[Hbaud%Z.eqb_eq Hcfg]%andb_true_iff Hrx].
  destruct rx0 as [|]; [|done]. subst baud.
  pose proof (wf_config_spec c Hcfg) as (Hlow & Hpres & Hnib).
  unfold Tarm.Reset, bind, Tarm.get_device, Tarm.Close, Tarm.lib, Tarm.set_uart.
  cbn. unfold port_baud. cbn. rewrite Eh. cbn.
  rewrite list_lookup_middle by done. cbn.
  rewrite list_lookup_middle by done. cbn.
  destruct ds as [|d ds']; cbn.
  - eexists. split; [reflexivity|done].
  - assert (E1 : (presence_echo c =? 255) = false) by (apply Z.eqb_neq; lia).
    assert (E2 : (presence_echo c <? 16) = false) by (apply Z.ltb_ge; lia).
    assert (E3 : (224 <? presence_echo c) = false) by (apply Z.ltb_ge; lia).
    unfold at_. cbn. rewrite E1, E2, E3. cbn.
    eexists. split; [reflexivity|]. intros _.
    unfold TOn, tarm_ready. cbn.
    rewrite list_lookup_middle by (rewrite length_app; done). cbn.
    rewrite Hcfg. done.
Qed.

Lemma land_low_echo low : 0 <= low < 255 -> bit_of_echo (Z.land 255 low) = 0.
Proof.
  intros H. assert (E : Z.land 255 low = low).
  { rewrite Z.land_comm. change 255 with (Z.ones 8).
    rewrite Z.land_ones by lia. apply Z.mod_small. change (2 ^ 8) with 256. lia. }
  rewrite E. unfold bit_of_echo. destruct (Z.eqb_spec low 255); [lia|done].
Qed.

Lemma slot_read_bit c act pos :
  wf_config c = true ->
  bit_of_echo (fst (slot c [] (Search act pos 0) 255))
  = wiredAnd (fun d => bitAt d pos) act.
Proof.
  intros (Hlow & _)%wf_config_spec. cbn. unfold wiredAnd.
  destruct (existsb _ act); [by apply land_low_echo | done].
Qed.

Lemma slot_read_cobit c act pos :
  wf_config c = true ->
  bit_of_echo (fst (slot c [] (Search act pos 1) 255))
  = wiredAnd (fun d => 1 - bitAt d pos) act.
Proof.
  intros (Hlow & _)%wf_config_spec. cbn. unfold wiredAnd.
  assert (Hext : existsb (fun d => bitAt d pos =? 1) act
                 = existsb (fun d => 1 - bitAt d pos =? 0) act).
  { induction act as [|d act IH]; [done|]. cbn. rewrite IH. f_equal.
    destruct (Z.eqb_spec (bitAt d pos) 1), (Z.eqb_spec (1 - bitAt d pos) 0); lia. }
  rewrite <- Hext.
  destruct (existsb _ act); [by apply land_low_echo | done].
Qed.

Lemma slot_devices_irrelevant c ds act pos step m :
  slot c ds (Search act pos step) m = slot c [] (Search act pos step) m.
Proof. done. Qed.

Section TarmFaithful.
Variable c : Config.
Variable ds : list Device.
Variable alarm : bool.
Hypothesis ds_present : ds <> [].


Lemma tarm_start s : TReady c ds s ->
  exists s1 s2, Tarm.Reset s = (Ok tt, s1) /\ Tarm.WriteByte (if alarm then 236 else 240) s1 = (Ok tt, s2)
                /\ TAt c ds alarm [] s2.
Proof.
  intros [ph HOn].
  destruct (tarm_Reset_on c ds ph s HOn) as (s1 & Hreset & Hs1).
  specialize (Hs1 ds_present).
  destruct (tarm_WriteByte_command c ds s1 (if alarm then 236 else 240) Hs1) as (s2 & Hcmd & Hs2).
  { destruct alarm; auto. }
  exists s1, s2. split_and!; [by destruct ds | done |].
  unfold TAt, search_phase, answering in *. cbn.
  by destruct alarm.
Qed.

Lemma tarm_step p s : TAt c ds alarm p s -> (length p < 64)%nat ->
  exists s1 s2,
    Tarm.ReadBit s
    = (Ok (wiredAnd (fun d => bitAt d (length p)) (select (answering alarm ds) 0 p)), s1)
    /\ Tarm.ReadBit s1
       = (Ok (wiredAnd (fun d => 1 - bitAt d (length p)) (select (answering alarm ds) 0 p)), s2)
    /\ forall b, b = 0 \/ b = 1 ->
         exists s3, Tarm.WriteBit b s2 = (Ok tt, s3) /\ TAt c ds alarm (p ++ [b]) s3.
Proof.
  intros HAt Hlen. unfold TAt, search_phase in HAt.
  assert (Hlt : (length p <? 64)%nat = true) by (apply Nat.ltb_lt; lia).
  rewrite Hlt in HAt.
  assert (Hcfg : wf_config c = true).
  { destruct HAt as (Hr & Hc & _). unfold tarm_ready in Hr.
    destruct (Tarm.uart _); [|done]. destruct (ports _ !! _) as [[? [|]]|]; try done.
    apply andb_true_iff in Hr as [[_ Hr]%andb_true_iff _]. by rewrite Hc in Hr. }
  destruct (tarm_ReadBit_on _ _ _ _ HAt) as (s1 & Hr1 & Hs1).
  rewrite slot_devices_irrelevant, slot_read_bit in Hr1 by done. cbn in Hs1.
  destruct (tarm_ReadBit_on _ _ _ _ Hs1) as (s2 & Hr2 & Hs2).
  rewrite slot_devices_irrelevant, slot_read_cobit in Hr2 by done. cbn in Hs2.
  exists s1, s2. split_and!; [done|done|]. intros b Hb.
  destruct (tarm_WriteBit_on _ _ _ _ _ b Hs2 Hb) as (s3 & Hw & Hs3).
  exists s3. split; [done|]. unfold TAt, search_phase.
  rewrite length_app. cbn [length]. rewrite select_snoc. cbn.
  replace (length p + 1)%nat with (S (length p)) by lia.
  destruct (Nat.eqb_spec (S (length p)) 64) as [E|E].
  - rewrite E. by cbn.
  - assert (Hlt' : (S (length p) <=? 63)%nat = true) by (apply Nat.leb_le; lia).
    by rewrite Hlt'.
Qed.

Lemma tarm_finish p s : TAt c ds alarm p s -> TReady c ds s.
Proof. intros H. by eexists. Qed.

End TarmFaithful.

Lemma Forall_sublist {A} (P : A -> Prop) (k l : list A) :
  k `sublist_of` l -> Forall P l -> Forall P k.
Proof.
  rewrite !Forall_forall. intros Hsub Hl x Hx. apply Hl. by eapply elem_of_sublist.
Qed.

Lemma tarm_search_spec (alarm : bool) (s : Tarm.Bus TarmWorld) (fuel : nat) :
  let ds := devices (tline (Tarm.world s)) in
  let parts := answering alarm ds in
  tarm_ready s = true -> parts <> [] ->
  Forall (fun d => wf_rom (dev_rom d) = true) ds ->
  NoDup (dev_rom <$> ds) ->
  (length parts <= fuel)%nat ->
  exists roms s',
    Tarm.searchROM fuel alarm s = (Ok roms, s')
    /\ tarm_ready s' = true
    /\ roms ≡ₚ dev_rom <$> parts.
Proof.
  intros ds parts Hready Hparts Hwf Hnd Hfuel.
  assert (Hds : ds <> []).
  { intros E. apply Hparts. subst parts. unfold answering. rewrite E. by destruct alarm. }
  assert (Hsub : parts `sublist_of` ds).
  { subst parts. unfold answering. destruct alarm; [apply sublist_filter | done]. }
  destruct (searchROM_on_spec Tarm.Reset Tarm.WriteByte Tarm.ReadBit Tarm.WriteBit
              parts (if alarm then 236 else 240)
              (TReady (config (tline (Tarm.world s))) ds)
              (TAt (config (tline (Tarm.world s))) ds alarm)
              (tarm_start _ ds alarm Hds) (tarm_step _ ds alarm) (tarm_finish _ ds alarm)
              (Forall_sublist _ _ _ Hsub Hwf)
              (sublist_NoDup _ _ Hnd (fmap_sublist _ _ _ Hsub))
              alarm fuel s eq_refl)
    as (roms & s' & Hsearch & [ph' (Hr' & _)] & Hperm); try done.
  - by exists (state (tline (Tarm.world s))).
  - by exists roms, s'.
Qed.

Lemma bugst_ready_spec s :
  bugst_ready s = true ->
  Bugst.uart (Bugst.adapter s) = true
  /\ BaudRate (bmode (Bugst.world s)) = 115200
  /\ wf_config (config (bline (Bugst.world s))) = true.
Proof.
  unfold bugst_ready. rewrite !andb_true_iff, Z.eqb_eq. tauto.
Qed.

Lemma BOn_at c ds ph s ph' t : BOn c ds ph s -> BOn c ds ph' (bugst_at s ph' t).
Proof. intros (Hr & Hc & Hd & Hp). split_and!; done. Qed.

Lemma bugst_exchange (s : Bugst.Bus BugstWorld) bytes :
  bugst_ready s = true ->
  let l := bline (Bugst.world s) in
  let r := slots (config l) (devices l) (state l) bytes in
  (do_ Bugst.clear_ignored;
   do_ Bugst.on_uart (bugst_Write bytes);
   Bugst.on_uart (bugst_Read (length bytes))) s
  = (Ok (fst r), bugst_at s (snd r) (now l + 86805 * Z.of_nat (length bytes))).
Proof.
  intros (Hu & Hbaud & Hcfg)%bugst_ready_spec.
  destruct s as [[dev u m] [l bm]]. cbn in Hu, Hbaud, Hcfg. subst u.
  unfold bind, Bugst.clear_ignored, Bugst.clear, bind, Bugst.on_uart. cbn.
  rewrite Hbaud. rewrite send_data. cbn.
  unfold bugst_at. cbn. f_equal.
  - f_equal. rewrite take_ge; [done|]. by rewrite slots_length.
  - f_equal. f_equal. f_equal. rewrite drop_ge; [done|]. by rewrite slots_length.
Qed.

Lemma bugst_readBit_on c ds ph s :
  BOn c ds ph s ->
  exists s', Bugst.readBit s = (Ok (bit_of_echo (fst (slot c ds ph 255))), s')
             /\ BOn c ds (snd (slot c ds ph 255)) s'.
Proof.
  intros HOn. pose proof HOn as (Hr & Hc & Hd & Hp).
  pose proof (bugst_exchange s [255] Hr) as Hx. cbn zeta in Hx.
  rewrite Hc, Hd, Hp in Hx. cbn [slots length] in Hx.
  destruct (slot c ds ph 255) as [e ph1]. cbn [fst snd] in *.
  eexists. split; [|by eapply BOn_at].
  unfold Bugst.readBit. erewrite bind3; [|exact Hx].
  cbn. unfold bit_of_echo. by destruct (e =? 255).
Qed.

Lemma bugst_writeBit_on c ds act pos s b :
  BOn c ds (Search act pos 2) s -> b = 0 \/ b = 1 ->
  exists s', Bugst.writeBit b s = (Ok tt, s')
             /\ BOn c ds (if (S pos =? 64)%nat then Idle
                          else Search (filter (fun d => bitAt d pos = b) act) (S pos) 0) s'.
Proof.
  intros HOn Hb. pose proof HOn as (Hr & Hc & Hd & Hp).
  pose proof (bugst_exchange s [if b mod 2 =? 0 then 0 else 255] Hr) as Hx.
  cbn zeta in Hx. rewrite Hc, Hd, Hp in Hx. cbn [slots length slot fst snd] in Hx.
  eexists. split.
  - unfold Bugst.writeBit. erewrite bind3; [|exact Hx].
    cbn. by destruct Hb as [-> | ->].
  - destruct Hb as [-> | ->]; cbn; by eapply BOn_at.
Qed.

Lemma bugst_writeByte_command c ds s cmd :
  BOn c ds (Command []) s -> cmd = 240 \/ cmd = 236 ->
  exists s', Bugst.writeByte cmd s = (Ok tt, s')
             /\ BOn c ds (Search (if cmd =? 240 then ds
                                  else filter (fun d => dev_alarm d = true) ds) 0 0) s'.
Proof.
  intros HOn Hcmd. pose proof HOn as (Hr & Hc & Hd & Hp).
  pose proof (bugst_exchange s (unpackBits 8 0 cmd (replicate 8 0)) Hr) as Hx.
  cbn zeta in Hx. rewrite Hc, Hd, Hp in Hx.
  destruct Hcmd as [-> | ->].
  - eexists. split.
    + unfold Bugst.writeByte. erewrite bind3; [|exact Hx]. reflexivity.
    + cbn. by eapply BOn_at.
  - eexists. split.
    + unfold Bugst.writeByte. erewrite bind3; [|exact Hx]. reflexivity.
    + cbn. by eapply BOn_at.
Qed.

(** The reset of bus-driver.go needs no empty input buffer: it clears it. *)
Lemma bugst_reset_on c ds s :
  Bugst.uart (Bugst.adapter s) = true ->
  config (bline (Bugst.world s)) = c -> wf_config c = true ->
  devices (bline (Bugst.world s)) = ds ->
  exists s',
    Bugst.reset s
    = (match ds with
       | [] => Err (ErrMsg "no 1-wire device present")
       | _ => Ok tt
       end, s')
    /\ BOn c ds (Command []) s'.
Proof.
  intros Hu Hc Hcfg Hd.
  destruct s as [[dev u m] [[c0 ds0 ph0 rx0 now0] bm]]. cbn in Hu, Hc, Hd. subst u c0 ds0.
  pose proof (wf_config_spec c Hcfg) as (Hlow & Hpres & Hnib).
  unfold Bugst.reset, Bugst.pulse, Bugst.SetMode, Bugst.clear, Bugst.set_baud, bind,
    Bugst.on_uart.
  cbn. change (Z.of_nat 1) with 1. cbn. destruct ds as [|d ds']; cbn.
  - eexists. split; [reflexivity|]. unfold BOn, bugst_ready. cbn. by rewrite Hcfg.
  - unfold at_. cbn. rewrite Hnib. cbn.
    assert (E : (Z.shiftr (presence_echo c) 4 =? 15) = false).
    { apply Z.eqb_neq. rewrite Z.shiftr_div_pow2 by lia. change (2 ^ 4) with 16.
      intros E. pose proof (Z.div_mod (presence_echo c) 16).
      pose proof (Z.mod_pos_bound (presence_echo c) 16). lia. }
    rewrite E. cbn.
    eexists. split; [reflexivity|]. unfold BOn, bugst_ready. cbn. by rewrite Hcfg.
Qed.

Section BugstFaithful.
Variable c : Config.
Variable ds : list Device.
Variable alarm : bool.
Hypothesis ds_present : ds <> [].
Hypothesis c_wf : wf_config c = true.


Lemma bugst_start s : BReady c ds s ->
  exists s1 s2, Bugst.reset s = (Ok tt, s1) /\ Bugst.writeByte (if alarm then 236 else 240) s1 = (Ok tt, s2)
                /\ BAt c ds alarm [] s2.
Proof.
  intros [ph (Hr & Hc & Hd & Hp)].
  pose proof (bugst_ready_spec s Hr) as (Hu & _ & _).
  destruct (bugst_reset_on c ds s Hu Hc c_wf Hd) as (s1 & Hreset & Hs1).
  destruct (bugst_writeByte_command c ds s1 (if alarm then 236 else 240) Hs1) as (s2 & Hcmd & Hs2).
  { destruct alarm; auto. }
  exists s1, s2. split_and!; [by destruct ds | done |].
  unfold BAt, search_phase, answering in *. cbn.
  by destruct alarm.
Qed.

Lemma bugst_step p s : BAt c ds alarm p s -> (length p < 64)%nat ->
  exists s1 s2,
    Bugst.readBit s
    = (Ok (wiredAnd (fun d => bitAt d (length p)) (select (answering alarm ds) 0 p)), s1)
    /\ Bugst.readBit s1
       = (Ok (wiredAnd (fun d => 1 - bitAt d (length p)) (select (answering alarm ds) 0 p)), s2)
    /\ forall b, b = 0 \/ b = 1 ->
         exists s3, Bugst.writeBit b s2 = (Ok tt, s3) /\ BAt c ds alarm (p ++ [b]) s3.
Proof.
  intros HAt Hlen. unfold BAt, search_phase in HAt.
  assert (Hlt : (length p <? 64)%nat = true) by (apply Nat.ltb_lt; lia).
  rewrite Hlt in HAt.
  destruct (bugst_readBit_on _ _ _ _ HAt) as (s1 & Hr1 & Hs1).
  rewrite slot_devices_irrelevant, slot_read_bit in Hr1 by done. cbn in Hs1.
  destruct (bugst_readBit_on _ _ _ _ Hs1) as (s2 & Hr2 & Hs2).
  rewrite slot_devices_irrelevant, slot_read_cobit in Hr2 by done. cbn in Hs2.
  exists s1, s2. split_and!; [done|done|]. intros b Hb.
  destruct (bugst_writeBit_on _ _ _ _ _ b Hs2 Hb) as (s3 & Hw & Hs3).
  exists s3. split; [done|]. unfold BAt, search_phase.
  rewrite length_app. cbn [length]. rewrite select_snoc. cbn.
  replace (length p + 1)%nat with (S (length p)) by lia.
  destruct (Nat.eqb_spec (S (length p)) 64) as [E|E].
  - rewrite E. by cbn.
  - assert (Hlt' : (S (length p) <=? 63)%nat = true) by (apply Nat.leb_le; lia).
    by rewrite Hlt'.
Qed.

Lemma bugst_finish p s : BAt c ds alarm p s -> BReady c ds s.
Proof. intros H. by eexists. Qed.

End BugstFaithful.

Lemma bugst_search_spec (alarm : bool) (s : Bugst.Bus BugstWorld) (fuel : nat) :
  let ds := devices (bline (Bugst.world s)) in
  let parts := answering alarm ds in
  bugst_ready s = true -> parts <> [] ->
  Forall (fun d => wf_rom (dev_rom d) = true) ds ->
  NoDup (dev_rom <$> ds) ->
  (length parts <= fuel)%nat ->
  exists roms s',
    Bugst.searchROM fuel alarm s = (Ok roms, s')
    /\ bugst_ready s' = true
    /\ roms ≡ₚ dev_rom <$> parts.
Proof.
  intros ds parts Hready Hparts Hwf Hnd Hfuel.
  assert (Hds : ds <> []).
  { intros E. apply Hparts. subst parts. unfold answering. rewrite E. by destruct alarm. }
  assert (Hsub : parts `sublist_of` ds).
  { subst parts. unfold answering. destruct alarm; [apply sublist_filter | done]. }
  pose proof (bugst_ready_spec s Hready) as (_ & _ & Hcfg).
  destruct (searchROM_on_spec Bugst.reset Bugst.writeByte Bugst.readBit Bugst.writeBit
              parts (if alarm then 236 else 240)
              (BReady (config (bline (Bugst.world s))) ds)
              (BAt (config (bline (Bugst.world s))) ds alarm)
              (bugst_start _ ds alarm Hds Hcfg) (bugst_step _ ds alarm Hcfg)
              (bugst_finish _ ds alarm)
              (Forall_sublist _ _ _ Hsub Hwf)
              (sublist_NoDup _ _ Hnd (fmap_sublist _ _ _ Hsub))
              alarm fuel s eq_refl)
    as (roms & s' & Hsearch & [ph' (Hr' & _)] & Hperm); try done.
  - by exists (state (bline (Bugst.world s))).
  - by exists roms, s'.
Qed.

(** ** The text of a ROM code *)

Lemma parse_hex2_all :
  forallb (fun b => match ParseInt16 (hex2 b) with Ok v => v =? b | _ => false end)
    (seqZ 0 256) = true.
Proof. vm_compute. reflexivity. Qed.

Lemma parse_hex2 b : 0 <= b < 256 -> ParseInt16 (hex2 b) = Ok b.
Proof.
  intros Hb. pose proof parse_hex2_all as Hall.
  rewrite forallb_forall in Hall.
  specialize (Hall b). 
  destruct (ParseInt16 (hex2 b)) as [v|e|c].
  - f_equal. apply Z.eqb_eq, Hall, list_elem_of_In, elem_of_seqZ. lia.
  - exfalso. assert (false = true); [|done]. apply Hall, list_elem_of_In, elem_of_seqZ. lia.
  - exfalso. assert (false = true); [|done]. apply Hall, list_elem_of_In, elem_of_seqZ. lia.
Qed.

Lemma rom_string_roundtrip r :
  wf_rom r = true -> NewROMFromString (ROM_String r) = Ok r.
Proof.
  intros [Hlen Hb]%wf_rom_spec. destruct r as [code]. cbn in Hlen, Hb.
  do 9 (destruct code as [|? code]; try done).
  repeat match goal with H : Forall _ (_ :: _) |- _ => apply Forall_cons in H as [? H] end.
  unfold NewROMFromString.
  match goal with
  | |- context [ROM_String {| Code := ?c |}] =>
      change (ROM_String {| Code := c |}) with (hexText c)
  end.
  cbn [hexText String.length Nat.eqb negb].
  cbn [romFromStringLoop Nat.mul substring Nat.add].
  repeat match goal with
         | |- context [ParseInt16 (String (hexChar (?b / 16)) (String (hexChar (?b mod 16)) EmptyString))] =>
             change (String (hexChar (b / 16)) (String (hexChar (b mod 16)) EmptyString))
               with (hex2 b);
             rewrite (parse_hex2 b) by done; cbn [romFromStringLoop Nat.mul substring Nat.add]
         end.
  unfold byte_of. rewrite !Z.mod_small by lia. reflexivity.
Qed.

(** ** C1: search completeness *)

Lemma Permutation_Forall_fmap {A B} (f : A -> B) (P : B -> Prop) (l : list A) (k : list B) :
  k ≡ₚ f <$> l -> Forall (fun x => P (f x)) l -> Forall P k.
Proof.
  intros Hp Hl. rewrite Hp. by apply Forall_fmap.
Qed.

(** C1 (amended).  On a simulated line with at least one device, distinct
    eight-byte ROM codes that carry their CRC8, and an adapter ready for a
    transaction, [GetConnectedROMs] (that is [searchROM(false)]) returns, within
    as many rounds as there are devices, a list of exactly as many ROMs as
    there are devices, each passing the CRC8 check, and the list is a
    permutation of the devices' ROM codes: every device once. *)
Theorem C1_search_complete (s : Tarm.Bus TarmWorld) (fuel : nat) :
  let ds := devices (tline (Tarm.world s)) in
  tarm_ready s = true ->
  ds <> [] ->
  Forall (fun d => wf_rom (dev_rom d) = true) ds ->
  Forall (fun d => IsValid (dev_rom d) = true) ds ->
  NoDup (dev_rom <$> ds) ->
  (length ds <= fuel)%nat ->
  exists roms s',
    Tarm.GetConnectedROMs fuel s = (Ok roms, s')
    /\ length roms = length ds
    /\ Forall (fun r => IsValid r = true) roms
    /\ roms ≡ₚ dev_rom <$> ds.
Proof.
  intros ds Hready Hne Hwf Hvalid Hnd Hfuel.
  destruct (tarm_search_spec false s fuel Hready Hne Hwf Hnd Hfuel)
    as (roms & s' & Hsearch & _ & Hperm).
  exists roms, s'. split_and!; [done | | | done].
  - apply Permutation_length in Hperm. by rewrite length_fmap in Hperm.
  - by eapply Permutation_Forall_fmap.
Qed.

Lemma three_NoDup : NoDup (dev_rom <$> three).
Proof. apply (bool_decide_unpack _). vm_compute. reflexivity. Qed.

Lemma C1_search_complete_witness :
  exists roms s',
    Tarm.GetConnectedROMs 3 (tarm_boot cfg0 three) = (Ok roms, s')
    /\ length roms = 3%nat
    /\ Forall (fun r => IsValid r = true) roms
    /\ roms ≡ₚ dev_rom <$> three.
Proof.
  apply (C1_search_complete (tarm_boot cfg0 three) 3).
  - vm_compute. reflexivity.
  - discriminate.
  - repeat constructor.
  - repeat constructor.
  - exact three_NoDup.
  - simpl. lia.
Defined.

(** C1, as stated, fails for an empty bus (N = 0): the reset pulse finds no
    presence pulse and the search returns an error instead of the empty
    list. *)
Lemma C1_empty_bus_counterexample :
  devices (tline (Tarm.world (tarm_boot cfg0 []))) = []
  /\ tarm_ready (tarm_boot cfg0 []) = true
  /\ forall fuel roms s',
       Tarm.GetConnectedROMs fuel (tarm_boot cfg0 []) <> (Ok roms, s').
Proof.
  split_and!; [done | by vm_compute |].
  intros [|fuel] roms s'; [by vm_compute|].
  unfold Tarm.GetConnectedROMs, Tarm.searchROM, searchROM_on.
  cbn [searchRounds]. unfold bind.
  replace (Tarm.Reset (tarm_boot cfg0 []))
    with (@Err unit (ErrFmt "presence error 0x%x" [240]),
          snd (Tarm.Reset (tarm_boot cfg0 []))) by (vm_compute; reflexivity).
  done.
Qed.

Example C1_empty_bus_error :
  fst (Tarm.GetConnectedROMs 1 (tarm_boot cfg0 []))
  = Err (ErrFmt "presence error 0x%x" [240]).
Proof. vm_compute. reflexivity. Qed.

(** ** C2: the round that reads two 1-bits in an alarm search *)

Section AlarmRound.
Context {St : Type}.
Variable reset : M St unit.
Variable writeByte : Z -> M St unit.
Variable readBit : M St Z.
Variable writeBit : Z -> M St unit.

(** When a bit and its complement both read 1 in an alarm search, the inner
    loop stops and hands back the bits fixed so far. *)
Lemma readRestBits_alarm_break n current partials s s1 s2 :
  (length current < 64)%nat ->
  readBit s = (Ok 1, s1) -> readBit s1 = (Ok 1, s2) ->
  readRestBits readBit writeBit true (S n) current partials s
  = (Ok (current, partials), s2).
Proof.
  intros Hlen H1 H2. cbn [readRestBits].
  assert (Hlt : (length current <? 64)%nat = true) by (apply Nat.ltb_lt; lia).
  rewrite Hlt. cbn [negb].
  rewrite (bind_ok _ _ _ _ _ H1), (bind_ok _ _ _ _ _ H2). reflexivity.
Qed.

(** The first round of an alarm search on a bus where no device answers the
    command: the round is not discarded, the empty path is turned into a ROM
    and appended. *)
Lemma searchROM_alarm_silent fuel s s1 s2 s3 s4 :
  reset s = (Ok tt, s1) -> writeByte 236 s1 = (Ok tt, s2) ->
  readBit s2 = (Ok 1, s3) -> readBit s3 = (Ok 1, s4) ->
  searchROM_on reset writeByte readBit writeBit (S fuel) true s
  = (Ok [newRomFromBits []], s4).
Proof.
  intros Hr Hw H1 H2. unfold searchROM_on. cbn [searchRounds].
  rewrite (bind_ok _ _ _ _ _ Hr), (bind_ok _ _ _ _ _ Hw).
  cbn [sendKnownBits]. unfold bind at 1. unfold ret at 1.
  change (64 - length (@nil Z))%nat with 64%nat.
  rewrite (readRestBits_alarm_break 63 [] [] s2 s3 s4); [done | cbn; lia | done | done].
Qed.

End AlarmRound.

(** C2 (code bug).  An alarm search on a bus whose only device has no alarm
    reads 1 for the first bit and for its complement.  Both adapters then
    return, without an error, a list that holds one ROM, the all-zero code
    made from the empty path, where the claim has the empty list. *)
Theorem C2_alarm_search_emits_rom :
  fst (Tarm.GetROMsWithAlarm 1 (tarm_boot cfg0 quiet))
  = Ok [ {| Code := [0; 0; 0; 0; 0; 0; 0; 0] |} ]
  /\ fst (Bugst.GetROMsWithAlarm 1 (bugst_boot cfg0 quiet))
     = Ok [ {| Code := [0; 0; 0; 0; 0; 0; 0; 0] |} ].
Proof. split; vm_compute; reflexivity. Qed.

(** The same round later in a search: with the bits [current] fixed, the
    ROM made from them (unset bits zero) is what the round contributes. *)
Example partial_rom : newRomFromBits [1; 0; 1] = {| Code := [5; 0; 0; 0; 0; 0; 0; 0] |}.
Proof. vm_compute. reflexivity. Qed.

(** ** C3: which ROMs are checked against their CRC8 *)

Lemma tarm_readROM_bytes {W : Type} `{TarmSerial W} (s s1 s2 s3 : Tarm.Bus W) code n :
  Tarm.Reset s = (Ok tt, s1) -> Tarm.WriteByte 51 s1 = (Ok tt, s2) ->
  Tarm.ReadBytes (replicate 8 0) s2 = (Ok (code, n, None), s3) ->
  Tarm.readROM s
  = (if IsValid {| Code := code |} then Ok {| Code := code |}
     else Err (ErrMsg "crc error"), s3).
Proof.
  intros Hr Hw Hb. unfold Tarm.readROM.
  rewrite (bind_ok _ _ _ _ _ Hr), (bind_ok _ _ _ _ _ Hw).
  change (Code new_ROM) with (replicate 8 0).
  rewrite (bind_ok _ _ _ _ _ Hb). cbn.
  by destruct (IsValid {| Code := code |}).
Qed.

Lemma tarm_readROM_valid {W : Type} `{TarmSerial W} (s s' : Tarm.Bus W) rom :
  Tarm.readROM s = (Ok rom, s') -> IsValid rom = true.
Proof.
  unfold Tarm.readROM, bind.
  destruct (Tarm.Reset s) as [[[]|e|c] s1]; [|done|done].
  destruct (Tarm.WriteByte 51 s1) as [[[]|e|c] s2]; [|done|done].
  destruct (Tarm.ReadBytes (Code new_ROM) s2) as [[[[code n] [e|]]|e|c] s3]; try done.
  destruct (IsValid {| Code := code |}) eqn:E; cbn; [|done].
  by intros [= <- <-].
Qed.

Lemma bugst_readROM_bytes {W : Type} `{BugstSerial W} (s s1 s2 s3 : Bugst.Bus W) code n :
  Bugst.reset s = (Ok tt, s1) -> Bugst.writeByte 51 s1 = (Ok tt, s2) ->
  Bugst.readBytes (replicate 8 0) s2 = (Ok (code, n, None), s3) ->
  Bugst.readROM s
  = (if IsValid {| Code := code |} then Ok {| Code := code |}
     else Err (ErrMsg "crc error"), s3).
Proof.
  intros Hr Hw Hb. unfold Bugst.readROM.
  rewrite (bind_ok _ _ _ _ _ Hr), (bind_ok _ _ _ _ _ Hw).
  change (Code new_ROM) with (replicate 8 0).
  rewrite (bind_ok _ _ _ _ _ Hb). cbn.
  by destruct (IsValid {| Code := code |}).
Qed.

Lemma bugst_readROM_valid {W : Type} `{BugstSerial W} (s s' : Bugst.Bus W) rom :
  Bugst.readROM s = (Ok rom, s') -> IsValid rom = true.
Proof.
  unfold Bugst.readROM, bind.
  destruct (Bugst.reset s) as [[[]|e|c] s1]; [|done|done].
  destruct (Bugst.writeByte 51 s1) as [[[]|e|c] s2]; [|done|done].
  destruct (Bugst.readBytes (Code new_ROM) s2) as [[[[code n] [e|]]|e|c] s3]; try done.
  destruct (IsValid {| Code := code |}) eqn:E; cbn; [|done].
  by intros [= <- <-].
Qed.

(** C3, as stated, fails: the text of the package's own test parses into a
    ROM that fails the CRC8 check, and a search returns the code of a device
    whose eighth byte is not the CRC8 of the other seven; neither call
    reports an error. *)
Lemma C3_unchecked_counterexample :
  NewROMFromString "2825EA520510F3CE" = Ok test_rom
  /\ fst (Tarm.GetConnectedROMs 1 (tarm_boot cfg0 odd)) = Ok [test_rom]
  /\ IsValid test_rom = false.
Proof. split_and!; vm_compute; reflexivity. Qed.

(** C3 (amended).  Read-ROM is the one producer that checks: a ROM it
    returns passes the CRC8 check, and when the eight bytes read fail it the
    caller gets the error "crc error" and no ROM; the bytes are those read,
    unaltered.  [NewROMFromString] and the search check nothing: the text of
    any eight bytes parses into exactly those bytes, and a search on the
    simulated line returns the codes of the answering devices, whether or not
    they carry their CRC8. *)
Theorem C3_rom_integrity :
  (forall (W : Type) (H : TarmSerial W) (s s' : Tarm.Bus W) rom,
      Tarm.readROM s = (Ok rom, s') -> IsValid rom = true)
  /\ (forall (W : Type) (H : BugstSerial W) (s s' : Bugst.Bus W) rom,
        Bugst.readROM s = (Ok rom, s') -> IsValid rom = true)
  /\ (forall (W : Type) (H : TarmSerial W) (s s1 s2 s3 : Tarm.Bus W) code n,
        Tarm.Reset s = (Ok tt, s1) -> Tarm.WriteByte 51 s1 = (Ok tt, s2) ->
        Tarm.ReadBytes (replicate 8 0) s2 = (Ok (code, n, None), s3) ->
        Tarm.readROM s
        = (if IsValid {| Code := code |} then Ok {| Code := code |}
           else Err (ErrMsg "crc error"), s3))
  /\ (forall (W : Type) (H : BugstSerial W) (s s1 s2 s3 : Bugst.Bus W) code n,
        Bugst.reset s = (Ok tt, s1) -> Bugst.writeByte 51 s1 = (Ok tt, s2) ->
        Bugst.readBytes (replicate 8 0) s2 = (Ok (code, n, None), s3) ->
        Bugst.readROM s
        = (if IsValid {| Code := code |} then Ok {| Code := code |}
           else Err (ErrMsg "crc error"), s3))
  /\ (forall r, wf_rom r = true -> NewROMFromString (ROM_String r) = Ok r)
  /\ (forall (s : Tarm.Bus TarmWorld) (fuel : nat),
        let ds := devices (tline (Tarm.world s)) in
        tarm_ready s = true -> ds <> [] ->
        Forall (fun d => wf_rom (dev_rom d) = true) ds ->
        NoDup (dev_rom <$> ds) -> (length ds <= fuel)%nat ->
        exists roms s',
          Tarm.GetConnectedROMs fuel s = (Ok roms, s') /\ roms ≡ₚ dev_rom <$> ds).
Proof.
  split_and!.
  - intros W H. apply tarm_readROM_valid.
  - intros W H. apply bugst_readROM_valid.
  - intros W H. apply tarm_readROM_bytes.
  - intros W H. apply bugst_readROM_bytes.
  - apply rom_string_roundtrip.
  - intros s fuel ds Hready Hne Hwf Hnd Hfuel.
    destruct (tarm_search_spec false s fuel Hready Hne Hwf Hnd Hfuel)
      as (roms & s' & Hsearch & _ & Hperm).
    by exists roms, s'.
Qed.

Lemma C3_rom_integrity_witness :
  IsValid rom_a = true
  /\ IsValid rom_a = true
  /\ fst (Tarm.readROM (tarm_replay_boot (readROM_script (Code test_rom))))
     = Err (ErrMsg "crc error")
  /\ fst (Bugst.readROM (bugst_replay_boot (readROM_script (Code rom_a)))) = Ok rom_a
  /\ NewROMFromString (ROM_String test_rom) = Ok test_rom
  /\ exists roms s',
       Tarm.GetConnectedROMs 1 (tarm_boot cfg0 odd) = (Ok roms, s')
       /\ roms ≡ₚ dev_rom <$> odd.
Proof.
  destruct C3_rom_integrity as (H1 & H2 & H3 & H4 & H5 & H6).
  split_and!.
  - apply (H1 Replay _ (tarm_replay_boot (readROM_script (Code rom_a)))
             (snd (Tarm.readROM (tarm_replay_boot (readROM_script (Code rom_a)))))).
    vm_compute. reflexivity.
  - apply (H2 Replay _ (bugst_replay_boot (readROM_script (Code rom_a)))
             (snd (Bugst.readROM (bugst_replay_boot (readROM_script (Code rom_a)))))).
    vm_compute. reflexivity.
  - pose (s := tarm_replay_boot (readROM_script (Code test_rom))).
    pose (s1 := snd (Tarm.Reset s)).
    pose (s2 := snd (Tarm.WriteByte 51 s1)).
    pose (s3 := snd (Tarm.ReadBytes (replicate 8 0) s2)).
    rewrite (H3 Replay _ s s1 s2 s3 (Code test_rom) 9); vm_compute; reflexivity.
  - pose (s := bugst_replay_boot (readROM_script (Code rom_a))).
    pose (s1 := snd (Bugst.reset s)).
    pose (s2 := snd (Bugst.writeByte 51 s1)).
    pose (s3 := snd (Bugst.readBytes (replicate 8 0) s2)).
    rewrite (H4 Replay _ s s1 s2 s3 (Code rom_a) 8); vm_compute; reflexivity.
  - apply H5. vm_compute. reflexivity.
  - apply (H6 (tarm_boot cfg0 odd) 1%nat).
    + vm_compute. reflexivity.
    + discriminate.
    + repeat constructor.
    + apply (bool_decide_unpack _). vm_compute. reflexivity.
    + simpl. lia.
Defined.

(** ** C5: decoding the temperature of a DS18B20 *)

Lemma int16_le_range b0 b1 rest :
  0 <= b0 < 256 -> 0 <= b1 < 256 ->
  -32768 <= Tarm.int16_le (b0 :: b1 :: rest) < 32768
  /\ (Tarm.int16_le (b0 :: b1 :: rest) - (b0 + 256 * b1)) mod 65536 = 0.
Proof.
  intros H0 H1. unfold Tarm.int16_le.
  destruct (Z.ltb_spec (b0 + 256 * b1) 32768).
  - split; [lia|]. by rewrite Z.sub_diag.
  - split; [lia|].
    replace (b0 + 256 * b1 - 65536 - (b0 + 256 * b1)) with (-1 * 65536) by lia.
    apply Z.mod_mul. lia.
Qed.

(** C5.  For family code 0x28, [calcTemperature] returns [raw * 10000 / 16]
    (Go's truncating division), where [raw] is the signed little-endian
    16-bit value of scratchpad bytes 0 and 1; the five vectors of the
    specification follow. *)
Theorem C5_calcTemperature_DS18B20 (s : Tarm.TemperatureSensor) (scratchpad : list Z) :
  Tarm.familyCode s = 40 ->
  Tarm.calcTemperature s scratchpad = Ok ((Tarm.int16_le scratchpad * 10000) ÷ 16)
  /\ (forall b0 b1 rest,
        scratchpad = b0 :: b1 :: rest -> 0 <= b0 < 256 -> 0 <= b1 < 256 ->
        -32768 <= Tarm.int16_le scratchpad < 32768
        /\ (Tarm.int16_le scratchpad - (b0 + 256 * b1)) mod 65536 = 0)
  /\ (forall rest, Tarm.calcTemperature s (208 :: 7 :: rest) = Ok 1250000)
  /\ (forall rest, Tarm.calcTemperature s (80 :: 5 :: rest) = Ok 850000)
  /\ (forall rest, Tarm.calcTemperature s (145 :: 1 :: rest) = Ok 250625)
  /\ (forall rest, Tarm.calcTemperature s (248 :: 255 :: rest) = Ok (-5000))
  /\ (forall rest, Tarm.calcTemperature s (144 :: 252 :: rest) = Ok (-550000)).
Proof.
  intros Hf.
  assert (Hcalc : forall sp,
             Tarm.calcTemperature s sp = Ok ((Tarm.int16_le sp * 10000) ÷ 16)).
  { intros sp. unfold Tarm.calcTemperature. rewrite Hf. reflexivity. }
  split_and!; try (intros rest; rewrite Hcalc; reflexivity).
  - apply Hcalc.
  - intros b0 b1 rest -> H0 H1. by apply int16_le_range.
Qed.

Lemma C5_calcTemperature_DS18B20_witness :
  Tarm.calcTemperature ds18b20 [208; 7; 0; 0; 0; 255; 0; 16] = Ok 1250000.
Proof.
  destruct (C5_calcTemperature_DS18B20 ds18b20 [208; 7; 0; 0; 0; 255; 0; 16] eq_refl)
    as (H & _). rewrite H. reflexivity.
Defined.

(** ** C9: the count [ReadBytes] returns *)

Lemma filled_step (buffer data : list Z) (i : nat) (b : Z) :
  (i + S (length data) <= length buffer)%nat ->
  take (S i) (<[i := b]> buffer) ++ data ++ drop (S i + length data) (<[i := b]> buffer)
  = take i buffer ++ (b :: data) ++ drop (i + S (length data)) buffer.
Proof.
  intros Hlen.
  rewrite (take_S_r _ _ b) by (apply list_lookup_insert_eq; lia).
  rewrite take_insert_ge by lia. rewrite drop_insert_lt by lia.
  rewrite <- app_assoc. cbn [app].
  by replace (S i + length data)%nat with (i + S (length data))%nat by lia.
Qed.

Lemma tarm_ReadBytesLoop_ok {W : Type} `{TarmSerial W} (data : list Z) :
  forall (i : nat) (buffer : list Z) (s s' : Tarm.Bus W),
    byte_reads Tarm.ReadByte s data s' ->
    (i + length data <= length buffer)%nat ->
    Tarm.ReadBytesLoop (length data) i buffer s
    = (Ok (take i buffer ++ data ++ drop (i + length data) buffer,
           Z.of_nat (i + length data) + 1, None), s').
Proof.
  induction data as [|b data IH]; intros i buffer s s' Hreads Hlen.
  - inversion Hreads; subst. cbn. rewrite Nat.add_0_r, take_drop. done.
  - inversion Hreads as [|? ? s1 ? ? Hb Hrest]; subst.
    cbn [length Tarm.ReadBytesLoop]. rewrite Hb.
    cbn [length] in Hlen.
    rewrite (IH (S i) (<[i := b]> buffer) s1 s' Hrest) by (rewrite length_insert; lia).
    rewrite filled_step by done.
    replace (S i + length data)%nat with (i + S (length data))%nat by lia. done.
Qed.

Lemma bugst_readBytesLoop_ok {W : Type} `{BugstSerial W} (data : list Z) :
  forall (i : nat) (buffer : list Z) (s s' : Bugst.Bus W),
    byte_reads Bugst.readByte s data s' ->
    (i + length data <= length buffer)%nat ->
    Bugst.readBytesLoop (length data) i buffer s
    = (Ok (take i buffer ++ data ++ drop (i + length data) buffer,
           Z.of_nat (i + length data), None), s').
Proof.
  induction data as [|b data IH]; intros i buffer s s' Hreads Hlen.
  - inversion Hreads; subst. cbn. rewrite Nat.add_0_r, take_drop. done.
  - inversion Hreads as [|? ? s1 ? ? Hb Hrest]; subst.
    cbn [length Bugst.readBytesLoop]. rewrite Hb.
    cbn [length] in Hlen.
    rewrite (IH (S i) (<[i := b]> buffer) s1 s' Hrest) by (rewrite length_insert; lia).
    rewrite filled_step by done.
    replace (S i + length data)%nat with (i + S (length data))%nat by lia. done.
Qed.

(** The converse: a [ReadBytes] that reports no error made one successful
    byte read per slot of the buffer. *)
Lemma tarm_ReadBytesLoop_inv {W : Type} `{TarmSerial W} (k : nat) :
  forall (i : nat) (buffer : list Z) (s s' : Tarm.Bus W) out n,
    Tarm.ReadBytesLoop k i buffer s = (Ok (out, n, None), s') ->
    (i + k <= length buffer)%nat ->
    exists data, byte_reads Tarm.ReadByte s data s' /\ length data = k
                 /\ out = take i buffer ++ data ++ drop (i + k) buffer.
Proof.
  induction k as [|k IH]; intros i buffer s s' out n Hrun Hlen.
  - cbn in Hrun. injection Hrun as <- <- <-. exists []. split_and!; [constructor|done|].
    cbn. by rewrite Nat.add_0_r, take_drop.
  - cbn [Tarm.ReadBytesLoop] in Hrun.
    destruct (Tarm.ReadByte s) as [[b|e|c] s1] eqn:Hb; [|done|done].
    destruct (IH (S i) (<[i := b]> buffer) s1 s' out n Hrun) as (data & Hreads & Hk & Hout).
    { rewrite length_insert. lia. }
    exists (b :: data). split_and!; [by econstructor | cbn; lia |].
    rewrite Hout. subst k. rewrite filled_step by lia. done.
Qed.

Lemma bugst_readBytesLoop_inv {W : Type} `{BugstSerial W} (k : nat) :
  forall (i : nat) (buffer : list Z) (s s' : Bugst.Bus W) out n,
    Bugst.readBytesLoop k i buffer s = (Ok (out, n, None), s') ->
    (i + k <= length buffer)%nat ->
    exists data, byte_reads Bugst.readByte s data s' /\ length data = k
                 /\ out = take i buffer ++ data ++ drop (i + k) buffer.
Proof.
  induction k as [|k IH]; intros i buffer s s' out n Hrun Hlen.
  - cbn in Hrun. injection Hrun as <- <- <-. exists []. split_and!; [constructor|done|].
    cbn. by rewrite Nat.add_0_r, take_drop.
  - cbn [Bugst.readBytesLoop] in Hrun.
    destruct (Bugst.readByte s) as [[b|e|c] s1] eqn:Hb; [|done|done].
    destruct (IH (S i) (<[i := b]> buffer) s1 s' out n Hrun) as (data & Hreads & Hk & Hout).
    { rewrite length_insert. lia. }
    exists (b :: data). split_and!; [by econstructor | cbn; lia |].
    rewrite Hout. subst k. rewrite filled_step by lia. done.
Qed.

Lemma tarm_ReadBytes_ok {W : Type} `{TarmSerial W} (buffer data : list Z) (s s' : Tarm.Bus W) :
  byte_reads Tarm.ReadByte s data s' -> length data = length buffer ->
  Tarm.ReadBytes buffer s = (Ok (data, Z.of_nat (length buffer) + 1, None), s').
Proof.
  intros Hreads Hlen. unfold Tarm.ReadBytes. rewrite <- Hlen.
  rewrite (tarm_ReadBytesLoop_ok data 0 buffer s s' Hreads) by (cbn; lia).
  cbn [take app Nat.add]. rewrite drop_ge by lia. by rewrite app_nil_r.
Qed.

Lemma bugst_readBytes_ok {W : Type} `{BugstSerial W} (buffer data : list Z) (s s' : Bugst.Bus W) :
  byte_reads Bugst.readByte s data s' -> length data = length buffer ->
  Bugst.readBytes buffer s = (Ok (data, Z.of_nat (length buffer), None), s').
Proof.
  intros Hreads Hlen. unfold Bugst.readBytes. rewrite <- Hlen.
  rewrite (bugst_readBytesLoop_ok data 0 buffer s s' Hreads) by (cbn; lia).
  cbn [take app Nat.add]. rewrite drop_ge by lia. by rewrite app_nil_r.
Qed.

Lemma tarm_ReadBytes_inv {W : Type} `{TarmSerial W} (buffer out : list Z) n (s s' : Tarm.Bus W) :
  Tarm.ReadBytes buffer s = (Ok (out, n, None), s') ->
  byte_reads Tarm.ReadByte s out s' /\ length out = length buffer.
Proof.
  intros Hrun. unfold Tarm.ReadBytes in Hrun.
  destruct (tarm_ReadBytesLoop_inv _ _ _ _ _ _ _ Hrun) as (data & Hreads & Hk & Hout);
    [cbn; lia|].
  cbn [take app Nat.add] in Hout. rewrite drop_ge, app_nil_r in Hout by lia.
  by subst out.
Qed.

Lemma bugst_readBytes_inv {W : Type} `{BugstSerial W} (buffer out : list Z) n (s s' : Bugst.Bus W) :
  Bugst.readBytes buffer s = (Ok (out, n, None), s') ->
  byte_reads Bugst.readByte s out s' /\ length out = length buffer.
Proof.
  intros Hrun. unfold Bugst.readBytes in Hrun.
  destruct (bugst_readBytesLoop_inv _ _ _ _ _ _ _ Hrun) as (data & Hreads & Hk & Hout);
    [cbn; lia|].
  cbn [take app Nat.add] in Hout. rewrite drop_ge, app_nil_r in Hout by lia.
  by subst out.
Qed.

(** C9.  When every byte read succeeds, both variants fill the whole buffer
    with the bytes read, in order; [ReadBytes] of bus.go then returns the
    count [len(buffer) + 1], [readBytes] of bus-driver.go the count
    [len(buffer)]. *)
Theorem C9_ReadBytes_count :
  (forall (W : Type) (H : TarmSerial W) (buffer data : list Z) (s s' : Tarm.Bus W),
      byte_reads Tarm.ReadByte s data s' -> length data = length buffer ->
      Tarm.ReadBytes buffer s
      = (Ok (data, Z.of_nat (length buffer) + 1, None), s'))
  /\ (forall (W : Type) (H : BugstSerial W) (buffer data : list Z) (s s' : Bugst.Bus W),
        byte_reads Bugst.readByte s data s' -> length data = length buffer ->
        Bugst.readBytes buffer s
        = (Ok (data, Z.of_nat (length buffer), None), s')).
Proof.
  split.
  - intros W H. apply tarm_ReadBytes_ok.
  - intros W H. apply bugst_readBytes_ok.
Qed.

Lemma two_byte_reads_tarm :
  byte_reads Tarm.ReadByte (tarm_replay_boot two_bytes) [18; 52]
    (snd (Tarm.ReadBytes [0; 0] (tarm_replay_boot two_bytes))).
Proof.
  econstructor; [vm_compute; reflexivity|].
  econstructor; [vm_compute; reflexivity|].
  vm_compute. constructor.
Defined.

Lemma two_byte_reads_bugst :
  byte_reads Bugst.readByte (bugst_replay_boot two_bytes) [18; 52]
    (snd (Bugst.readBytes [0; 0] (bugst_replay_boot two_bytes))).
Proof.
  econstructor; [vm_compute; reflexivity|].
  econstructor; [vm_compute; reflexivity|].
  vm_compute. constructor.
Defined.

Lemma C9_ReadBytes_count_witness :
  fst (Tarm.ReadBytes [0; 0] (tarm_replay_boot two_bytes)) = Ok ([18; 52], 3, None)
  /\ fst (Bugst.readBytes [0; 0] (bugst_replay_boot two_bytes)) = Ok ([18; 52], 2, None).
Proof.
  destruct C9_ReadBytes_count as [H1 H2]. split.
  - rewrite (H1 Replay _ [0; 0] [18; 52] _ _ two_byte_reads_tarm eq_refl). reflexivity.
  - rewrite (H2 Replay _ [0; 0] [18; 52] _ _ two_byte_reads_bugst eq_refl). reflexivity.
Defined.

(** ** C10: [SetResolution] on a family without resolution *)

(** C10.  For a sensor whose family code is none of 0x10, 0x22, 0x28,
    [SetResolution] returns nil for every argument and leaves the sensor and
    the bus (hence the world behind it: no transaction) as they were. *)
Theorem C10_SetResolution_other_family {W : Type} `{TarmSerial W}
    (s : Tarm.TemperatureSensor) (st : Tarm.Bus W) (r : Z) :
  Tarm.familyCode s <> 16 -> Tarm.familyCode s <> 34 -> Tarm.familyCode s <> 40 ->
  Tarm.SetResolution r (s, st) = (Ok tt, (s, st)).
Proof.
  intros H16 H34 H40. unfold Tarm.SetResolution.
  apply Z.eqb_neq in H16, H34, H40. by rewrite H16, H34, H40.
Qed.

Lemma C10_SetResolution_other_family_witness :
  Tarm.SetResolution 3 (other_sensor, tarm_boot cfg0 three)
  = (Ok tt, (other_sensor, tarm_boot cfg0 three)).
Proof.
  apply (C10_SetResolution_other_family other_sensor (tarm_boot cfg0 three) 3);
    discriminate.
Defined.

(** ** C7: the reset pulse of bus-driver.go *)

Lemma nibbles b : 0 <= b < 256 ->
  Z.land b 15 = b mod 16 /\ Z.shiftr b 4 = b / 16.
Proof.
  intros Hb. split.
  - change 15 with (Z.ones 4). by rewrite Z.land_ones by lia.
  - by rewrite Z.shiftr_div_pow2 by lia.
Qed.

Lemma bugst_pulse_echo {W : Type} `{BugstSerial W} (s : Bugst.Bus W) (b : Z) (w4 w5 : W) :
  Bugst.uart (Bugst.adapter s) = true ->
  bugst_Write [240] (Bugst.world s) = (Done 1, w4) ->
  bugst_Read 1 w4 = (Done [b], w5) ->
  Bugst.pulse s = (presence b, {| Bugst.adapter := Bugst.adapter s; Bugst.world := w5 |}).
Proof.
  intros Hu Hw Hr. unfold Bugst.pulse, bind, Bugst.on_uart.
  rewrite Hu, Hw. cbn. rewrite Hu, Hr. cbn. unfold presence, at_. cbn.
  destruct (Z.land b 15 =? 0); cbn; [|done].
  by destruct (Z.shiftr b 4 =? 15).
Qed.

(** With a port, the pulse returns nil or an error: it does not panic. *)
Lemma bugst_pulse_returns {W : Type} `{BugstSerial W} (s : Bugst.Bus W) c :
  Bugst.uart (Bugst.adapter s) = true -> fst (Bugst.pulse s) <> Abort c.
Proof.
  intros Hu. unfold Bugst.pulse, bind, Bugst.on_uart. rewrite Hu.
  destruct (bugst_Write [240] (Bugst.world s)) as [[n|e] w4]; cbn; [|done].
  destruct (negb (n =? 1)); cbn; [done|]. rewrite Hu.
  destruct (bugst_Read 1 w4) as [[data|e] w5]; cbn; [|done].
  repeat (match goal with |- context [if ?c then _ else _] => destruct c end; cbn; try done).
Qed.

Lemma bugst_pulse_adapter {W : Type} `{BugstSerial W} (s : Bugst.Bus W) :
  Bugst.adapter (snd (Bugst.pulse s)) = Bugst.adapter s.
Proof.
  unfold Bugst.pulse, bind, Bugst.on_uart.
  destruct (Bugst.uart (Bugst.adapter s)) eqn:Hu; [|done].
  destruct (bugst_Write [240] (Bugst.world s)) as [[n|e] w4]; cbn; [|done].
  destruct (negb (n =? 1)); cbn; [done|]. rewrite Hu.
  destruct (bugst_Read 1 w4) as [[data|e] w5]; cbn; [|done].
  repeat (match goal with |- context [if ?c then _ else _] => destruct c end; cbn; try done).
Qed.

(** C7.  [reset] switches the port to 9600 baud, clears the output and the
    input buffer, runs the pulse (write [0xF0], read one byte back) and
    switches the port back to 115200 baud whatever the pulse returned; its
    result is the pulse's unless the switch back fails.  For every echoed
    byte [b] the pulse fails with "reset pulse error" when the low nibble of
    [b] is not zero, with "no 1-wire device present" when the upper nibble
    is all ones, and succeeds otherwise. *)
Theorem C7_reset {W : Type} `{BugstSerial W} (s : Bugst.Bus W) (w1 w2 w3 : W) :
  let low := Bugst.with_baud (Bugst.adapter s) 9600 in
  let high := Bugst.with_baud (Bugst.adapter s) 115200 in
  let s3 := {| Bugst.adapter := low; Bugst.world := w3 |} in
  let w5 := Bugst.world (snd (Bugst.pulse s3)) in
  Bugst.uart (Bugst.adapter s) = true ->
  bugst_SetMode (Bugst.mode low) (Bugst.world s) = (Done tt, w1) ->
  bugst_ResetOutputBuffer w1 = (Done tt, w2) ->
  bugst_ResetInputBuffer w2 = (Done tt, w3) ->
  Bugst.reset s
  = (match fst (bugst_SetMode (Bugst.mode high) w5) with
     | Done _ => fst (Bugst.pulse s3)
     | Failed e => Err e
     end,
     {| Bugst.adapter := high;
        Bugst.world := snd (bugst_SetMode (Bugst.mode high) w5) |})
  /\ (forall b w4 w5',
        bugst_Write [240] w3 = (Done 1, w4) -> bugst_Read 1 w4 = (Done [b], w5') ->
        Bugst.pulse s3 = (presence b, {| Bugst.adapter := low; Bugst.world := w5' |}))
  /\ (forall b, 0 <= b < 256 ->
        (b mod 16 <> 0 -> presence b = Err (ErrFmt "reset pulse error 0x%x" [b]))
        /\ (b mod 16 = 0 -> b / 16 = 15 -> presence b = Err (ErrMsg "no 1-wire device present"))
        /\ (b mod 16 = 0 -> b / 16 <> 15 -> presence b = Ok tt)).
Proof.
  intros low high s3 w5 Hu H1 H2 H3. split_and!.
  - pose proof (bugst_pulse_returns s3) as Hret.
    pose proof (bugst_pulse_adapter s3) as Had.
    destruct s as [[dev u m] w]. cbn in Hu, H1. subst u.
    unfold Bugst.reset, Bugst.set_baud, Bugst.SetMode, Bugst.clear, bind, Bugst.on_uart.
    cbn. rewrite H1. cbn. rewrite H2. cbn. rewrite H3. cbn.
    subst w5 s3 low high. cbn in Hret, Had |- *.
    destruct (Bugst.pulse _) as [r [a5 w5]]. cbn in Hret, Had |- *.
    subst a5. cbn.
    destruct r as [[]|e|c]; [| |by exfalso; eapply (Hret c)].
    + destruct (bugst_SetMode _ w5) as [[[]|e] w6]; done.
    + destruct (bugst_SetMode _ w5) as [[[]|e'] w6]; done.
  - intros b w4 w5' Hw Hr. exact (bugst_pulse_echo s3 b w4 w5' Hu Hw Hr).
  - intros b Hb. destruct (nibbles b Hb) as [Hl Hh]. unfold presence. rewrite Hl, Hh.
    split_and!.
    + intros Hn. apply Z.eqb_neq in Hn. by rewrite Hn.
    + intros -> ->. done.
    + intros -> Hn. apply Z.eqb_neq in Hn. by rewrite Hn.
Qed.

Lemma C7_reset_witness :
  fst (Bugst.reset (bugst_boot cfg0 three)) = Ok tt
  /\ BaudRate (Bugst.mode (Bugst.adapter (snd (Bugst.reset (bugst_boot cfg0 three))))) = 115200
  /\ presence 224 = Ok tt.
Proof.
  pose (s := bugst_boot cfg0 three).
  pose (w1 := snd (bugst_SetMode (Bugst.mode (Bugst.with_baud (Bugst.adapter s) 9600))
                     (Bugst.world s))).
  pose (w2 := snd (bugst_ResetOutputBuffer w1)).
  pose (w3 := snd (bugst_ResetInputBuffer w2)).
  destruct (C7_reset s w1 w2 w3) as (Hreset & Hpulse & Hclass);
    [vm_compute; reflexivity ..|].
  destruct (Hclass 224 ltac:(lia)) as (_ & _ & Hok).
  split_and!.
  - fold s. rewrite Hreset. vm_compute. reflexivity.
  - fold s. rewrite Hreset. reflexivity.
  - apply Hok; [reflexivity | discriminate].
Defined.

(** ** C8: waiting for a conversion on external power *)

Section Wait.
Context {W : Type} `{TarmSerial W} `{Clock W}.

Lemma tarm_ReadBit_adapter (st : Tarm.Bus W) :
  Tarm.adapter (snd (Tarm.ReadBit st)) = Tarm.adapter st.
Proof.
  unfold Tarm.ReadBit, bind, Tarm.flush_ignored, Tarm.on_uart, Tarm.lib.
  destruct (Tarm.uart (Tarm.adapter st)) as [h|] eqn:Hu; [|done].
  destruct (tarm_Flush h (Tarm.world st)) as [[[]|e] w1]; cbn; rewrite Hu;
    (destruct (tarm_Write h [255] w1) as [[n|e'] w2]; cbn; [|done]; rewrite Hu;
     destruct (tarm_Read h 1 w2) as [[data|e''] w3]; cbn; [|done];
     repeat (match goal with |- context [if ?c then _ else _] => destruct c end; cbn; try done)).
Qed.

Lemma tarm_ReadBit_returns (st : Tarm.Bus W) c :
  is_Some (Tarm.uart (Tarm.adapter st)) -> fst (Tarm.ReadBit st) <> Abort c.
Proof.
  intros [h Hu].
  unfold Tarm.ReadBit, bind, Tarm.flush_ignored, Tarm.on_uart, Tarm.lib. rewrite Hu.
  destruct (tarm_Flush h (Tarm.world st)) as [[[]|e] w1]; cbn; rewrite Hu;
    (destruct (tarm_Write h [255] w1) as [[n|e'] w2]; cbn; [|done]; rewrite Hu;
     destruct (tarm_Read h 1 w2) as [[data|e''] w3]; cbn; [|done];
     repeat (match goal with |- context [if ?c then _ else _] => destruct c end; cbn; try done)).
Qed.

Hypothesis ticking : forall (st0 st1 : Tarm.Bus W) r,
  is_Some (Tarm.uart (Tarm.adapter st0)) ->
  Tarm.ReadBit st0 = (r, st1) -> clock (Tarm.world st0) < clock (Tarm.world st1).

Lemma waitLoop_polls (startedAt duration : Z) (fuel : nat) : forall (st : Tarm.Bus W),
  is_Some (Tarm.uart (Tarm.adapter st)) ->
  (Z.to_nat (duration - (clock (Tarm.world st) - startedAt)) + 1 <= fuel)%nat ->
  exists r st',
    Tarm.waitLoop fuel startedAt duration st = (r, st')
    /\ polls startedAt duration st r st'.
Proof.
  induction fuel as [|fuel IH]; intros st Hu Hfuel; [lia|].
  cbn [Tarm.waitLoop].
  pose proof (tarm_ReadBit_adapter st) as Had.
  pose proof (tarm_ReadBit_returns st) as Hret.
  pose proof (ticking st (snd (Tarm.ReadBit st)) (fst (Tarm.ReadBit st)) Hu) as Htick.
  destruct (Tarm.ReadBit st) as [[b|e|c] st1] eqn:Hb; cbn [fst snd] in *.
  - specialize (Htick eq_refl).
    destruct (Z.eqb_spec b 0) as [->|Hb0]; cbn [negb].
    + destruct (Z.ltb_spec duration (clock (Tarm.world st1) - startedAt)) as [Hlate|Hin].
      * exists (Ok tt), st1. split; [done|]. by apply polls_late.
      * destruct (IH st1) as (r & st' & Hloop & Hpolls); [by rewrite Had | lia |].
        exists r, st'. split; [done|]. by eapply polls_again.
    + exists (Ok tt), st1. split; [done|]. by eapply polls_one.
  - exists (Err e), st1. split; [done|]. by apply polls_failed.
  - exfalso. by eapply (Hret c).
Qed.

Lemma polls_result (startedAt duration : Z) (st st' : Tarm.Bus W) r :
  polls startedAt duration st r st' ->
  r = Ok tt \/ exists e st0, r = Err e /\ Tarm.ReadBit st0 = (Err e, st').
Proof.
  induction 1; eauto.
Qed.

End Wait.

(** C8.  On external power, with a port, a clock that every bit read
    advances and fuel for [duration + 1] turns, [wait] returns, and what it
    returns is the outcome of the polling: success as soon as a bit read
    yields a logical 1 or the time elapsed exceeds [duration], whichever
    comes first, and otherwise the error of the bit read that failed. *)
Theorem C8_wait {W : Type} `{TarmSerial W} `{Clock W}
    (s : Tarm.TemperatureSensor) (st : Tarm.Bus W) (duration : Z) (fuel : nat) :
  Tarm.parasiticMode s = false ->
  is_Some (Tarm.uart (Tarm.adapter st)) ->
  (forall (st0 st1 : Tarm.Bus W) r,
      is_Some (Tarm.uart (Tarm.adapter st0)) ->
      Tarm.ReadBit st0 = (r, st1) -> clock (Tarm.world st0) < clock (Tarm.world st1)) ->
  (Z.to_nat duration + 1 <= fuel)%nat ->
  exists r st',
    Tarm.wait fuel s duration st = (r, st')
    /\ polls (clock (Tarm.world st)) duration st r st'
    /\ (r = Ok tt \/ exists e st0, r = Err e /\ Tarm.ReadBit st0 = (Err e, st')).
Proof.
  intros Hp Hu Htick Hfuel. unfold Tarm.wait. rewrite Hp.
  destruct (waitLoop_polls Htick (clock (Tarm.world st)) duration fuel st Hu)
    as (r & st' & Hloop & Hpolls).
  { rewrite Z.sub_diag, Z.sub_0_r. lia. }
  exists r, st'. split_and!; [done | done | by eapply polls_result].
Qed.

(** On the scripted port every read costs one tick. *)
Lemma replay_ticking (st0 st1 : Tarm.Bus Replay) r :
  is_Some (Tarm.uart (Tarm.adapter st0)) ->
  Tarm.ReadBit st0 = (r, st1) -> clock (Tarm.world st0) < clock (Tarm.world st1).
Proof.
  intros [h Hu]. destruct st0 as [[dev u] [sc snt t]]. cbn in Hu. subst u.
  unfold Tarm.ReadBit, bind, Tarm.flush_ignored, Tarm.on_uart, Tarm.lib. cbn.
  destruct sc as [|[|e [|e' d]] sc]; cbn;
    try (destruct (e =? 255));
    unfold fail, ret; intros Heq; inversion Heq; subst; cbn; lia.
Qed.

(** Three bit reads that find the line low; the bound of one tick runs out
    at the second, and [wait] returns nil. *)
Lemma C8_wait_witness :
  fst (Tarm.wait 2 single_sensor 1 (tarm_replay_boot [[0]; [0]; [0]])) = Ok tt.
Proof.
  destruct (C8_wait single_sensor (tarm_replay_boot [[0]; [0]; [0]]) 1 2)
    as (r & st' & Hwait & Hpolls & Hr).
  - reflexivity.
  - by eexists.
  - exact replay_ticking.
  - simpl. lia.
  - rewrite Hwait. cbn. 
    assert (E : r = fst (Tarm.wait 2 single_sensor 1 (tarm_replay_boot [[0]; [0]; [0]])))
      by (by rewrite Hwait).
    rewrite E. vm_compute. reflexivity.
Defined.

(** ** C6: the scratchpad and its CRC8 *)

Example scratch_ok_crc : crc8 (take 8 scratch_ok) = at_ scratch_ok 8.
Proof. vm_compute. reflexivity. Qed.

Section Scratchpad.
Context {W : Type} `{TarmSerial W} `{Clock W}.

Lemma readScratchpad_bytes (s : Tarm.TemperatureSensor) (st st1 st2 st3 : Tarm.Bus W)
    (data : list Z) :
  Tarm.reset s st = (Ok tt, st1) -> Tarm.WriteByte 190 st1 = (Ok tt, st2) ->
  byte_reads Tarm.ReadByte st2 data st3 -> length data = 9%nat ->
  Tarm.readScratchpad s st
  = (if crc8 (take 8 data) =? at_ data 8 then Ok (take 8 data)
     else Err (ErrMsg "scratchpad crc error"), st3).
Proof.
  intros Hr Hw Hreads Hlen. unfold Tarm.readScratchpad.
  rewrite (bind_ok _ _ _ _ _ Hr), (bind_ok _ _ _ _ _ Hw).
  rewrite (bind_ok _ _ _ _ _ (tarm_ReadBytes_ok (replicate 9 0) data st2 st3 Hreads Hlen)).
  cbn beta iota. by destruct (crc8 (take 8 data) =? at_ data 8).
Qed.

Lemma readScratchpad_inv (s : Tarm.TemperatureSensor) (st st' : Tarm.Bus W) (sp : list Z) :
  Tarm.readScratchpad s st = (Ok sp, st') ->
  exists st1 st2 data,
    Tarm.reset s st = (Ok tt, st1) /\ Tarm.WriteByte 190 st1 = (Ok tt, st2)
    /\ byte_reads Tarm.ReadByte st2 data st' /\ length data = 9%nat
    /\ crc8 (take 8 data) = at_ data 8 /\ sp = take 8 data /\ length sp = 8%nat.
Proof.
  unfold Tarm.readScratchpad, bind.
  destruct (Tarm.reset s st) as [[[]|e|c] st1] eqn:Hr; [|done|done].
  destruct (Tarm.WriteByte 190 st1) as [[[]|e|c] st2] eqn:Hw; [|done|done].
  destruct (Tarm.ReadBytes (replicate 9 0) st2) as [[[[data n] [e|]]|e|c] st3] eqn:Hb;
    try done.
  destruct (tarm_ReadBytes_inv _ _ _ _ _ Hb) as [Hreads Hlen].
  destruct (Z.eqb_spec (crc8 (take 8 data)) (at_ data 8)) as [Hcrc|Hcrc]; cbn; [|done].
  intros [= <- <-]. exists st1, st2, data. split_and!; try done.
  rewrite length_take. cbn in Hlen. lia.
Qed.

End Scratchpad.

(** C6.  [readScratchpad] selects the device, sends [0xBE] and makes nine byte
    reads.  When the CRC8 of the first eight bytes is not the ninth, it
    returns the error "scratchpad crc error" and no data, and so does
    [GetTemperature]; when it is, it returns the first eight bytes.  A
    scratchpad it returns always comes from nine byte reads whose ninth byte
    is the CRC8 of the eight returned. *)
Theorem C6_readScratchpad {W : Type} `{TarmSerial W} `{Clock W}
    (s : Tarm.TemperatureSensor) (st st1 st2 st3 : Tarm.Bus W) (data : list Z) :
  Tarm.reset s st = (Ok tt, st1) ->
  Tarm.WriteByte 190 st1 = (Ok tt, st2) ->
  byte_reads Tarm.ReadByte st2 data st3 ->
  length data = 9%nat ->
  (crc8 (take 8 data) <> at_ data 8 ->
     Tarm.readScratchpad s st = (Err (ErrMsg "scratchpad crc error"), st3)
     /\ forall fuel st0,
          Tarm.convertT fuel s st0 = (Ok tt, st) ->
          Tarm.GetTemperature fuel s st0 = (Err (ErrMsg "scratchpad crc error"), st3))
  /\ (crc8 (take 8 data) = at_ data 8 ->
        Tarm.readScratchpad s st = (Ok (take 8 data), st3)
        /\ length (take 8 data) = 8%nat)
  /\ (forall sp st',
        Tarm.readScratchpad s st = (Ok sp, st') ->
        sp = take 8 data /\ st' = st3 /\ crc8 (take 8 data) = at_ data 8).
Proof.
  intros Hr Hw Hreads Hlen.
  pose proof (readScratchpad_bytes s st st1 st2 st3 data Hr Hw Hreads Hlen) as Hrun.
  split_and!.
  - intros Hcrc. apply Z.eqb_neq in Hcrc. rewrite Hcrc in Hrun. split; [done|].
    intros fuel st0 Hconv. unfold Tarm.GetTemperature.
    rewrite (bind_ok _ _ _ _ _ Hconv). by rewrite (bind_err _ _ _ _ _ Hrun).
  - intros Hcrc. apply Z.eqb_eq in Hcrc. rewrite Hcrc in Hrun. split; [done|].
    rewrite length_take. lia.
  - intros sp st' Hsp. rewrite Hrun in Hsp.
    destruct (Z.eqb_spec (crc8 (take 8 data)) (at_ data 8)); [|done].
    by injection Hsp as <- <-.
Qed.

Lemma C6_readScratchpad_witness :
  fst (Tarm.readScratchpad single_sensor (tarm_replay_boot (read_script scratch_bad)))
  = Err (ErrMsg "scratchpad crc error")
  /\ fst (Tarm.readScratchpad single_sensor (tarm_replay_boot (read_script scratch_ok)))
     = Ok (take 8 scratch_ok).
Proof.
  split.
  - pose (st := tarm_replay_boot (read_script scratch_bad)).
    pose (st1 := snd (Tarm.reset single_sensor st)).
    pose (st2 := snd (Tarm.WriteByte 190 st1)).
    pose (st3 := snd (Tarm.readScratchpad single_sensor st)).
    destruct (C6_readScratchpad single_sensor st st1 st2 st3 scratch_bad)
      as (Hbad & _ & _).
    + vm_compute. reflexivity.
    + vm_compute. reflexivity.
    + repeat (econstructor; [vm_compute; reflexivity|]). vm_compute. constructor.
    + reflexivity.
    + destruct Hbad as [Hrun _]; [by vm_compute|]. fold st. by rewrite Hrun.
  - pose (st := tarm_replay_boot (read_script scratch_ok)).
    pose (st1 := snd (Tarm.reset single_sensor st)).
    pose (st2 := snd (Tarm.WriteByte 190 st1)).
    pose (st3 := snd (Tarm.readScratchpad single_sensor st)).
    destruct (C6_readScratchpad single_sensor st st1 st2 st3 scratch_ok)
      as (_ & Hok & _).
    + vm_compute. reflexivity.
    + vm_compute. reflexivity.
    + repeat (econstructor; [vm_compute; reflexivity|]). vm_compute. constructor.
    + reflexivity.
    + destruct Hok as [Hrun _]; [by vm_compute|]. fold st. by rewrite Hrun.
Defined.

(** The end-to-end scenario of the specification on the scripted port: a
    conversion, then a scratchpad that reads 125 degrees. *)
Example GetTemperature_125 :
  fst (Tarm.GetTemperature 1 single_sensor
         (tarm_replay_boot (convert_script ++ read_script scratch_ok)))
  = Ok 12500.
Proof. vm_compute. reflexivity. Qed.

Example GetTemperature_crc_error :
  fst (Tarm.GetTemperature 1 single_sensor
         (tarm_replay_boot (convert_script ++ read_script scratch_bad)))
  = Err (ErrMsg "scratchpad crc error").
Proof. vm_compute. reflexivity. Qed.

(** ** C4: the conversion time of the DS1822 and the DS18B20 *)

Lemma land3_range x : 0 <= Z.land x 3 <= 3.
Proof.
  assert (E : Z.land x 3 = x mod 4).
  { change 3 with (Z.ones 2). by rewrite Z.land_ones by lia. }
  rewrite E. pose proof (Z.mod_pos_bound x 4). lia.
Qed.

Lemma convTime_ok r :
  0 <= r <= 3 ->
  Tarm.convTime r = Ok (Tarm.Millisecond * (750 ÷ Z.shiftr 8 r)).
Proof.
  intros Hr. assert (r = 0 \/ r = 1 \/ r = 2 \/ r = 3) as [->|[->|[->| ->]]] by lia;
    reflexivity.
Qed.

Section ConversionTime.
Context {W : Type} `{TarmSerial W} `{Clock W}.

Lemma finishSensor_tConv (s0 s : Tarm.TemperatureSensor) (st st' : Tarm.Bus W) :
  Tarm.finishSensor s0 st = (Ok s, st') ->
  Tarm.familyCode s = 34 \/ Tarm.familyCode s = 40 ->
  0 <= Tarm.resolution s <= 3
  /\ Tarm.tConv s = Tarm.Millisecond * (750 ÷ Z.shiftr 8 (Tarm.resolution s)).
Proof.
  unfold Tarm.finishSensor, bind.
  destruct (Tarm.inParasiticMode s0 st) as [[pm|e|c] st1]; [|done|done].
  cbn [Tarm.rom Tarm.mkSensor].
  destruct (Tarm.rom s0) as [r|]; [|done].
  cbn [Tarm.familyCode Tarm.resolution Tarm.singleMode Tarm.parasiticMode
       Tarm.precision Tarm.tConv Tarm.tRW Tarm.rom].
  destruct (at_ (Code r) 0 =? 16) eqn:E16.
  { apply Z.eqb_eq in E16.
    change (Tarm.BSResolution9bits =? Tarm.BSResolution9bits) with true. cbn.
    intros [= <- <-]. cbn. lia. }
  destruct ((at_ (Code r) 0 =? 34) || (at_ (Code r) 0 =? 40)) eqn:Efam.
  - destruct (Tarm.readScratchpad _ st1) as [[sp|e|c] st2]; [|done|done].
    cbn [Tarm.with_resolution Tarm.resolution].
    pose proof (land3_range (Z.shiftr (at_ sp 4) 5)) as Hrange.
    rewrite (convTime_ok _ Hrange).
    intros [= <- <-] _. cbn. done.
  - unfold ret. intros [= <- <-]. cbn. intros [E|E]; rewrite E in Efam; done.
Qed.

Lemma NewTemperatureSensor_tConv (rom : option ROM) (required : bool)
    (s : Tarm.TemperatureSensor) (st st' : Tarm.Bus W) :
  Tarm.NewTemperatureSensor rom required st = (Ok s, st') ->
  Tarm.familyCode s = 34 \/ Tarm.familyCode s = 40 ->
  0 <= Tarm.resolution s <= 3
  /\ Tarm.tConv s = Tarm.Millisecond * (750 ÷ Z.shiftr 8 (Tarm.resolution s)).
Proof.
  unfold Tarm.NewTemperatureSensor. destruct rom as [r|].
  - unfold bind. destruct (Tarm.isConnected r st) as [[online|e|c] st1]; [|done|done].
    destruct (required && negb online); [done|]. apply finishSensor_tConv.
  - destruct (Tarm.readROM st) as [[r|e|c] st1]; [| |done].
    + apply finishSensor_tConv.
    + destruct required; [done|]. apply finishSensor_tConv.
Qed.

Lemma SetResolution_tConv (r : Z) (s s' : Tarm.TemperatureSensor) (st st' : Tarm.Bus W) :
  Tarm.familyCode s = 34 \/ Tarm.familyCode s = 40 ->
  Tarm.SetResolution r (s, st) = (Ok tt, (s', st')) ->
  Tarm.resolution s' = Z.land r 3
  /\ Tarm.tConv s' = Tarm.Millisecond * (750 ÷ Z.shiftr 8 (Tarm.resolution s')).
Proof.
  intros Hfam. unfold Tarm.SetResolution.
  assert (E16 : (Tarm.familyCode s =? 16) = false) by (apply Z.eqb_neq; lia).
  assert (Efam : (Tarm.familyCode s =? 34) || (Tarm.familyCode s =? 40) = true).
  { destruct Hfam as [-> | ->]; reflexivity. }
  rewrite E16, Efam.
  destruct (Tarm.readScratchpad s st) as [[sp|e|c] st1]; [|done|done].
  destruct (Tarm.writeScratchpad _ _ st1) as [[[]|e|c] st2]; [|done|done].
  cbn [Tarm.with_resolution Tarm.resolution].
  rewrite (convTime_ok _ (land3_range r)).
  intros [= <- <-]. cbn. done.
Qed.

End ConversionTime.

(** C4 (amended).  For the families 0x22 and 0x28, a sensor that
    [NewTemperatureSensor] returns and the sensor after a [SetResolution]
    that returns nil store the conversion time [750 ms / (8 >> resolution)]
    with the two-bit resolution code and Go's integer division: code 0
    (9 bits) gives 93 ms, code 1 gives 187 ms, code 2 gives 375 ms and code 3
    (12 bits) gives 750 ms; the higher code waits longer. *)
Theorem C4_conversion_time :
  (forall (W : Type) (H : TarmSerial W) (C : Clock W) (rom : option ROM)
          (required : bool) (s : Tarm.TemperatureSensor) (st st' : Tarm.Bus W),
      Tarm.NewTemperatureSensor rom required st = (Ok s, st') ->
      Tarm.familyCode s = 34 \/ Tarm.familyCode s = 40 ->
      0 <= Tarm.resolution s <= 3
      /\ Tarm.tConv s = Tarm.Millisecond * (750 ÷ Z.shiftr 8 (Tarm.resolution s)))
  /\ (forall (W : Type) (H : TarmSerial W) (C : Clock W) (r : Z)
             (s s' : Tarm.TemperatureSensor) (st st' : Tarm.Bus W),
        Tarm.familyCode s = 34 \/ Tarm.familyCode s = 40 ->
        Tarm.SetResolution r (s, st) = (Ok tt, (s', st')) ->
        Tarm.resolution s' = Z.land r 3
        /\ Tarm.tConv s' = Tarm.Millisecond * (750 ÷ Z.shiftr 8 (Tarm.resolution s')))
  /\ Tarm.Millisecond * (750 ÷ Z.shiftr 8 Tarm.BS18B20Resolution9bits)
     = 93 * Tarm.Millisecond
  /\ Tarm.Millisecond * (750 ÷ Z.shiftr 8 Tarm.BS18B20Resolution10bits)
     = 187 * Tarm.Millisecond
  /\ Tarm.Millisecond * (750 ÷ Z.shiftr 8 Tarm.BS18B20Resolution11bits)
     = 375 * Tarm.Millisecond
  /\ Tarm.Millisecond * (750 ÷ Z.shiftr 8 Tarm.BS18B20Resolution12bits)
     = 750 * Tarm.Millisecond.
Proof.
  split_and!; try reflexivity.
  - intros W H C. apply NewTemperatureSensor_tConv.
  - intros W H C. apply SetResolution_tConv.
Qed.

(** C4, as stated, fails: after [SetResolution] with the 9-bit code the
    stored conversion time is 93 ms, not 750 ms, and after the 12-bit code
    it is 750 ms, not 93.75 ms. *)
Lemma C4_inverted_counterexample :
  after_SetResolution Tarm.BS18B20Resolution9bits
  = (Ok tt, Tarm.with_precision
              (Tarm.with_tConv (Tarm.with_resolution single_sensor 0) 93000000)
              "9 bits")
  /\ 93000000 <> 750 * Tarm.Millisecond
  /\ Tarm.tConv (snd (after_SetResolution Tarm.BS18B20Resolution12bits)) = 750000000
  /\ 750000000 <> 93750000.
Proof. split_and!; [vm_compute; reflexivity | done | vm_compute; reflexivity | done]. Qed.

Lemma C4_conversion_time_witness :
  (exists s, fst (Tarm.NewTemperatureSensor None true
                    (tarm_replay_boot (new_sensor_script (Code rom_b) scratch_ok)))
             = Ok s
             /\ Tarm.resolution s = 3 /\ Tarm.tConv s = 750 * Tarm.Millisecond)
  /\ Tarm.tConv (snd (after_SetResolution 1)) = 187 * Tarm.Millisecond.
Proof.
  destruct C4_conversion_time as (Hnew & Hset & _).
  split.
  - pose (run := Tarm.NewTemperatureSensor None true
                   (tarm_replay_boot (new_sensor_script (Code rom_b) scratch_ok))).
    assert (Hrun : exists s st', run = (Ok s, st') /\ Tarm.familyCode s = 40
                                 /\ Tarm.resolution s = 3).
    { eexists _, _. split_and!; [vm_compute; reflexivity | reflexivity | reflexivity]. }
    destruct Hrun as (s & st' & Hrun & Hfam & Hres).
    destruct (Hnew Replay _ _ None true s _ st' Hrun (or_intror Hfam)) as [_ Ht].
    exists s. fold run. rewrite Hrun. split_and!; [done | done |].
    rewrite Ht, Hres. reflexivity.
  - pose (run := Tarm.SetResolution 1
                   (single_sensor, tarm_replay_boot (resolution_script 1))).
    assert (Hrun : exists s' st', run = (Ok tt, (s', st'))
                                  /\ snd (after_SetResolution 1) = s').
    { eexists _, _. split; vm_compute; reflexivity. }
    destruct Hrun as (s' & st' & Hrun & Hs').
    destruct (Hset Replay _ _ 1 single_sensor s' _ st' (or_intror eq_refl) Hrun) as [Hres Ht].
    rewrite Hs', Ht, Hres. reflexivity.
Defined.

(** When the write of the new configuration fails (here the echo of the
    configuration byte differs), [SetResolution] returns the error with the
    resolution already updated and the conversion time not yet. *)
Example SetResolution_write_fails :
  let '(res, (s', _)) :=
    Tarm.SetResolution 1 (single_sensor, tarm_replay_boot (resolution_script 0)) in
  res = Err (ErrMsg "WriteByte: noize detected")
  /\ Tarm.resolution s' = 1 /\ Tarm.tConv s' = 750 * Tarm.Millisecond.
Proof. vm_compute. done. Qed.

(** * Part III: further properties of the code *)

(** ** rom.go: bits and bytes *)

Lemma crc8_bit_range crc b : 0 <= crc < 256 -> 0 <= fst (crc8_bit (crc, b)) < 256.
Proof.
  intros Hc. unfold crc8_bit. cbn [fst].
  assert (Hs : 0 <= Z.shiftr crc 1 < 128).
  { rewrite Z.shiftr_div_pow2 by lia. change (2 ^ 1) with 2.
    split; [apply Z.div_pos; lia | apply Z.div_lt_upper_bound; lia]. }
  destruct (0 <? Z.land (Z.lxor crc b) 1); [|lia].
  split.
  - apply Z.lxor_nonneg. lia.
  - assert (Hlt : Z.lxor (Z.shiftr crc 1) 140 < 2 ^ 8); [|done].
    destruct (Z.eq_dec (Z.lxor (Z.shiftr crc 1) 140) 0) as [E|E]; [rewrite E; done|].
    apply Z.log2_lt_pow2; [pose proof (proj2 (Z.lxor_nonneg (Z.shiftr crc 1) 140)); lia|].
    eapply Z.le_lt_trans; [apply Z.log2_lxor; lia|].
    apply Z.max_lub_lt.
    + destruct (Z.eq_dec (Z.shiftr crc 1) 0) as [E0|E0]; [rewrite E0; done|].
      apply Z.log2_lt_pow2; lia.
    + done.
Qed.

Lemma crc8_byte_range crc b : 0 <= crc < 256 -> 0 <= crc8_byte crc b < 256.
Proof.
  intros Hc. unfold crc8_byte.
  assert (Hiter : forall n st, 0 <= fst st < 256 -> 0 <= fst (Nat.iter n crc8_bit st) < 256).
  { induction n as [|n IH]; intros st Hst; [done|].
    change (Nat.iter (S n) crc8_bit st) with (crc8_bit (Nat.iter n crc8_bit st)).
    specialize (IH st Hst). destruct (Nat.iter n crc8_bit st) as [c' b'].
    by apply crc8_bit_range. }
  by apply Hiter.
Qed.

Lemma crc8_range data : 0 <= crc8 data < 256.
Proof.
  unfold crc8.
  assert (Hfold : forall l c, 0 <= c < 256 -> 0 <= fold_left crc8_byte l c < 256).
  { induction l as [|b l IH]; intros c Hc; [done|]. cbn. apply IH.
    by apply crc8_byte_range. }
  apply Hfold. lia.
Qed.

Lemma crc8_byte_zero_all :
  forallb (fun c => forallb (fun b => Bool.eqb (crc8_byte c b =? 0) (b =? c)) (seqZ 0 256))
    (seqZ 0 256) = true.
Proof. vm_compute. reflexivity. Qed.

Lemma crc8_byte_zero c b :
  0 <= c < 256 -> 0 <= b < 256 -> (crc8_byte c b = 0 <-> b = c).
Proof.
  intros Hc Hb. pose proof crc8_byte_zero_all as Hall.
  rewrite forallb_forall in Hall.
  specialize (Hall c ltac:(apply list_elem_of_In, elem_of_seqZ; lia)).
  rewrite forallb_forall in Hall.
  specialize (Hall b ltac:(apply list_elem_of_In, elem_of_seqZ; lia)).
  destruct (Z.eqb_spec (crc8_byte c b) 0), (Z.eqb_spec b c); done.
Qed.

Lemma crc8_snoc data b : crc8 (data ++ [b]) = crc8_byte (crc8 data) b.
Proof. unfold crc8. by rewrite fold_left_app. Qed.

Lemma IsValid_residue r : wf_rom r = true -> (IsValid r = true <-> crc8 (Code r) = 0).
Proof.
  intros [Hlen Hb]%wf_rom_spec. destruct r as [code]. cbn in Hlen, Hb.
  do 9 (destruct code as [|? code]; try done).
  unfold IsValid. cbn [Code take lookup list_lookup default].
  assert (E : crc8 [z; z0; z1; z2; z3; z4; z5; z6]
              = crc8_byte (crc8 [z; z0; z1; z2; z3; z4; z5]) z6)
    by apply (crc8_snoc [z; z0; z1; z2; z3; z4; z5] z6).
  rewrite E.
  assert (H6 : 0 <= z6 < 256).
  { rewrite Forall_lookup in Hb. by apply (Hb 7%nat). }
  rewrite (crc8_byte_zero _ z6 (crc8_range _) H6).
  unfold id. rewrite Z.eqb_eq. split; congruence.
Qed.

(** X1.  [crc8] always yields a byte; a buffer followed by its own CRC8 has
    CRC8 zero; and for a ROM of eight bytes [IsValid] holds exactly when the
    CRC8 of all eight bytes is zero. *)
Theorem X1_crc8_residue :
  (forall data, 0 <= crc8 data < 256)
  /\ (forall data, crc8 (data ++ [crc8 data]) = 0)
  /\ (forall r, wf_rom r = true -> (IsValid r = true <-> crc8 (Code r) = 0)).
Proof.
  split_and!.
  - apply crc8_range.
  - intros data. rewrite crc8_snoc.
    by apply crc8_byte_zero; [apply crc8_range | apply crc8_range |].
  - apply IsValid_residue.
Qed.

Lemma X1_crc8_residue_witness : IsValid rom_a = true <-> crc8 (Code rom_a) = 0.
Proof.
  destruct X1_crc8_residue as (_ & _ & H). apply H. vm_compute. reflexivity.
Defined.












(** ** rom.go: the text of a ROM *)

Lemma is_upper_hex_cases c :
  is_upper_hex c = true ->
  In c ["0"; "1"; "2"; "3"; "4"; "5"; "6"; "7"; "8"; "9"; "A"; "B"; "C"; "D"; "E"; "F"]%char.
Proof.
  unfold is_upper_hex. rewrite existsb_exists. intros (x & Hx & He).
  apply Ascii.eqb_eq in He. by subst.
Qed.

Lemma parse_pair a b :
  is_upper_hex a = true -> is_upper_hex b = true ->
  exists v, ParseInt16 (String a (String b EmptyString)) = Ok v
            /\ 0 <= v < 256 /\ hex2 v = String a (String b EmptyString).
Proof.
  intros Ha%is_upper_hex_cases Hb%is_upper_hex_cases.
  cbn [In] in Ha, Hb.
  repeat (destruct Ha as [<-|Ha]; [|]); try done;
    repeat (destruct Hb as [<-|Hb]; [|]); try done;
    eexists; (split_and!; [vm_compute; reflexivity | done | done | vm_compute; reflexivity]).
Qed.

Lemma romFromStringLoop_wf (n : nat) : forall i code acc c,
  romFromStringLoop n i code acc = Ok c ->
  length acc = 8%nat -> Forall (fun b => 0 <= b < 256) acc ->
  length c = 8%nat /\ Forall (fun b => 0 <= b < 256) c.
Proof.
  induction n as [|n IH]; intros i code acc c Hrun Hlen Hb; cbn [romFromStringLoop] in Hrun.
  - by injection Hrun as <-.
  - destruct (ParseInt16 _) as [v|e|a]; [|done|done].
    eapply IH; [exact Hrun | by rewrite length_insert |].
    apply Forall_insert; [done|]. unfold byte_of. apply Z.mod_pos_bound. lia.
Qed.

(** X3.  [NewROMFromString] rejects every text whose length is not 16 with
    "wrong rom code length"; a ROM it returns has eight bytes; and a text of
    16 upper-case hex digits parses into the ROM whose [String] is that
    text. *)
Theorem X3_rom_text :
  (forall code, String.length code <> 16%nat ->
     NewROMFromString code = Err (ErrMsg "wrong rom code length"))
  /\ (forall code r, NewROMFromString code = Ok r ->
        String.length code = 16%nat /\ wf_rom r = true)
  /\ (forall code, String.length code = 16%nat -> all_upper_hex code = true ->
        exists r, NewROMFromString code = Ok r /\ ROM_String r = code).
Proof.
  split_and!.
  - intros code Hlen. unfold NewROMFromString.
    apply Nat.eqb_neq in Hlen. by rewrite Hlen.
  - intros code r. unfold NewROMFromString.
    destruct (Nat.eqb_spec (String.length code) 16) as [Hlen|Hlen]; [|done]. cbn [negb].
    destruct (romFromStringLoop 8 0 code (replicate 8 0)) as [c|e|a] eqn:Hrun; [|done|done].
    intros [= <-]. split; [done|]. apply wf_rom_spec. cbn [Code].
    eapply romFromStringLoop_wf; [exact Hrun | done | by repeat constructor].
  - intros code Hlen Hhex.
    do 17 (destruct code as [|? code]; try done).
    cbn [all_upper_hex] in Hhex.
    repeat match goal with
           | H : _ && _ = true |- _ => apply andb_true_iff in H as [? H]
           end.
    unfold NewROMFromString. cbn [String.length Nat.eqb negb].
    cbn [romFromStringLoop Nat.mul substring Nat.add].
    repeat match goal with
           | |- context [ParseInt16 (String ?a (String ?b EmptyString))] =>
               let v := fresh "v" in
               let Hp := fresh "Hp" in
               let Hv := fresh "Hv" in
               let Ht := fresh "Ht" in
               destruct (parse_pair a b) as (v & Hp & Hv & Ht); [done | done |];
               rewrite Hp; cbn [romFromStringLoop Nat.mul substring Nat.add]
           end.
    eexists. split; [reflexivity|].
    match goal with
    | |- ROM_String {| Code := ?c |} = _ =>
        change (ROM_String {| Code := c |}) with (hexText c)
    end.
    unfold byte_of. rewrite !Z.mod_small by lia.
    cbn [hexText replicate insert list_insert].
    repeat match goal with
           | H : hex2 ?v = _ |- _ => unfold hex2 in H; injection H as -> ->
           end.
    reflexivity.
Qed.

Lemma X3_rom_text_witness :
  NewROMFromString "10A75" = Err (ErrMsg "wrong rom code length")
  /\ wf_rom test_rom = true
  /\ exists r, NewROMFromString "10A75CA80208001A" = Ok r
               /\ ROM_String r = "10A75CA80208001A"%string.
Proof.
  destruct X3_rom_text as (H1 & H2 & H3). split_and!.
  - apply H1. vm_compute. discriminate.
  - apply (H2 "2825EA520510F3CE"%string test_rom). vm_compute. reflexivity.
  - apply H3; vm_compute; reflexivity.
Defined.

(** ** bus.go, bus-driver.go: bytes as eight slots *)

Lemma packBits_byte_all (a b c d e f g h : bool) :
  let slot (x : bool) := if x then 255 else 0 in
  let rd := [slot a; slot b; slot c; slot d; slot e; slot f; slot g; slot h] in
  0 <= packBits 0 rd 0 < 256
  /\ map (Z.testbit (packBits 0 rd 0)) [0; 1; 2; 3; 4; 5; 6; 7] = [a; b; c; d; e; f; g; h].
Proof. destruct a, b, c, d, e, f, g, h; vm_compute; split; done. Qed.

Lemma packBits_slots rd : forall n data,
  packBits n (map (fun x => if x =? 255 then 255 else 0) rd) data = packBits n rd data.
Proof.
  induction rd as [|x rd IH]; intros n data; [done|]. cbn [map packBits]. rewrite IH.
  by destruct (x =? 255).
Qed.

Lemma packBits_spec rd :
  length rd = 8%nat ->
  0 <= packBits 0 rd 0 < 256
  /\ forall n x, rd !! n = Some x -> Z.testbit (packBits 0 rd 0) (Z.of_nat n) = (x =? 255).
Proof.
  intros Hlen. do 9 (destruct rd as [|? rd]; try done).
  rewrite <- packBits_slots. cbn [map].
  destruct (packBits_byte_all (z =? 255) (z0 =? 255) (z1 =? 255) (z2 =? 255)
              (z3 =? 255) (z4 =? 255) (z5 =? 255) (z6 =? 255)) as [Hr Hb].
  cbn zeta in Hr, Hb. split; [exact Hr|].
  injection Hb as H0 H1 H2 H3 H4 H5 H6 H7.
  intros n x Hn.
  do 8 (destruct n as [|n]; [injection Hn as <-; assumption|]). done.
Qed.

Lemma echo_all :
  forallb (fun b =>
             (packBits 0 (echo b) 0 =? b)
             && forallb (fun n => at_ (echo b) n =? (if Z.testbit b (Z.of_nat n) then 255 else 0))
                  (seq 0 8)
             && (length (echo b) =? 8)%nat)
    (seqZ 0 256) = true.
Proof. vm_compute. reflexivity. Qed.

Lemma echo_spec b :
  0 <= b < 256 ->
  length (echo b) = 8%nat
  /\ packBits 0 (echo b) 0 = b
  /\ forall n, (n < 8)%nat -> echo b !! n = Some (if Z.testbit b (Z.of_nat n) then 255 else 0).
Proof.
  intros Hb. pose proof echo_all as Hall. rewrite forallb_forall in Hall.
  specialize (Hall b ltac:(apply list_elem_of_In, elem_of_seqZ; lia)).
  apply andb_true_iff in Hall as [[Hp%Z.eqb_eq Hbits]%andb_true_iff Hlen%Nat.eqb_eq].
  split_and!; [done | done |].
  intros n Hn. rewrite forallb_forall in Hbits.
  specialize (Hbits n ltac:(apply in_seq; lia)). apply Z.eqb_eq in Hbits.
  unfold at_ in Hbits. destruct (echo b !! n) as [x|] eqn:E; [by cbn in Hbits; subst|].
  apply lookup_ge_None in E. lia.
Qed.

Section ReadByte.
Context {W : Type} `{TarmSerial W}.

Lemma tarm_ReadByte_run (st : Tarm.Bus W) h n rd w2 w3 :
  Tarm.uart (Tarm.adapter st) = Some h ->
  tarm_Write h (replicate 8 255) (snd (tarm_Flush h (Tarm.world st))) = (Done n, w2) ->
  tarm_Read h 8 w2 = (Done rd, w3) ->
  Tarm.ReadByte st
  = (if (length rd =? 8)%nat then Ok (packBits 0 rd 0)
     else Err (ErrFmt "bits expected: 8, got: %d" [Z.of_nat (length rd)]),
     tarm_on st w3).
Proof.
  intros Hu Hw Hr. destruct st as [[dev u] w]. cbn in Hu, Hw. subst u.
  unfold Tarm.ReadByte, bind, Tarm.flush_ignored, Tarm.on_uart, Tarm.lib. cbn.
  destruct (tarm_Flush h w) as [[[]|e] w1]; cbn in Hw |- *; rewrite Hw; cbn; rewrite Hr; cbn;
    (destruct (Nat.eqb_spec (length rd) 8) as [E|E]; cbn; [|done];
     unfold tarm_on, ret; cbn; do 2 f_equal;
     unfold fill_buffer; rewrite E, Nat.sub_diag, app_nil_r; by rewrite take_ge by lia).
Qed.

End ReadByte.

(** X4.  [ReadByte] of bus.go packs the eight bytes the port delivers into
    one byte, least-significant bit first: bit [n] of the result is set
    exactly when slot [n] read [0xFF]; a read of another length is the
    error "bits expected: 8, got: n".  The eight slots [WriteByte] sends for
    a byte decode back to that byte. *)
Theorem X4_ReadByte_decodes {W : Type} `{TarmSerial W}
    (st : Tarm.Bus W) (h : handle) (n : Z) (rd : list Z) (w2 w3 : W) :
  Tarm.uart (Tarm.adapter st) = Some h ->
  tarm_Write h (replicate 8 255) (snd (tarm_Flush h (Tarm.world st))) = (Done n, w2) ->
  tarm_Read h 8 w2 = (Done rd, w3) ->
  (length rd <> 8%nat ->
     Tarm.ReadByte st
     = (Err (ErrFmt "bits expected: 8, got: %d" [Z.of_nat (length rd)]), tarm_on st w3))
  /\ (length rd = 8%nat ->
        Tarm.ReadByte st = (Ok (packBits 0 rd 0), tarm_on st w3)
        /\ 0 <= packBits 0 rd 0 < 256
        /\ (forall k x, rd !! k = Some x ->
              Z.testbit (packBits 0 rd 0) (Z.of_nat k) = (x =? 255)))
  /\ (forall b, 0 <= b < 256 -> rd = unpackBits 8 0 b (replicate 8 0) ->
        Tarm.ReadByte st = (Ok b, tarm_on st w3)).
Proof.
  intros Hu Hw Hr. pose proof (tarm_ReadByte_run st h n rd w2 w3 Hu Hw Hr) as Hrun.
  split_and!.
  - intros Hlen. apply Nat.eqb_neq in Hlen. by rewrite Hlen in Hrun.
  - intros Hlen. destruct (packBits_spec rd Hlen) as [Hrange Hbits].
    apply Nat.eqb_eq in Hlen. by rewrite Hlen in Hrun.
  - intros b Hb ->. destruct (echo_spec b Hb) as (Hlen & Hpack & _).
    fold (echo b) in Hrun. rewrite Hlen, Hpack in Hrun. exact Hrun.
Qed.

Lemma X4_ReadByte_decodes_witness :
  Tarm.ReadByte (tarm_replay_boot [echo 165])
  = (Ok 165, tarm_on (tarm_replay_boot [echo 165])
               (snd (replay_read (snd (replay_write (replicate 8 255)
                                         (Tarm.world (tarm_replay_boot [echo 165]))))))).
Proof.
  pose (st := tarm_replay_boot [echo 165]).
  destruct (X4_ReadByte_decodes st 0%nat 8 (echo 165)
              (snd (replay_write (replicate 8 255) (Tarm.world st)))
              (snd (replay_read (snd (replay_write (replicate 8 255) (Tarm.world st))))))
    as (_ & _ & Hb); [reflexivity ..|].
  apply (Hb 165); [lia | reflexivity].
Defined.

(** ** bus-driver.go: the echo check of [writeByte] *)

Lemma firstNoise_spec (bits buffer : list Z) : forall n,
  (firstNoise n bits buffer = None
   /\ forall i x, bits !! i = Some x -> at_ buffer (n + i) = x)
  \/ exists i e,
       bits !! i = Some e /\ at_ buffer (n + i) <> e
       /\ (forall j x, (j < i)%nat -> bits !! j = Some x -> at_ buffer (n + j) = x)
       /\ firstNoise n bits buffer = Some ((n + i)%nat, at_ buffer (n + i), e).
Proof.
  induction bits as [|bit rest IH]; intros n.
  - left. split; [done|]. intros i x Hx. by rewrite lookup_nil in Hx.
  - cbn [firstNoise]. destruct (Z.eqb_spec (at_ buffer n) bit) as [E|E]; cbn [negb].
    + destruct (IH (S n)) as [[Hnone Hall] | (i & e & Hi & Hne & Hbefore & Hsome)].
      * left. split; [done|]. intros [|i] x Hx.
        -- injection Hx as <-. by rewrite Nat.add_0_r.
        -- cbn in Hx. rewrite <- (Hall i x Hx). f_equal. lia.
      * right. exists (S i), e.
        replace (n + S i)%nat with (S n + i)%nat by lia.
        split_and!; [done | done | | done].
        intros [|j] x Hj Hx.
        -- injection Hx as <-. by rewrite Nat.add_0_r.
        -- cbn in Hx. rewrite <- (Hbefore j x ltac:(lia) Hx). f_equal. lia.
    + right. exists 0%nat, bit. rewrite Nat.add_0_r.
      split_and!; [done | done | intros; lia | done].
Qed.

Lemma fill_buffer_full (len : nat) (rd : list Z) :
  length rd = len -> fill_buffer len rd = rd.
Proof.
  intros <-. unfold fill_buffer. rewrite Nat.sub_diag, app_nil_r. by rewrite take_ge by lia.
Qed.

Lemma at_lookup (l : list Z) (i : nat) (x : Z) : l !! i = Some x -> at_ l i = x.
Proof. unfold at_. by intros ->. Qed.

Lemma unpackBits_length bits data : forall k n,
  length (unpackBits k n data bits) = length bits.
Proof.
  intros k. revert bits. induction k as [|k IH]; intros bits n; [done|].
  cbn [unpackBits]. rewrite IH. destruct (negb _); [by rewrite length_insert | done].
Qed.

Lemma echo_length (data : Z) : length (echo data) = 8%nat.
Proof. unfold echo. by rewrite unpackBits_length. Qed.

Section WriteByte.
Context {W : Type} `{BugstSerial W}.

Lemma bugst_clear_ignored_on (st : Bugst.Bus W) :
  Bugst.uart (Bugst.adapter st) = true ->
  Bugst.clear_ignored st
  = (Ok tt, bugst_on st (Bugst.world (snd (Bugst.clear_ignored st)))).
Proof.
  intros Hu. destruct st as [[dev u m] w]. cbn in Hu. subst u.
  unfold Bugst.clear_ignored, Bugst.clear, bind, Bugst.on_uart, bugst_on. cbn.
  destruct (bugst_ResetOutputBuffer w) as [[[]|e] w1]; cbn; [|done].
  by destruct (bugst_ResetInputBuffer w1) as [[[]|e] w2].
Qed.

Lemma bugst_writeByte_run (st : Bugst.Bus W) data n rd w2 w3 :
  Bugst.uart (Bugst.adapter st) = true ->
  bugst_Write (echo data) (Bugst.world (snd (Bugst.clear_ignored st))) = (Done n, w2) ->
  bugst_Read 8 w2 = (Done rd, w3) ->
  Bugst.writeByte data st
  = (if negb (length rd =? 8)%nat then Err (ErrMsg "WriteByte: cannot read back")
     else match firstNoise 0 (echo data) (fill_buffer 8 rd) with
          | Some (_, got, expected) =>
              Err (ErrFmt "WriteByte: noize detected(got: 0x%02x, expected: 0x%02x)"
                     [got; expected])
          | None => Ok tt
          end,
     bugst_on st w3).
Proof.
  intros Hu Hw Hr. unfold Bugst.writeByte. fold (echo data). unfold bind at 1.
  rewrite (bugst_clear_ignored_on st Hu).
  revert Hw. generalize (Bugst.world (snd (Bugst.clear_ignored st))). intros w1 Hw.
  destruct st as [[dev u m] w]. cbn in Hu. subst u.
  unfold bind, Bugst.on_uart, bugst_on. cbn -[echo firstNoise fill_buffer].
  rewrite Hw. cbn -[echo firstNoise fill_buffer].
  rewrite Hr. cbn -[echo firstNoise fill_buffer].
  destruct (length rd =? 8)%nat; cbn -[echo firstNoise fill_buffer]; [|done].
  by destruct (firstNoise 0 (echo data) (fill_buffer 8 rd)) as [[[k g] e]|].
Qed.

End WriteByte.

(** X5.  [writeByte] of bus-driver.go sends the byte as eight slots, least
    significant bit first ([0xFF] for a 1, [0x00] for a 0), and compares the
    eight bytes read back with them: it succeeds exactly when the echo is
    what was sent; otherwise it reports the first slot that differs, with the
    byte read and the byte sent; an echo of another length is "cannot read
    back". *)
Theorem X5_writeByte_echo {W : Type} `{BugstSerial W}
    (st : Bugst.Bus W) (data n : Z) (rd : list Z) (w2 w3 : W) :
  let bits := unpackBits 8 0 data (replicate 8 0) in
  Bugst.uart (Bugst.adapter st) = true ->
  0 <= data < 256 ->
  bugst_Write bits (Bugst.world (snd (Bugst.clear_ignored st))) = (Done n, w2) ->
  bugst_Read 8 w2 = (Done rd, w3) ->
  (forall k, (k < 8)%nat ->
     bits !! k = Some (if Z.testbit data (Z.of_nat k) then 255 else 0))
  /\ (length rd <> 8%nat ->
        Bugst.writeByte data st
        = (Err (ErrMsg "WriteByte: cannot read back"), bugst_on st w3))
  /\ (Bugst.writeByte data st = (Ok tt, bugst_on st w3) <-> rd = bits)
  /\ (length rd = 8%nat -> rd <> bits ->
        exists k got expected,
          rd !! k = Some got /\ bits !! k = Some expected /\ got <> expected
          /\ take k rd = take k bits
          /\ Bugst.writeByte data st
             = (Err (ErrFmt "WriteByte: noize detected(got: 0x%02x, expected: 0x%02x)"
                       [got; expected]),
                bugst_on st w3)).
Proof.
  intros bits Hu Hdata Hw Hr. subst bits. fold (echo data) in *.
  pose proof (bugst_writeByte_run st data n rd w2 w3 Hu Hw Hr) as Hrun.
  pose proof (echo_length data) as Hlen.
  assert (Hcases :
    length rd = 8%nat ->
    (rd = echo data /\ firstNoise 0 (echo data) rd = None)
    \/ exists k got expected,
         rd !! k = Some got /\ echo data !! k = Some expected /\ got <> expected
         /\ take k rd = take k (echo data)
         /\ firstNoise 0 (echo data) rd = Some (k, got, expected)).
  { intros Hrd.
    destruct (firstNoise_spec (echo data) rd 0) as [[Hnone Hall] | (i & e & Hi & Hne & Hbefore & Hsome)].
    - left. split; [|done]. apply list_eq_same_length with 8%nat; [done | done |].
      intros i x y Hlt Hx Hy. rewrite <- (Hall i y Hy). cbn. symmetry. by apply at_lookup.
    - right. cbn [Nat.add] in *. 
      assert (i < 8)%nat as Hlt by (apply lookup_lt_Some in Hi; lia).
      destruct (lookup_lt_is_Some_2 rd i ltac:(lia)) as [g Hg].
      rewrite (at_lookup _ _ _ Hg) in Hne, Hsome.
      exists i, g, e. split_and!; [done | done | done | | done].
      apply list_eq. intros j. rewrite !lookup_take. 
      destruct (decide (j < i)%nat) as [Hj|Hj]; [|done].
      destruct (lookup_lt_is_Some_2 (echo data) j ltac:(lia)) as [x Hx].
      destruct (lookup_lt_is_Some_2 rd j ltac:(lia)) as [y Hy].
      rewrite Hx, Hy. f_equal. rewrite <- (Hbefore j x Hj Hx). symmetry. by apply at_lookup. }
  split_and!.
  - intros k Hk. by apply echo_spec.
  - intros Hne. apply Nat.eqb_neq in Hne. by rewrite Hne in Hrun.
  - split.
    + intros Hok. rewrite Hok in Hrun.
      destruct (Nat.eqb_spec (length rd) 8) as [E|E]; cbn [negb] in Hrun; [|done].
      rewrite (fill_buffer_full 8 rd E) in Hrun.
      destruct (Hcases E) as [[-> _] | (k & g & e & _ & _ & _ & _ & Hsome)]; [done|].
      rewrite Hsome in Hrun. done.
    + intros ->. rewrite Hlen in Hrun. cbn [Nat.eqb negb] in Hrun.
      rewrite (fill_buffer_full 8 _ Hlen) in Hrun.
      destruct (Hcases Hlen) as [[_ Hnone] | (k & g & e & Hg & He & Hne & _)].
      * by rewrite Hnone in Hrun.
      * congruence.
  - intros Hrd Hne. destruct (Hcases Hrd) as [[-> _] | (k & g & e & Hg & He & Hge & Htake & Hsome)];
      [done|].
    exists k, g, e. split_and!; try done.
    apply Nat.eqb_eq in Hrd as Hrd'. rewrite Hrd' in Hrun. cbn [negb] in Hrun.
    rewrite (fill_buffer_full 8 rd Hrd), Hsome in Hrun. exact Hrun.
Qed.

Lemma X5_writeByte_echo_witness :
  fst (Bugst.writeByte 165 (bugst_replay_boot [echo 165])) = Ok tt.
Proof.
  pose (st := bugst_replay_boot [echo 165]).
  destruct (X5_writeByte_echo st 165 8 (echo 165)
              (snd (replay_write (echo 165) (Bugst.world st)))
              (snd (replay_read (snd (replay_write (echo 165) (Bugst.world st))))))
    as (_ & _ & [_ Hok] & _); [reflexivity | lia | reflexivity | reflexivity |].
  fold st. rewrite (Hok eq_refl). reflexivity.
Defined.

(** ** bus.go: [ReadBytes] and [WriteBytes] when a byte fails *)

Lemma tarm_ReadBytesLoop_fails {W : Type} `{TarmSerial W} (data : list Z) :
  forall (i : nat) (buffer : list Z) (s s1 s' : Tarm.Bus W) (e : error) (k : nat),
    byte_reads Tarm.ReadByte s data s1 ->
    Tarm.ReadByte s1 = (Err e, s') ->
    (i + length data < length buffer)%nat ->
    Tarm.ReadBytesLoop (length data + S k) i buffer s
    = (Ok (take i buffer ++ data ++ 0 :: drop (S (i + length data)) buffer,
           Z.of_nat (i + length data), Some e), s').
Proof.
  induction data as [|b data IH]; intros i buffer s s1 s' e k Hreads Hfail Hlen.
  - inversion Hreads; subst. cbn [length Nat.add Tarm.ReadBytesLoop app]. rewrite Hfail.
    rewrite Nat.add_0_r. do 3 f_equal.
    rewrite insert_take_drop by (cbn in Hlen; lia). done.
  - inversion Hreads as [|? ? s2 ? ? Hb Hrest]; subst.
    cbn [length Nat.add Tarm.ReadBytesLoop]. rewrite Hb. cbn [length] in Hlen.
    rewrite (IH (S i) (<[i := b]> buffer) s2 s1 s' e k Hrest Hfail)
      by (rewrite length_insert; lia).
    rewrite (take_S_r _ _ b) by (apply list_lookup_insert_eq; lia).
    rewrite take_insert_ge by lia. rewrite drop_insert_lt by lia.
    rewrite <- app_assoc. cbn [app].
    by replace (S i + length data)%nat with (i + S (length data))%nat by lia.
Qed.

Lemma tarm_WriteBytesLoop_ok {W : Type} `{TarmSerial W} (bs : list Z) :
  forall (i : nat) (len : Z) (s s' : Tarm.Bus W),
    byte_writes Tarm.WriteByte s bs s' ->
    Tarm.WriteBytesLoop i bs len s = (Ok (len, None), s').
Proof.
  induction bs as [|b bs IH]; intros i len s s' Hw.
  - by inversion Hw; subst.
  - inversion Hw as [|? ? s1 ? ? Hb Hrest]; subst. cbn [Tarm.WriteBytesLoop].
    rewrite Hb. by apply IH.
Qed.

Lemma tarm_WriteBytesLoop_fails {W : Type} `{TarmSerial W} (bs : list Z) :
  forall (i : nat) (len : Z) (b : Z) (rest : list Z) (s s1 s' : Tarm.Bus W) (e : error),
    byte_writes Tarm.WriteByte s bs s1 ->
    Tarm.WriteByte b s1 = (Err e, s') ->
    Tarm.WriteBytesLoop i (bs ++ b :: rest) len s
    = (Ok (Z.of_nat (i + length bs), Some e), s').
Proof.
  induction bs as [|x bs IH]; intros i len b rest s s1 s' e Hw Hfail.
  - inversion Hw; subst. cbn [app Tarm.WriteBytesLoop length]. rewrite Hfail.
    by rewrite Nat.add_0_r.
  - inversion Hw as [|? ? s2 ? ? Hb Hrest]; subst. cbn [app Tarm.WriteBytesLoop length].
    rewrite Hb. rewrite (IH (S i) len b rest s2 s1 s' e Hrest Hfail).
    by replace (S i + length bs)%nat with (i + S (length bs))%nat by lia.
Qed.

(** X6.  When a byte fails in [ReadBytes] or [WriteBytes] of bus.go, the call
    stops there and returns the number of bytes that went through, with the
    error of the failed byte: the buffer of [ReadBytes] then holds the bytes
    read, a zero in the slot of the failed read, and its old contents
    behind; the bytes after a failed write are never sent.  When every write
    succeeds [WriteBytes] returns the length of the buffer. *)
Theorem X6_bytes_stop_at_failure {W : Type} `{TarmSerial W}
    (s s1 s' : Tarm.Bus W) (e : error) :
  (forall buffer data,
     byte_reads Tarm.ReadByte s data s1 ->
     Tarm.ReadByte s1 = (Err e, s') ->
     (length data < length buffer)%nat ->
     Tarm.ReadBytes buffer s
     = (Ok (data ++ 0 :: drop (S (length data)) buffer,
            Z.of_nat (length data), Some e), s'))
  /\ (forall sent b rest,
        byte_writes Tarm.WriteByte s sent s1 ->
        Tarm.WriteByte b s1 = (Err e, s') ->
        Tarm.WriteBytes (sent ++ b :: rest) s
        = (Ok (Z.of_nat (length sent), Some e), s'))
  /\ (forall buffer,
        byte_writes Tarm.WriteByte s buffer s' ->
        Tarm.WriteBytes buffer s = (Ok (Z.of_nat (length buffer), None), s')).
Proof.
  split_and!.
  - intros buffer data Hreads Hfail Hlen. unfold Tarm.ReadBytes.
    replace (length buffer) with (length data + S (length buffer - length data - 1))%nat by lia.
    rewrite (tarm_ReadBytesLoop_fails data 0 buffer s s1 s' e _ Hreads Hfail) by (cbn; lia).
    done.
  - intros sent b rest Hw Hfail. unfold Tarm.WriteBytes.
    by rewrite (tarm_WriteBytesLoop_fails sent 0 _ b rest s s1 s' e Hw Hfail).
  - intros buffer Hw. unfold Tarm.WriteBytes. by apply tarm_WriteBytesLoop_ok.
Qed.

Lemma X6_bytes_stop_at_failure_witness :
  fst (Tarm.ReadBytes [7; 7; 7] (tarm_replay_boot [echo 18; [255]]))
  = Ok ([18; 0; 7], 1, Some (ErrFmt "bits expected: 8, got: %d" [1]))
  /\ fst (Tarm.WriteBytes [18; 52; 86] (tarm_replay_boot [echo 18; echo 0]))
     = Ok (1, Some (ErrMsg "WriteByte: noize detected")).
Proof.
  pose (s := tarm_replay_boot [echo 18; [255]]).
  pose (t := tarm_replay_boot [echo 18; echo 0]).
  split.
  - destruct (X6_bytes_stop_at_failure s (snd (Tarm.ReadByte s))
                (snd (Tarm.ReadByte (snd (Tarm.ReadByte s))))
                (ErrFmt "bits expected: 8, got: %d" [1])) as (Hr & _ & _).
    fold s. rewrite (Hr [7; 7; 7] [18]); [reflexivity | | reflexivity | cbn; lia].
    econstructor; [vm_compute; reflexivity | vm_compute; constructor].
  - destruct (X6_bytes_stop_at_failure t (snd (Tarm.WriteByte 18 t))
                (snd (Tarm.WriteByte 52 (snd (Tarm.WriteByte 18 t))))
                (ErrMsg "WriteByte: noize detected")) as (_ & Hw & _).
    change (fst (Tarm.WriteBytes ([18] ++ 52 :: [86]) t)
            = Ok (1, Some (ErrMsg "WriteByte: noize detected"))).
    rewrite (Hw [18] 52 [86]); [reflexivity | | reflexivity].
    econstructor; [vm_compute; reflexivity | vm_compute; constructor].
Defined.

(** ** bus.go: [Reset] *)

(** X7.  [Reset] of bus.go closes the adapter's port, opens the device at
    9600 baud, writes [0xF0] and reads one byte [b] back.  [b = 0xFF] is "no
    1-wire device present", any other [b] below [0x10] or above [0xE0] is a
    "presence error"; in both cases the adapter keeps the port it closed.
    For [0x10 <= b <= 0xE0] the device is opened again at 115200 baud and the
    new port becomes the adapter's; the 9600-baud port is not closed on any
    path. *)
Theorem X7_Reset_presence {W : Type} `{TarmSerial W}
    (st : Tarm.Bus W) (h p : handle) (n b : Z) (w1 w2 w3 w4 : W) :
  let name := Tarm.device (Tarm.adapter st) in
  Tarm.uart (Tarm.adapter st) = Some h ->
  tarm_Close h (Tarm.world st) = (Done tt, w1) ->
  tarm_OpenPort name 9600 w1 = (Done p, w2) ->
  tarm_Write p [240] w2 = (Done n, w3) ->
  tarm_Read p 1 w3 = (Done [b], w4) ->
  (b = 255 ->
     Tarm.Reset st = (Err (ErrMsg "no 1-wire device present"), tarm_on st w4))
  /\ (b <> 255 -> b < 16 \/ 224 < b ->
        Tarm.Reset st = (Err (ErrFmt "presence error 0x%x" [b]), tarm_on st w4))
  /\ (16 <= b <= 224 ->
        Tarm.Reset st
        = match tarm_OpenPort name 115200 w4 with
          | (Done p', w5) =>
              (Ok tt, {| Tarm.adapter := {| Tarm.device := name; Tarm.uart := Some p' |};
                         Tarm.world := w5 |})
          | (Failed e, w5) => (Err e, tarm_on st w5)
          end).
Proof.
  intros name Hu Hc Ho Hw Hr. subst name.
  destruct st as [[dev u] w]. cbn in Hu, Hc, Ho |- *. subst u.
  unfold Tarm.Reset, bind, Tarm.get_device, Tarm.Close, Tarm.lib, Tarm.set_uart, tarm_on, fail.
  cbn. rewrite Hc. cbn. rewrite Ho. cbn. rewrite Hw. cbn. rewrite Hr. cbn.
  unfold at_. cbn.
  split_and!.
  - intros ->. done.
  - intros Hne Hout. destruct (Z.eqb_spec b 255) as [|_]; [done|].
    destruct (Z.ltb_spec b 16), (Z.ltb_spec 224 b); cbn; try done; lia.
  - intros Hin. destruct (Z.eqb_spec b 255) as [|_]; [lia|].
    destruct (Z.ltb_spec b 16); [lia|]. destruct (Z.ltb_spec 224 b); [lia|]. cbn.
    by destruct (tarm_OpenPort dev 115200 w4) as [[p'|e] w5].
Qed.

Lemma X7_Reset_presence_witness :
  fst (Tarm.Reset (tarm_boot cfg0 three)) = Ok tt
  /\ fst (Tarm.Reset (tarm_boot cfg0 [])) = Err (ErrFmt "presence error 0x%x" [240]).
Proof.
  split.
  - destruct (X7_Reset_presence (tarm_boot cfg0 three) 0%nat 1%nat 1 224
                (snd (tarm_Close 0%nat (Tarm.world (tarm_boot cfg0 three))))
                (snd (tarm_OpenPort "/dev/ttyUSB0" 9600
                        (snd (tarm_Close 0%nat (Tarm.world (tarm_boot cfg0 three))))))
                (snd (tarm_Write 1%nat [240]
                   (snd (tarm_OpenPort "/dev/ttyUSB0" 9600
                        (snd (tarm_Close 0%nat (Tarm.world (tarm_boot cfg0 three))))))))
                (snd (tarm_Read 1%nat 1 (snd (tarm_Write 1%nat [240]
                   (snd (tarm_OpenPort "/dev/ttyUSB0" 9600
                        (snd (tarm_Close 0%nat (Tarm.world (tarm_boot cfg0 three))))))))))
             ) as (_ & _ & Hok); [reflexivity ..|].
    rewrite Hok by lia. reflexivity.
  - destruct (X7_Reset_presence (tarm_boot cfg0 []) 0%nat 1%nat 1 240
                (snd (tarm_Close 0%nat (Tarm.world (tarm_boot cfg0 []))))
                (snd (tarm_OpenPort "/dev/ttyUSB0" 9600
                        (snd (tarm_Close 0%nat (Tarm.world (tarm_boot cfg0 []))))))
                (snd (tarm_Write 1%nat [240]
                   (snd (tarm_OpenPort "/dev/ttyUSB0" 9600
                        (snd (tarm_Close 0%nat (Tarm.world (tarm_boot cfg0 []))))))))
                (snd (tarm_Read 1%nat 1 (snd (tarm_Write 1%nat [240]
                   (snd (tarm_OpenPort "/dev/ttyUSB0" 9600
                        (snd (tarm_Close 0%nat (Tarm.world (tarm_boot cfg0 []))))))))))
             ) as (_ & Herr & _); [reflexivity ..|].
    rewrite Herr by lia. reflexivity.
Defined.

(** ** bus.go on the simulated port table: what [Reset] leaves behind *)

Lemma filter_open_app (ps qs : list (Z * bool)) :
  filter (fun p => snd p = true) (ps ++ qs)
  = filter (fun p => snd p = true) ps ++ filter (fun p => snd p = true) qs.
Proof. apply filter_app. Qed.

Lemma open_close (ps : list (Z * bool)) (h : nat) (baud : Z) :
  ps !! h = Some (baud, true) ->
  S (length (filter (fun p => snd p = true) (<[h := (baud, false)]> ps)))
  = length (filter (fun p => snd p = true) ps).
Proof.
  revert h. induction ps as [|[b o] ps IH]; intros [|h] Hh; try done.
  - injection Hh as -> ->. cbn [insert list_insert].
    rewrite filter_cons_False by (cbn; done). rewrite filter_cons_True by done. done.
  - cbn in Hh. cbn [insert list_insert].
    destruct o.
    + rewrite !filter_cons_True by done. cbn [length]. f_equal. by apply IH with (h := h).
    + rewrite !filter_cons_False by (cbn; done). by apply IH with (h := h).
Qed.

(** X8.  On the simulated port table every successful [Reset] of bus.go
    leaves one more port open than before (the 9600-baud port it opened stays
    open), and the adapter is ready again.  A [Reset] that finds no device
    leaves the adapter with the port it closed: from then on every [Reset]
    fails on closing that port, whatever is on the line. *)
Theorem X8_Reset_ports (c : Config) (ds : list Device) (ph : phase)
    (s : Tarm.Bus TarmWorld) :
  TOn c ds ph s ->
  (ds <> [] ->
     exists s',
       Tarm.Reset s = (Ok tt, s')
       /\ TOn c ds (Command []) s'
       /\ length (open_ports (Tarm.world s')) = S (length (open_ports (Tarm.world s)))
       /\ In (9600, true) (open_ports (Tarm.world s')))
  /\ (ds = [] ->
        exists s' h,
          Tarm.Reset s = (Err (ErrFmt "presence error 0x%x" [240]), s')
          /\ Tarm.uart (Tarm.adapter s') = Some h
          /\ port_baud (Tarm.world s') h = None
          /\ forall t : Tarm.Bus TarmWorld,
               Tarm.uart (Tarm.adapter t) = Some h ->
               port_baud (Tarm.world t) h = None ->
               Tarm.Reset t = (Err (ErrIO "bad file descriptor"), t)).
Proof.
  intros (Hr & Hc & Hd & Hp).
  destruct s as [[dev [h|]] [[c0 ds0 ph0 rx0 now0] ps]]; [|done].
  unfold tarm_ready in Hr. cbn in Hr, Hc, Hd, Hp. subst c0 ds0 ph0.
  destruct (ps !! h) as [[baud [|]]|] eqn:Eh; try done.
  apply andb_true_iff in Hr as [[Hbaud%Z.eqb_eq Hcfg]%andb_true_iff Hrx].
  destruct rx0 as [|]; [|done]. subst baud.
  pose proof (wf_config_spec c Hcfg) as (Hlow & Hpres & Hnib).
  assert (Hh : (h < length ps)%nat) by (by apply lookup_lt_Some in Eh).
  split.
  - intros Hds.
    unfold Tarm.Reset, bind, Tarm.get_device, Tarm.Close, Tarm.lib, Tarm.set_uart.
    cbn. unfold port_baud. cbn. rewrite Eh. cbn.
    rewrite list_lookup_middle by done. cbn.
    rewrite list_lookup_middle by done. cbn.
    destruct ds as [|d ds']; [done|]. cbn.
    assert (E1 : (presence_echo c =? 255) = false) by (apply Z.eqb_neq; lia).
    assert (E2 : (presence_echo c <? 16) = false) by (apply Z.ltb_ge; lia).
    assert (E3 : (224 <? presence_echo c) = false) by (apply Z.ltb_ge; lia).
    unfold at_. cbn. rewrite E1, E2, E3. cbn.
    eexists. split; [reflexivity|]. split_and!.
    + unfold TOn, tarm_ready. cbn.
      rewrite list_lookup_middle by (rewrite length_app; done). cbn.
      rewrite Hcfg. done.
    + unfold open_ports. cbn. rewrite !filter_open_app, !length_app.
      rewrite <- (open_close ps h 115200 Eh).
      rewrite !filter_cons_True by done. cbn. rewrite !Nat.add_1_r. reflexivity.
    + unfold open_ports. cbn. apply list_elem_of_In, list_elem_of_filter. split; [done|].
      apply elem_of_app. left. apply elem_of_app. right. apply list_elem_of_singleton. done.
  - intros ->.
    unfold Tarm.Reset, bind, Tarm.get_device, Tarm.Close, Tarm.lib, Tarm.set_uart.
    cbn. unfold port_baud. cbn. rewrite Eh. cbn.
    rewrite list_lookup_middle by done. cbn.
    rewrite list_lookup_middle by done. cbn.
    eexists. exists h. split; [reflexivity|]. cbn. split_and!; [done | |].
    + rewrite lookup_app_l by (rewrite length_insert; lia).
      rewrite list_lookup_insert_eq by lia. done.
    + intros [[dev' u'] w'] Hu Hclosed. cbn in Hu, Hclosed. subst u'.
      unfold Tarm.Reset, bind, Tarm.get_device, Tarm.Close, Tarm.lib. cbn.
      rewrite Hclosed. done.
Qed.

Lemma X8_Reset_ports_witness :
  exists s',
    Tarm.Reset (tarm_boot cfg0 three) = (Ok tt, s')
    /\ length (open_ports (Tarm.world s')) = 2%nat.
Proof.
  destruct (X8_Reset_ports cfg0 three Idle (tarm_boot cfg0 three)) as [Hok _].
  { split_and!; reflexivity. }
  destruct (Hok ltac:(discriminate)) as (s' & Hrun & _ & Hopen & _).
  exists s'. split; [exact Hrun | exact Hopen].
Defined.

(** ** Searches on the simulated line, continued *)

(** X9.  On a simulated line where at least one device has a latched alarm,
    [GetROMsWithAlarm] of onewire-device.go returns the ROM codes of exactly
    the alarming devices, each once, whatever else is on the line, and leaves
    the adapter ready for the next transaction on the same line. *)
Theorem X9_alarm_search (s : Tarm.Bus TarmWorld) (fuel : nat) :
  let ds := devices (tline (Tarm.world s)) in
  tarm_ready s = true ->
  alarming ds <> [] ->
  Forall (fun d => wf_rom (dev_rom d) = true) ds ->
  NoDup (dev_rom <$> ds) ->
  (length (alarming ds) <= fuel)%nat ->
  exists roms s',
    Tarm.GetROMsWithAlarm fuel s = (Ok roms, s')
    /\ roms ≡ₚ dev_rom <$> alarming ds
    /\ tarm_ready s' = true
    /\ devices (tline (Tarm.world s')) = ds.
Proof.
  intros ds Hready Hparts Hwf Hnd Hfuel.
  assert (Hds : ds <> []).
  { intros E. apply Hparts. unfold alarming. by rewrite E. }
  assert (Hsub : alarming ds `sublist_of` ds) by apply sublist_filter.
  destruct (searchROM_on_spec Tarm.Reset Tarm.WriteByte Tarm.ReadBit Tarm.WriteBit
              (alarming ds) 236
              (TReady (config (tline (Tarm.world s))) ds)
              (TAt (config (tline (Tarm.world s))) ds true)
              (tarm_start _ ds true Hds) (tarm_step _ ds true) (tarm_finish _ ds true)
              (Forall_sublist _ _ _ Hsub Hwf)
              (sublist_NoDup _ _ Hnd (fmap_sublist _ _ _ Hsub))
              true fuel s eq_refl)
    as (roms & s' & Hsearch & [ph' (Hr' & _ & Hd' & _)] & Hperm); try done.
  - by exists (state (tline (Tarm.world s))).
  - by exists roms, s'.
Qed.

Lemma X9_alarm_search_witness :
  exists roms s',
    Tarm.GetROMsWithAlarm 1 (tarm_boot cfg0 three) = (Ok roms, s')
    /\ roms ≡ₚ [rom_b].
Proof.
  destruct (X9_alarm_search (tarm_boot cfg0 three) 1)
    as (roms & s' & Hrun & Hperm & _).
  - vm_compute. reflexivity.
  - discriminate.
  - repeat constructor.
  - exact three_NoDup.
  - vm_compute. lia.
  - exists roms, s'. split; [exact Hrun | exact Hperm].
Defined.

(** X10.  The search of bus-driver.go on the simulated line: with at least
    one device answering the command (all devices for Search-ROM, the
    alarming ones for Alarm-Search), eight-byte ROM codes and no two devices
    with the same code, [searchROM] returns the codes of the answering
    devices, each once, within as many rounds as there are such devices; the
    adapter is then ready on the same line, so that a second search returns
    the same codes. *)
Theorem X10_driver_search (alarm : bool) (s : Bugst.Bus BugstWorld) (fuel : nat) :
  let ds := devices (bline (Bugst.world s)) in
  let parts := if alarm then alarming ds else ds in
  bugst_ready s = true ->
  parts <> [] ->
  Forall (fun d => wf_rom (dev_rom d) = true) ds ->
  NoDup (dev_rom <$> ds) ->
  (length parts <= fuel)%nat ->
  exists roms s',
    Bugst.searchROM fuel alarm s = (Ok roms, s')
    /\ roms ≡ₚ dev_rom <$> parts
    /\ exists roms2 s'',
         Bugst.searchROM fuel alarm s' = (Ok roms2, s'') /\ roms2 ≡ₚ roms.
Proof.
  intros ds parts Hready Hparts Hwf Hnd Hfuel.
  assert (Eparts : parts = answering alarm ds) by done.
  assert (Hds : ds <> []).
  { intros E. apply Hparts. subst parts. unfold alarming. rewrite E. by destruct alarm. }
  assert (Hsub : parts `sublist_of` ds).
  { subst parts. destruct alarm; [apply sublist_filter | done]. }
  pose proof (bugst_ready_spec s Hready) as (_ & _ & Hcfg).
  pose proof (searchROM_on_spec Bugst.reset Bugst.writeByte Bugst.readBit Bugst.writeBit
              parts (if alarm then 236 else 240)
              (BReady (config (bline (Bugst.world s))) ds)
              (BAt (config (bline (Bugst.world s))) ds alarm)
              (bugst_start _ ds alarm Hds Hcfg) (bugst_step _ ds alarm Hcfg)
              (bugst_finish _ ds alarm)
              (Forall_sublist _ _ _ Hsub Hwf)
              (sublist_NoDup _ _ Hnd (fmap_sublist _ _ _ Hsub))
              alarm fuel) as Hspec.
  destruct (Hspec s eq_refl) as (roms & s' & Hsearch & Hr' & Hperm); try done.
  { by exists (state (bline (Bugst.world s))). }
  destruct (Hspec s' eq_refl) as (roms2 & s'' & Hsearch2 & _ & Hperm2); try done.
  exists roms, s'. split_and!; [done | done |].
  exists roms2, s''. split; [done|]. by rewrite Hperm, Hperm2.
Qed.

Lemma X10_driver_search_witness :
  exists roms s',
    Bugst.searchROM 3 false (bugst_boot cfg0 three) = (Ok roms, s')
    /\ roms ≡ₚ [rom_a; rom_b; rom_c].
Proof.
  destruct (X10_driver_search false (bugst_boot cfg0 three) 3)
    as (roms & s' & Hrun & Hperm & _).
  - vm_compute. reflexivity.
  - discriminate.
  - repeat constructor.
  - exact three_NoDup.
  - vm_compute. lia.
  - exists roms, s'. split; [exact Hrun | exact Hperm].
Defined.

(** ** [isConnected] on a faithful bus *)

Lemma select_app ds : forall pos p q,
  select ds pos (p ++ q) = select (select ds pos p) (pos + length p) q.
Proof.
  intros pos p. revert ds pos. induction p as [|a p IH]; intros ds pos q; cbn [app select length].
  - by rewrite Nat.add_0_r.
  - rewrite IH. by replace (S pos + length p)%nat with (pos + S (length p))%nat by lia.
Qed.

Lemma select_nil pos p : select [] pos p = [].
Proof.
  pose proof (select_sublist [] pos p) as H. by apply sublist_nil_r in H.
Qed.

Lemma select_elem ds : forall pos p d,
  d ∈ select ds pos p
  <-> d ∈ ds /\ forall i b, p !! i = Some b -> bitAt d (pos + i) = b.
Proof.
  intros pos p. revert ds pos. induction p as [|a p IH]; intros ds pos d; cbn [select].
  - split; [intros Hd; split; [done|]; intros i b Hi; by rewrite lookup_nil in Hi | tauto].
  - rewrite IH, list_elem_of_filter. split.
    + intros [[Ha Hd] Hrest]. split; [done|]. intros [|i] b Hi.
      * injection Hi as <-. by rewrite Nat.add_0_r.
      * cbn in Hi. replace (pos + S i)%nat with (S pos + i)%nat by lia. by apply Hrest.
    + intros [Hd Hall]. split_and!; [|done|].
      * specialize (Hall 0%nat a eq_refl). by rewrite Nat.add_0_r in Hall.
      * intros i b Hi. replace (S pos + i)%nat with (pos + S i)%nat by lia. by apply Hall.
Qed.

Section ConnectedLoop.
Context {St : Type}.
Variable reset : M St unit.
Variable writeByte : Z -> M St unit.
Variable readBit : M St Z.
Variable writeBit : Z -> M St unit.
Variable parts : list Device.
Variable Ready : St -> Prop.
Variable At : list Z -> St -> Prop.

Hypothesis start : forall s, Ready s ->
  exists s1 s2, reset s = (Ok tt, s1) /\ writeByte 240 s1 = (Ok tt, s2)
                /\ At [] s2.
Hypothesis step : forall p s, At p s -> (length p < 64)%nat ->
  exists s1 s2,
    readBit s = (Ok (wiredAnd (fun d => bitAt d (length p)) (select parts 0 p)), s1)
    /\ readBit s1
       = (Ok (wiredAnd (fun d => 1 - bitAt d (length p)) (select parts 0 p)), s2)
    /\ forall b, b = 0 \/ b = 1 ->
         exists s3, writeBit b s2 = (Ok tt, s3) /\ At (p ++ [b]) s3.

Lemma isConnectedLoop_spec q : forall p s,
  At p s -> bits01 q -> (length p + length q <= 64)%nat ->
  exists r s',
    isConnectedLoop readBit writeBit q s = (Ok r, s')
    /\ (r = true <-> q = [] \/ select parts 0 (p ++ take (length q - 1) q) <> []).
Proof.
  induction q as [|b q IH]; intros p s HAt Hq Hlen.
  - exists true, s. split; [done|]. split; [by left | done].
  - cbn [length] in Hlen. apply Forall_cons in Hq as [Hb Hq].
    destruct (step p s HAt ltac:(lia)) as (s1 & s2 & H1 & H2 & Hw).
    destruct (Hw b Hb) as (s3 & H3 & HAt3).
    cbn [isConnectedLoop]. unfold bind at 1, readBit_ignored at 1. rewrite H1.
    unfold bind at 1, readBit_ignored at 1. rewrite H2.
    rewrite wiredAnd_bit, wiredAnd_cobit.
    pose proof (select_split parts p) as Hsplit.
    destruct (decide (select parts 0 (p ++ [0]) = [])) as [E0|E0];
      destruct (decide (select parts 0 (p ++ [1]) = [])) as [E1|E1];
      cbn [Z.eqb Pos.eqb andb].
    1: { exists false, s2. split; [done|]. split; [done|]. intros [|Hne]; [done|].
         exfalso. apply Hne. rewrite select_app.
         rewrite E0, E1 in Hsplit. apply Permutation_nil_r in Hsplit. rewrite Hsplit.
         apply select_nil. }
    all: unfold bind at 1; rewrite H3;
      destruct (IH (p ++ [b]) s3 HAt3 Hq ltac:(rewrite length_app; cbn; lia))
        as (r & s' & Hrun & Hr);
      exists r, s'; (split; [exact Hrun|]);
      rewrite Hr; clear Hr Hrun IH;
      replace (length (b :: q) - 1)%nat with (length q) by (cbn; lia);
      (assert (Hp : select parts 0 p <> [])
         by (intros Hnil; rewrite Hnil in Hsplit; symmetry in Hsplit;
             apply Permutation_nil_r in Hsplit; apply app_eq_nil in Hsplit as [? ?]; done));
      (destruct q as [|b' q'];
       [ split; [intros _; right; cbn [length take]; by rewrite app_nil_r | intros _; by left]
       | replace (length (b' :: q') - 1)%nat with (length q') by (cbn; lia);
         change (take (length (b' :: q')) (b :: b' :: q'))
           with (b :: take (length q') (b' :: q'));
         rewrite <- app_assoc; cbn [app];
         split; [intros [|]; [done|by right] | intros [|]; [done|by right]] ]).
Qed.

Lemma isConnected_on_spec (rom : ROM) (s : St) :
  Ready s -> length (Code rom) = 8%nat ->
  exists r s',
    isConnected_on reset writeByte readBit writeBit rom s = (Ok r, s')
    /\ (r = true <-> select parts 0 (take 63 (toBits rom)) <> []).
Proof.
  intros Hs Hlen. destruct (start s Hs) as (s1 & s2 & Hreset & Hcmd & HAt).
  pose proof (toBits_length rom Hlen) as Hbits.
  destruct (isConnectedLoop_spec (toBits rom) [] s2 HAt (toBits_01 rom) ltac:(cbn; lia))
    as (r & s' & Hrun & Hr).
  exists r, s'. split.
  - unfold isConnected_on. unfold bind at 1. rewrite Hreset. unfold bind at 1. by rewrite Hcmd.
  - rewrite Hr, Hbits. cbn [app Nat.sub]. split; [intros [E|]; [|done] | by right].
    rewrite E in Hbits. done.
Qed.

End ConnectedLoop.

Lemma select_near (ds : list Device) (rom : ROM) :
  Forall (fun d => wf_rom (dev_rom d) = true) ds -> length (Code rom) = 8%nat ->
  select ds 0 (take 63 (toBits rom)) <> [] <-> exists d, d ∈ ds /\ near rom d.
Proof.
  intros Hwf Hlen. pose proof (toBits_length rom Hlen) as Hbits.
  assert (Hiff : forall d, d ∈ ds ->
            (forall i b, take 63 (toBits rom) !! i = Some b -> bitAt d (0 + i) = b)
            <-> near rom d).
  { intros d Hd. rewrite Forall_forall in Hwf. specialize (Hwf d Hd).
    apply wf_rom_spec in Hwf as [Hd8 _]. pose proof (toBits_length _ Hd8) as Hdbits.
    unfold near. split.
    - intros Hall. apply list_eq_same_length with 63%nat;
        [rewrite length_take; lia | rewrite length_take; lia |].
      intros i x y Hi Hx Hy. rewrite <- (Hall i y Hy). cbn.
      rewrite lookup_take_lt in Hx by done. unfold bitAt, at_. by rewrite Hx.
    - intros Heq i b Hi. cbn. rewrite <- Heq in Hi.
      apply lookup_take_Some in Hi as [Hi _]. unfold bitAt, at_. by rewrite Hi. }
  split.
  - intros Hne. destruct (select ds 0 (take 63 (toBits rom))) as [|d l] eqn:E; [done|].
    assert (Hd : d ∈ select ds 0 (take 63 (toBits rom))) by (rewrite E; left).
    apply select_elem in Hd as [Hd Hall]. exists d. split; [done|]. by apply Hiff.
  - intros (d & Hd & Hnear) E.
    assert (Hin : d ∈ select ds 0 (take 63 (toBits rom))).
    { apply select_elem. split; [done|]. by apply Hiff. }
    rewrite E in Hin. by apply elem_of_nil in Hin.
Qed.

(** X11.  [IsConnected] on the simulated line, for both adapters: after the
    reset and the Search-ROM command it walks the 64 bits of the ROM code and
    gives up as soon as a bit and its complement both read 1.  It therefore
    returns true exactly when some device agrees with the ROM code on its
    first 63 bits: the reads that would show a mismatch in the last bit are
    never made.  In particular it returns true for the code of every device
    on the line. *)
Theorem X11_IsConnected (rom : ROM) :
  (forall s : Tarm.Bus TarmWorld,
     let ds := devices (tline (Tarm.world s)) in
     tarm_ready s = true -> ds <> [] ->
     Forall (fun d => wf_rom (dev_rom d) = true) ds -> wf_rom rom = true ->
     exists r s',
       Tarm.IsConnected rom s = (Ok r, s')
       /\ (r = true <-> exists d, d ∈ ds /\ near rom d)
       /\ ((exists d, d ∈ ds /\ dev_rom d = rom) -> r = true))
  /\ (forall s : Bugst.Bus BugstWorld,
        let ds := devices (bline (Bugst.world s)) in
        bugst_ready s = true -> ds <> [] ->
        Forall (fun d => wf_rom (dev_rom d) = true) ds -> wf_rom rom = true ->
        exists r s',
          Bugst.IsConnected rom s = (Ok r, s')
          /\ (r = true <-> exists d, d ∈ ds /\ near rom d)
          /\ ((exists d, d ∈ ds /\ dev_rom d = rom) -> r = true)).
Proof.
  split.
  - intros s ds Hready Hds Hwf Hrom. apply wf_rom_spec in Hrom as [Hlen _].
    destruct (isConnected_on_spec Tarm.Reset Tarm.WriteByte Tarm.ReadBit Tarm.WriteBit ds
                (TReady (config (tline (Tarm.world s))) ds)
                (TAt (config (tline (Tarm.world s))) ds false)
                (tarm_start _ ds false Hds) (tarm_step _ ds false) rom s)
      as (r & s' & Hrun & Hr); [by exists (state (tline (Tarm.world s))) | done |].
    exists r, s'. rewrite (select_near ds rom Hwf Hlen) in Hr.
    split_and!; [done | done |]. intros (d & Hd & <-). apply Hr. by exists d.
  - intros s ds Hready Hds Hwf Hrom. apply wf_rom_spec in Hrom as [Hlen _].
    pose proof (bugst_ready_spec s Hready) as (_ & _ & Hcfg).
    destruct (isConnected_on_spec Bugst.reset Bugst.writeByte Bugst.readBit Bugst.writeBit ds
                (BReady (config (bline (Bugst.world s))) ds)
                (BAt (config (bline (Bugst.world s))) ds false)
                (bugst_start _ ds false Hds Hcfg) (bugst_step _ ds false Hcfg) rom s)
      as (r & s' & Hrun & Hr); [by exists (state (bline (Bugst.world s))) | done |].
    exists r, s'. rewrite (select_near ds rom Hwf Hlen) in Hr.
    split_and!; [done | done |]. intros (d & Hd & <-). apply Hr. by exists d.
Qed.

Lemma X11_IsConnected_witness :
  exists s', Tarm.IsConnected rom_a' (tarm_boot cfg0 quiet) = (Ok true, s').
Proof.
  destruct (X11_IsConnected rom_a') as [Ht _].
  destruct (Ht (tarm_boot cfg0 quiet)) as (r & s' & Hrun & Hr & _).
  - vm_compute. reflexivity.
  - discriminate.
  - repeat constructor.
  - vm_compute. reflexivity.
  - exists s'. rewrite Hrun. f_equal. f_equal. apply Hr.
    exists {| dev_rom := rom_a; dev_alarm := false |}. split; [left | vm_compute; reflexivity].
Defined.

(** ** crc8: a corrupted byte never goes unnoticed *)

Lemma crc8_byte_inj_all :
  forallb (fun c => forallb (fun b => crc8_byte c b =? crc8_byte 0 (Z.lxor c b)) (seqZ 0 256))
    (seqZ 0 256)
  && forallb (fun x => forallb (fun y => implb (crc8_byte 0 x =? crc8_byte 0 y) (x =? y))
                         (seqZ 0 256)) (seqZ 0 256)
  && forallb (fun c => forallb (fun b => is_byteb (Z.lxor c b)) (seqZ 0 256)) (seqZ 0 256)
  = true.
Proof. vm_compute. reflexivity. Qed.

Lemma lxor_cancel_r a b c : Z.lxor a c = Z.lxor b c -> a = b.
Proof.
  intros E. rewrite <- (Z.lxor_0_r a), <- (Z.lxor_0_r b), <- (Z.lxor_nilpotent c).
  by rewrite <- !Z.lxor_assoc, E.
Qed.

Lemma lxor_cancel_l a b c : Z.lxor c a = Z.lxor c b -> a = b.
Proof. rewrite !(Z.lxor_comm c). apply lxor_cancel_r. Qed.

Lemma crc8_byte_lxor c b :
  0 <= c < 256 -> 0 <= b < 256 ->
  crc8_byte c b = crc8_byte 0 (Z.lxor c b) /\ 0 <= Z.lxor c b < 256.
Proof.
  intros Hc Hb. pose proof crc8_byte_inj_all as Hall.
  apply andb_true_iff in Hall as [[H1 _]%andb_true_iff H3].
  rewrite forallb_forall in H1, H3.
  specialize (H1 c ltac:(apply list_elem_of_In, elem_of_seqZ; lia)).
  specialize (H3 c ltac:(apply list_elem_of_In, elem_of_seqZ; lia)).
  rewrite forallb_forall in H1, H3.
  specialize (H1 b ltac:(apply list_elem_of_In, elem_of_seqZ; lia)).
  specialize (H3 b ltac:(apply list_elem_of_In, elem_of_seqZ; lia)).
  apply Z.eqb_eq in H1. by apply is_byteb_spec in H3.
Qed.

Lemma crc8_byte0_inj x y :
  0 <= x < 256 -> 0 <= y < 256 -> crc8_byte 0 x = crc8_byte 0 y -> x = y.
Proof.
  intros Hx Hy E. pose proof crc8_byte_inj_all as Hall.
  apply andb_true_iff in Hall as [[_ H2]%andb_true_iff _].
  rewrite forallb_forall in H2.
  specialize (H2 x ltac:(apply list_elem_of_In, elem_of_seqZ; lia)).
  rewrite forallb_forall in H2.
  specialize (H2 y ltac:(apply list_elem_of_In, elem_of_seqZ; lia)).
  apply Z.eqb_eq in E. rewrite E in H2. by apply Z.eqb_eq in H2.
Qed.

Lemma crc8_byte_inj_b c b b' :
  0 <= c < 256 -> 0 <= b < 256 -> 0 <= b' < 256 ->
  crc8_byte c b = crc8_byte c b' -> b = b'.
Proof.
  intros Hc Hb Hb' E.
  destruct (crc8_byte_lxor c b Hc Hb) as [E1 R1].
  destruct (crc8_byte_lxor c b' Hc Hb') as [E2 R2].
  rewrite E1, E2 in E. apply crc8_byte0_inj in E; [|done|done].
  by apply lxor_cancel_l in E.
Qed.

Lemma crc8_byte_inj_c c c' b :
  0 <= c < 256 -> 0 <= c' < 256 -> 0 <= b < 256 ->
  crc8_byte c b = crc8_byte c' b -> c = c'.
Proof.
  intros Hc Hc' Hb E.
  destruct (crc8_byte_lxor c b Hc Hb) as [E1 R1].
  destruct (crc8_byte_lxor c' b Hc' Hb) as [E2 R2].
  rewrite E1, E2 in E. apply crc8_byte0_inj in E; [|done|done].
  by apply lxor_cancel_r in E.
Qed.

Lemma crc8_fold_inj post : forall c c',
  Forall (fun b => 0 <= b < 256) post ->
  0 <= c < 256 -> 0 <= c' < 256 ->
  fold_left crc8_byte post c = fold_left crc8_byte post c' -> c = c'.
Proof.
  induction post as [|b post IH]; intros c c' Hpost Hc Hc' E; [done|].
  apply Forall_cons in Hpost as [Hb Hpost]. cbn [fold_left] in E.
  apply IH in E; [|done|by apply crc8_byte_range ..].
  by apply crc8_byte_inj_c in E.
Qed.

Lemma crc8_insert_neq (data : list Z) (i : nat) (b b' : Z) :
  Forall (fun x => 0 <= x < 256) data ->
  data !! i = Some b -> 0 <= b' < 256 -> b' <> b ->
  crc8 (<[i := b']> data) <> crc8 data.
Proof.
  intros Hdata Hi Hb' Hne E.
  assert (Hb : 0 <= b < 256) by (rewrite Forall_lookup in Hdata; by apply (Hdata i)).
  pose proof (lookup_lt_Some _ _ _ Hi) as Hlt.
  rewrite insert_take_drop in E by done.
  rewrite <- (take_drop_middle data i b Hi) in E at 3.
  unfold crc8 in E. rewrite !fold_left_app in E. cbn [fold_left] in E.
  fold (crc8 (take i data)) in E.
  apply crc8_fold_inj in E; [| |by apply crc8_byte_range, crc8_range ..].
  - apply crc8_byte_inj_b in E; [done | apply crc8_range | done | done].
  - rewrite Forall_lookup in Hdata |- *. intros j x Hx. rewrite lookup_drop in Hx.
    by apply (Hdata _ _ Hx).
Qed.

(** X12.  [crc8] notices every corrupted byte: replacing one byte of a
    buffer by another byte always changes its CRC8.  Hence a ROM code that
    passes [IsValid] fails it after any change of one of its eight bytes,
    and nine bytes that pass the scratchpad check of [readScratchpad] fail
    it after any change of one of them. *)
Theorem X12_crc8_detects_byte (data : list Z) (i : nat) (b b' : Z) :
  Forall (fun x => 0 <= x < 256) data ->
  data !! i = Some b -> 0 <= b' < 256 -> b' <> b ->
  crc8 (<[i := b']> data) <> crc8 data
  /\ (length data = 8%nat -> IsValid {| Code := data |} = true ->
        IsValid {| Code := <[i := b']> data |} = false)
  /\ (length data = 9%nat -> crc8 (take 8 data) = at_ data 8 ->
        crc8 (take 8 (<[i := b']> data)) <> at_ (<[i := b']> data) 8).
Proof.
  intros Hdata Hi Hb' Hne.
  assert (Hins : Forall (fun x => 0 <= x < 256) (<[i := b']> data)).
  { apply Forall_insert; done. }
  split_and!.
  - by apply (crc8_insert_neq data i b b').
  - intros Hlen Hvalid.
    assert (Hwf : wf_rom {| Code := data |} = true) by (by apply wf_rom_spec).
    assert (Hwf' : wf_rom {| Code := <[i := b']> data |} = true).
    { apply wf_rom_spec. cbn. by rewrite length_insert. }
    apply (IsValid_residue _ Hwf) in Hvalid. cbn [Code] in Hvalid.
    destruct (IsValid {| Code := <[i := b']> data |}) eqn:E; [|done].
    apply (IsValid_residue _ Hwf') in E. cbn [Code] in E.
    exfalso. apply (crc8_insert_neq data i b b' Hdata Hi Hb' Hne). congruence.
  - intros Hlen Hcrc Hcrc'.
    assert (Hres : forall l, length l = 9%nat -> Forall (fun x => 0 <= x < 256) l ->
              crc8 (take 8 l) = at_ l 8 -> crc8 l = 0).
    { intros l Hl Hbytes Hc.
      destruct (lookup_lt_is_Some_2 l 8 ltac:(lia)) as [x Hx].
      rewrite <- (take_drop_middle l 8 x Hx). rewrite drop_ge by lia.
      rewrite crc8_snoc. unfold at_ in Hc. rewrite Hx in Hc. cbn in Hc.
      apply crc8_byte_zero; [apply crc8_range | | done].
      rewrite Forall_lookup in Hbytes. by apply (Hbytes 8%nat). }
    apply (crc8_insert_neq data i b b' Hdata Hi Hb' Hne).
    rewrite (Hres data Hlen Hdata Hcrc).
    apply Hres; [by rewrite length_insert | done | done].
Qed.

Lemma X12_crc8_detects_byte_witness :
  IsValid {| Code := <[3%nat := 169]> (Code rom_a) |} = false.
Proof.
  destruct (X12_crc8_detects_byte (Code rom_a) 3 168 169) as (_ & Hrom & _).
  - repeat constructor; lia.
  - reflexivity.
  - lia.
  - lia.
  - apply Hrom; [reflexivity | vm_compute; reflexivity].
Defined.

(** ** onewire-temperature-sensor.go: the DS18S20 branch of [calcTemperature] *)

(** X13.  For a sensor of family 0x10, [calcTemperature] returns the raw
    count times 5000 in 9-bit resolution, whatever else the scratchpad holds.
    In extended resolution it reads the bytes 6 (count remain) and 7 (count
    per degree) and returns [raw * 5000 - 2500 + 10000 * (perC - remain) /
    perC], which lies between a quarter of a degree below and three quarters
    of a degree above the 9-bit value when [0 <= remain <= perC]; it panics
    when byte 7 is zero (division by zero) or the scratchpad has fewer than
    eight bytes. *)
Theorem X13_calcTemperature_DS18S20 (s : Tarm.TemperatureSensor) (scratchpad : list Z) :
  Tarm.familyCode s = 16 ->
  let raw := Tarm.int16_le scratchpad in
  (Tarm.resolution s <= 0 -> Tarm.calcTemperature s scratchpad = Ok (raw * 5000))
  /\ (0 < Tarm.resolution s -> (length scratchpad < 8)%nat ->
        Tarm.calcTemperature s scratchpad = Abort Panic)
  /\ (0 < Tarm.resolution s ->
        forall remain perC,
          scratchpad !! 6%nat = Some remain -> scratchpad !! 7%nat = Some perC ->
          (perC = 0 -> Tarm.calcTemperature s scratchpad = Abort Panic)
          /\ (perC <> 0 ->
                Tarm.calcTemperature s scratchpad
                = Ok (raw * 5000 - 2500 + (10000 * (perC - remain)) ÷ perC))
          /\ (0 <= remain <= perC -> 0 < perC ->
                exists t, Tarm.calcTemperature s scratchpad = Ok t
                          /\ raw * 5000 - 2500 <= t <= raw * 5000 + 7500)).
Proof.
  intros Hfam raw. unfold Tarm.calcTemperature. rewrite Hfam. cbn [Z.eqb Pos.eqb].
  fold raw. unfold Tarm.BSResolution9bits, Tarm.index. split_and!.
  - intros Hres. by destruct (Z.ltb_spec 0 (Tarm.resolution s)); [lia|].
  - intros Hres Hlen. destruct (Z.ltb_spec 0 (Tarm.resolution s)); [|lia].
    rewrite (proj2 (lookup_ge_None scratchpad 7)) by lia.
    by destruct (scratchpad !! 6%nat).
  - intros Hres remain perC H6 H7. destruct (Z.ltb_spec 0 (Tarm.resolution s)); [|lia].
    rewrite H6, H7. split_and!.
    + intros ->. done.
    + intros Hne. by destruct (Z.eqb_spec perC 0).
    + intros Hrem Hpos. destruct (Z.eqb_spec perC 0); [lia|].
      eexists. split; [reflexivity|].
      assert (0 <= (10000 * (perC - remain)) ÷ perC <= 10000); [|lia].
      rewrite Z.quot_div_nonneg by nia. split.
      * apply Z.div_pos; nia.
      * apply Z.div_le_upper_bound; nia.
Qed.

Lemma X13_calcTemperature_DS18S20_witness :
  Tarm.calcTemperature ds18s20 [50; 0; 75; 70; 255; 255; 12; 16] = Ok 250000.
Proof.
  destruct (X13_calcTemperature_DS18S20 ds18s20 [50; 0; 75; 70; 255; 255; 12; 16] eq_refl)
    as (_ & _ & Hext).
  destruct (Hext ltac:(cbn; lia) 12 16 eq_refl eq_refl) as (_ & Hval & _).
  rewrite Hval by lia. reflexivity.
Defined.

(** ** onewire-temperature-sensor.go: what [NewTemperatureSensor] returns *)

Section NewSensor.
Context {W : Type} `{TarmSerial W} `{Clock W}.

Lemma finishSensor_result (s0 s : Tarm.TemperatureSensor) (st st' : Tarm.Bus W) :
  Tarm.finishSensor s0 st = (Ok s, st') ->
  exists r,
    Tarm.rom s0 = Some r /\ Tarm.rom s = Some r
    /\ Tarm.familyCode s = at_ (Code r) 0
    /\ Tarm.singleMode s = Tarm.singleMode s0
    /\ Tarm.tRW s = 10 * Tarm.Millisecond
    /\ Tarm.description s = Tarm.describe (Tarm.familyCode s)
    /\ (exists st1, Tarm.inParasiticMode s0 st = (Ok (Tarm.parasiticMode s), st1))
    /\ (Tarm.familyCode s <> 34 -> Tarm.familyCode s <> 40 ->
          st' = snd (Tarm.inParasiticMode s0 st)
          /\ Tarm.resolution s = 0 /\ Tarm.tConv s = 750 * Tarm.Millisecond
          /\ Tarm.precision s = if Tarm.familyCode s =? 16 then "9 bits" else "unknown").
Proof.
  unfold Tarm.finishSensor, bind.
  destruct (Tarm.inParasiticMode s0 st) as [[pm|e|c] st1]; [|done|done].
  cbn [Tarm.rom Tarm.mkSensor].
  destruct (Tarm.rom s0) as [r|]; [|done].
  cbn [Tarm.familyCode Tarm.resolution Tarm.singleMode Tarm.parasiticMode
       Tarm.precision Tarm.tConv Tarm.tRW Tarm.rom].
  destruct (at_ (Code r) 0 =? 16) eqn:E16.
  { change (Tarm.BSResolution9bits =? Tarm.BSResolution9bits) with true. cbn.
    intros [= <- <-]. exists r. cbn. rewrite E16.
    split_and!; try done. by exists st1. }
  destruct ((at_ (Code r) 0 =? 34) || (at_ (Code r) 0 =? 40)) eqn:Efam.
  - destruct (Tarm.readScratchpad _ st1) as [[sp|e|c] st2]; [|done|done].
    cbn [Tarm.with_resolution Tarm.resolution].
    rewrite (convTime_ok _ (land3_range (Z.shiftr (at_ sp 4) 5))).
    intros [= <- <-]. exists r. cbn. split_and!; try done; [by exists st1|].
    intros H34 H40. apply orb_true_iff in Efam as [E%Z.eqb_eq | E%Z.eqb_eq]; done.
  - unfold ret. intros [= <- <-]. exists r. cbn. rewrite E16.
    split_and!; try done. by exists st1.
Qed.

End NewSensor.

(** X14.  A sensor that [NewTemperatureSensor] returns always has a ROM code:
    the one given, or, when none was given, the one Read-ROM delivered, which
    passes the CRC8 check.  Its family code is the first byte of that code,
    it is in single mode exactly when no ROM code was given, its write time
    is 10 ms, and for families other than 0x22 and 0x28 it keeps resolution
    0 and the conversion time 750 ms.  When no ROM code is given and Read-ROM
    fails, no sensor is returned: with [required] the error is "cannot read
    sensor's ROM code"; without it the power probe runs with no ROM, and if
    it succeeds the constructor panics on the missing ROM. *)
Theorem X14_NewTemperatureSensor {W : Type} `{TarmSerial W} `{Clock W}
    (rom : option ROM) (required : bool) (st : Tarm.Bus W) :
  (forall s st',
     Tarm.NewTemperatureSensor rom required st = (Ok s, st') ->
     exists r,
       Tarm.rom s = Some r
       /\ match rom with
          | Some r0 => r = r0 /\ Tarm.singleMode s = false
          | None =>
              Tarm.singleMode s = true /\ IsValid r = true
              /\ exists st1, Tarm.readROM st = (Ok r, st1)
          end
       /\ Tarm.familyCode s = at_ (Code r) 0
       /\ Tarm.tRW s = 10 * Tarm.Millisecond
       /\ Tarm.description s = Tarm.describe (Tarm.familyCode s)
       /\ (Tarm.familyCode s <> 34 -> Tarm.familyCode s <> 40 ->
             Tarm.resolution s = 0 /\ Tarm.tConv s = 750 * Tarm.Millisecond))
  /\ (rom = None ->
      forall e st1,
        Tarm.readROM st = (Err e, st1) ->
        (forall s st', Tarm.NewTemperatureSensor rom required st <> (Ok s, st'))
        /\ (required = true ->
              Tarm.NewTemperatureSensor rom required st
              = (Err (ErrMsg "cannot read sensor's ROM code"), st1))
        /\ (required = false ->
              forall pm st2,
                Tarm.inParasiticMode (Tarm.mkSensor None true false 0) st1 = (Ok pm, st2) ->
                Tarm.NewTemperatureSensor rom required st = (Abort Panic, st2))).
Proof.
  split.
  - intros s st' Hrun. unfold Tarm.NewTemperatureSensor in Hrun.
    destruct rom as [r0|].
    + unfold bind in Hrun.
      destruct (Tarm.isConnected r0 st) as [[online|e|c] st1]; [|done|done].
      destruct (required && negb online); [done|].
      destruct (finishSensor_result _ _ _ _ Hrun)
        as (r & Hr0 & Hr & Hfam & Hsingle & HtRW & Hdesc & _ & Hother).
      cbn in Hr0, Hsingle. injection Hr0 as <-.
      exists r0. split_and!; try done. intros H34 H40.
      by destruct (Hother H34 H40) as (_ & ? & ? & _).
    + destruct (Tarm.readROM st) as [[r1|e|c] st1] eqn:Hrom; [| |done].
      * destruct (finishSensor_result _ _ _ _ Hrun)
          as (r & Hr0 & Hr & Hfam & Hsingle & HtRW & Hdesc & _ & Hother).
        cbn in Hr0, Hsingle. injection Hr0 as <-.
        exists r1. split_and!; try done.
        -- by eapply tarm_readROM_valid.
        -- by exists st1.
        -- intros H34 H40. by destruct (Hother H34 H40) as (_ & ? & ? & _).
      * destruct required; [done|].
        by destruct (finishSensor_result _ _ _ _ Hrun) as (r & Hr0 & _).
  - intros -> e st1 Hrom. unfold Tarm.NewTemperatureSensor. rewrite Hrom. split_and!.
    + intros s st' Hrun. destruct required; [done|].
      by destruct (finishSensor_result _ _ _ _ Hrun) as (r & Hr0 & _).
    + by intros ->.
    + intros -> pm st2 Hpm. unfold Tarm.finishSensor, bind. by rewrite Hpm.
Qed.

Lemma X14_NewTemperatureSensor_witness :
  exists s st',
    Tarm.NewTemperatureSensor None true
      (tarm_replay_boot (new_sensor_script (Code rom_b) scratch_ok)) = (Ok s, st')
    /\ Tarm.rom s = Some rom_b /\ Tarm.singleMode s = true.
Proof.
  pose (st := tarm_replay_boot (new_sensor_script (Code rom_b) scratch_ok)).
  assert (Hrun : exists s st', Tarm.NewTemperatureSensor None true st = (Ok s, st')
                               /\ Tarm.rom s = Some rom_b).
  { eexists _, _. split; vm_compute; reflexivity. }
  destruct Hrun as (s & st' & Hrun & Hrom).
  destruct (X14_NewTemperatureSensor None true st) as [Hres _].
  destruct (Hres s st' Hrun) as (r & _ & (Hsingle & _) & _).
  exists s, st'. split_and!; [exact Hrun | exact Hrom | exact Hsingle].
Defined.

(** ** onewire-temperature-sensor.go: the steps of [SetResolution] *)

Lemma land3_mod r : 0 <= r -> Z.land r 3 = r mod 4.
Proof. intros Hr. change 3 with (Z.ones 2). by rewrite Z.land_ones by lia. Qed.

(** X15.  For the families 0x22 and 0x28, [SetResolution r] reads the
    scratchpad and writes back the two alarm bytes it found there followed
    by the configuration byte [32 * (r mod 4) + 31].  If the read fails the
    sensor is untouched.  If the write fails the error is returned with the
    sensor's resolution already set to [r mod 4] while its conversion time
    and precision text are still the old ones.  If the write succeeds the
    conversion time becomes [750 ms / 2^(3 - r mod 4)] and the precision text
    "9 bits" to "12 bits". *)
Theorem X15_SetResolution_steps {W : Type} `{TarmSerial W} `{Clock W}
    (r : Z) (s : Tarm.TemperatureSensor) (st : Tarm.Bus W) :
  Tarm.familyCode s = 34 \/ Tarm.familyCode s = 40 ->
  0 <= r < 256 ->
  let s1 := Tarm.with_resolution s (r mod 4) in
  (forall e st1,
     Tarm.readScratchpad s st = (Err e, st1) ->
     Tarm.SetResolution r (s, st) = (Err e, (s, st1)))
  /\ (forall sp st1 e st2,
        Tarm.readScratchpad s st = (Ok sp, st1) ->
        Tarm.writeScratchpad s1 [at_ sp 2; at_ sp 3; 32 * (r mod 4) + 31] st1
        = (Err e, st2) ->
        Tarm.SetResolution r (s, st) = (Err e, (s1, st2))
        /\ Tarm.tConv s1 = Tarm.tConv s /\ Tarm.precision s1 = Tarm.precision s)
  /\ (forall sp st1 st2,
        Tarm.readScratchpad s st = (Ok sp, st1) ->
        Tarm.writeScratchpad s1 [at_ sp 2; at_ sp 3; 32 * (r mod 4) + 31] st1
        = (Ok tt, st2) ->
        Tarm.SetResolution r (s, st)
        = (Ok tt,
           (Tarm.with_precision
              (Tarm.with_tConv s1 (Tarm.Millisecond * (750 / 2 ^ (3 - r mod 4))))
              (nth (Z.to_nat (r mod 4)) ["9 bits"; "10 bits"; "11 bits"; "12 bits"] ""),
            st2))).
Proof.
  intros Hfam Hr s1.
  assert (E16 : (Tarm.familyCode s =? 16) = false) by (apply Z.eqb_neq; lia).
  assert (Efam : (Tarm.familyCode s =? 34) || (Tarm.familyCode s =? 40) = true).
  { destruct Hfam as [-> | ->]; reflexivity. }
  assert (Hcases : r mod 4 = 0 \/ r mod 4 = 1 \/ r mod 4 = 2 \/ r mod 4 = 3).
  { pose proof (Z.mod_pos_bound r 4 ltac:(lia)). lia. }
  unfold Tarm.SetResolution. rewrite E16, Efam.
  rewrite (land3_mod r) by lia. fold s1.
  assert (Ecfg : Z.lor (byte_of (Z.shiftl (Tarm.resolution s1) 5)) 31 = 32 * (r mod 4) + 31).
  { subst s1. cbn [Tarm.resolution Tarm.with_resolution].
    destruct Hcases as [-> | [-> | [-> | ->]]]; reflexivity. }
  change ([?a; ?b] ++ [?c]) with [a; b; c]. rewrite Ecfg.
  split_and!.
  - intros e st1 ->. done.
  - intros sp st1 e st2 -> Hw. cbn [app]. rewrite Hw. done.
  - intros sp st1 st2 -> Hw. cbn [app]. rewrite Hw.
    subst s1. cbn [Tarm.resolution Tarm.with_resolution].
    destruct Hcases as [-> | [-> | [-> | ->]]]; reflexivity.
Qed.

Lemma X15_SetResolution_steps_witness :
  let '(res, (s', _)) :=
    Tarm.SetResolution 1 (single_sensor, tarm_replay_boot (resolution_script 0)) in
  res = Err (ErrMsg "WriteByte: noize detected")
  /\ s' = Tarm.with_resolution single_sensor 1.
Proof.
  pose (st := tarm_replay_boot (resolution_script 0)).
  destruct (X15_SetResolution_steps 1 single_sensor st (or_intror eq_refl) ltac:(lia))
    as (_ & Hfail & _).
  destruct (Hfail (take 8 scratch_ok) (snd (Tarm.readScratchpad single_sensor st))
              (ErrMsg "WriteByte: noize detected")
              (snd (Tarm.writeScratchpad (Tarm.with_resolution single_sensor 1) [75; 70; 63]
                      (snd (Tarm.readScratchpad single_sensor st)))))
    as (Hrun & _); [vm_compute; reflexivity ..|].
  fold st. rewrite Hrun. split; reflexivity.
Defined.
